(** * Budget backend: the record stores, the account ledger and the dashboard

    A shallow embedding of the Express/Prisma handlers of the budget backend
    (controllers, routes and [index.ts]) and the properties of its
    specification that were checked against them.

    Conventions of the embedding.
    - Money is counted in hundredths, the scale of the [DECIMAL(15,2)]
      columns of the schema, as an integer; [units n] is the amount [n.00].
      A number of a request is one with at most two decimals: what the
      database makes of further decimals (it rounds to the scale of each
      column on its own) is outside the embedding. Arithmetic is exact: the
      sums and comparisons that JavaScript makes on doubles are taken on the
      decimal numbers they stand for. The fifteen digits of a column are
      modelled where amounts add up, in the ledger, and for the amount of an
      income, an expense and an investment: a value beyond them is rejected
      and the call throws.
    - An integer of a request ([page], [limit], a month) is one that a
      number holds exactly, at most [maxSafeInteger] in size, and a table
      has fewer rows than that.
    - A point in time is a number of milliseconds of local time since the
      epoch, in a zone with a fixed offset.
    - The store is one record of tables; a table is a finite map from the
      primary key [id] to the row (the account table is keyed by its unique
      [userId]).
    - A handler is a function from the request and the store to the store
      after the call and the response. A Prisma call that is rejected (a
      duplicate key, a missing row, a value of the wrong type, [NaN] for a
      column that is not optional, an invalid date) throws; the handler's
      [try]/[catch] turns that into a 500 and keeps the writes already made.
      [NaN] for an optional decimal column is stored as [NULL].
    - The values a new row gets from outside the handler (the generated id,
      the clock) are arguments of the handler. *)

From stdpp Require Import gmap strings pretty list fin_maps sorting.
From Stdlib Require Import ZArith Lia.

Local Open Scope string_scope.
Local Open Scope Z_scope.

(** ** JavaScript values of a request body *)

Inductive jsval : Type :=
| JUndefined
| JNull
| JBool (b : bool)
| JNum (n : Z)
| JStr (s : string).

Global Instance jsval_eq_dec : EqDecision jsval.
Proof. solve_decision. Defined.

(** [units n] is the amount [n] of whole currency units, in hundredths. *)
Definition units (n : Z) : Z := n * 100.

(** Truthiness, as [!v], [v && e], [v || e] and [v ? a : b] test it. *)
Definition truthy (v : jsval) : bool :=
  match v with
  | JUndefined | JNull => false
  | JBool b => b
  | JNum n => negb (n =? 0)
  | JStr s => negb (String.eqb s "")
  end.

(** [v == null] *)
Definition nullish (v : jsval) : bool :=
  match v with
  | JUndefined | JNull => true
  | _ => false
  end.

(** [v !== undefined] *)
Definition defined (v : jsval) : bool :=
  match v with
  | JUndefined => false
  | _ => true
  end.

(** The built-in conversions of strings, which the repository calls and does
    not define. [None] is [NaN] (an invalid date for [DateParse]). A number
    that stands for money is given in hundredths. *)
Class JsBuiltins : Type := {
  parseFloatStr : string → option Z;
  NumberStr : string → option Z;
  parseIntStr : string → option Z;
  parseIntStr10 : string → option Z;
  DateParse : string → option Z;
  trim : string → string;
}.

Section js.
Context `{JsBuiltins}.

(** [parseFloat(v)]: a number is itself, a string is read, all else is
    [NaN]. *)
Definition parseFloat (v : jsval) : option Z :=
  match v with
  | JNum n => Some n
  | JStr s => parseFloatStr s
  | _ => None
  end.

(** [Number(v)] of a value that stands for money. *)
Definition Number (v : jsval) : option Z :=
  match v with
  | JUndefined => None
  | JNull => Some 0
  | JBool b => Some (if b then units 1 else 0)
  | JNum n => Some n
  | JStr s => NumberStr s
  end.

(** [parseInt(q)] of a query parameter, [undefined] when it is absent. *)
Definition parseInt (q : option string) : option Z :=
  match q with
  | Some s => parseIntStr s
  | None => None
  end.

(** [new Date(v)] *)
Definition newDate (v : jsval) : option Z :=
  match v with
  | JUndefined => None
  | JNull => Some 0
  | JBool b => Some (if b then 1 else 0)
  | JNum n => Some n
  | JStr s => DateParse s
  end.
End js.

(** [v.toString()] of a truthy value. A number that is sent where a text
    is read (the number or the type of a card) does not stand for money: it
    is a whole number, given as it is. *)
Definition toString (v : jsval) : string :=
  match v with
  | JUndefined => "undefined"
  | JNull => "null"
  | JBool b => if b then "true" else "false"
  | JNum n => pretty n
  | JStr s => s
  end.

(** [s.slice(-4)]: the last four characters, all of [s] when it is shorter. *)
Definition sliceLast4 (s : string) : string :=
  String.substring (String.length s - 4)%nat 4%nat s.

(** [s.split('/')] *)
Fixpoint splitSlash (s : string) : list string :=
  match s with
  | EmptyString => [""]
  | String c rest =>
      if Ascii.eqb c (Ascii.ascii_of_nat 47) then "" :: splitSlash rest
      else match splitSlash rest with
           | part :: parts => String c part :: parts
           | [] => [String c ""]
           end
  end.

(** [x <= 0] and [x < 0] on a number that may be [NaN]: a comparison with
    [NaN] is false. *)
Definition le0 (x : option Z) : bool :=
  match x with
  | Some n => n <=? 0
  | None => false
  end.

Definition lt0 (x : option Z) : bool :=
  match x with
  | Some n => n <? 0
  | None => false
  end.

(** The largest value of a [DECIMAL(15,2)] column, in hundredths:
    9999999999999.99. *)
Definition maxDecimal : Z := 999999999999999.

(** What the database takes for a [DECIMAL(15,2)] column: a value of at
    most fifteen digits. *)
Definition fitsDecimal (n : Z) : bool := (- maxDecimal <=? n) && (n <=? maxDecimal).

Definition decimal (n : Z) : option Z := if fitsDecimal n then Some n else None.

(** [x || d] on a number: [NaN] and [0] are falsy. *)
Definition orDefault (x : option Z) (d : Z) : Z :=
  match x with
  | Some n => if n =? 0 then d else n
  | None => d
  end.

(** What Prisma accepts for a column: a required text column takes a string,
    an optional one also [null] and [undefined]. *)
Definition asString (v : jsval) : option string :=
  match v with
  | JStr s => Some s
  | _ => None
  end.

Definition asOptString (v : jsval) : option (option string) :=
  match v with
  | JUndefined | JNull => Some None
  | JStr s => Some (Some s)
  | _ => None
  end.

Definition asBool (v : jsval) : option bool :=
  match v with
  | JBool b => Some b
  | _ => None
  end.

(** An integer column ([alertThreshold]). *)
Definition asInt (v : jsval) : option Z :=
  match v with
  | JNum n => Some n
  | _ => None
  end.

(** An optional integer column ([expiryMonth], [month], [year], ...). *)
Definition asOptInt (v : jsval) : option (option Z) :=
  match v with
  | JUndefined | JNull => Some None
  | JNum n => Some (Some n)
  | _ => None
  end.

(** ** The rows of the schema *)

Module Account.
Record t : Type := mk {
  totalBalance : Z;
  totalIncome : Z;
  totalExpense : Z;
  totalSavings : Z;
  totalInvested : Z;
}.
(** The column defaults: a new row is all zero. *)
Definition zero : t := mk 0 0 0 0 0.
End Account.

Module Income.
Record t : Type := mk {
  userId : string;
  title : string;
  source : string;
  amount : Z;
  date : Z;
  frequency : option string;
  description : option string;
}.
End Income.

Module Expense.
Record t : Type := mk {
  userId : string;
  title : string;
  category : string;
  amount : Z;
  date : Z;
  paymentMethod : option string;
  description : option string;
}.
End Expense.

Module Investment.
Record t : Type := mk {
  userId : string;
  title : string;
  area : string;
  amount : Z;
  quantity : option Z;
  purchasePrice : option Z;
  currentValue : option Z;
  date : Z;
  description : option string;
}.
End Investment.

Module Budget.
Record t : Type := mk {
  userId : string;
  name : string;
  category : option string;
  spent : Z;
  limit : Z;
  color : string;
  icon : option string;
  frequency : string;
  month : option Z;
  year : option Z;
  alertThreshold : Z;
  followed : option bool;
  createdAt : Z;
}.
End Budget.

Module Card.
Record t : Type := mk {
  userId : string;
  name : string;
  type : string;
  last4 : string;
  issuer : option string;
  expiryMonth : option Z;
  expiryYear : option Z;
  limit : option Z;
  isDefault : bool;
  createdAt : Z;
}.
End Card.

Module SavingsGoal.
Record t : Type := mk {
  userId : string;
  title : string;
  description : option string;
  targetAmount : Z;
  currentAmount : Z;
  deadline : option Z;
  priority : string;
  status : string;
  category : option string;
  icon : option string;
  createdAt : Z;
}.
End SavingsGoal.

Module Transaction.
Record t : Type := mk {
  userId : string;
  title : string;
  description : option string;
  date : Z;
  amount : Z;
  type : string;
  category : string;
  icon : option string;
}.
End Transaction.

(** ** The store *)

Record DB : Type := mkDB {
  accounts : gmap string Account.t;
  incomes : gmap string Income.t;
  expenses : gmap string Expense.t;
  investments : gmap string Investment.t;
  budgets : gmap string Budget.t;
  cards : gmap string Card.t;
  savingsGoals : gmap string SavingsGoal.t;
  transactions : gmap string Transaction.t;
}.

Definition emptyDB : DB := mkDB ∅ ∅ ∅ ∅ ∅ ∅ ∅ ∅.

Definition set_accounts (m : gmap string Account.t) (db : DB) : DB :=
  mkDB m (incomes db) (expenses db) (investments db) (budgets db) (cards db)
       (savingsGoals db) (transactions db).
Definition set_incomes (m : gmap string Income.t) (db : DB) : DB :=
  mkDB (accounts db) m (expenses db) (investments db) (budgets db) (cards db)
       (savingsGoals db) (transactions db).
Definition set_expenses (m : gmap string Expense.t) (db : DB) : DB :=
  mkDB (accounts db) (incomes db) m (investments db) (budgets db) (cards db)
       (savingsGoals db) (transactions db).
Definition set_investments (m : gmap string Investment.t) (db : DB) : DB :=
  mkDB (accounts db) (incomes db) (expenses db) m (budgets db) (cards db)
       (savingsGoals db) (transactions db).
Definition set_budgets (m : gmap string Budget.t) (db : DB) : DB :=
  mkDB (accounts db) (incomes db) (expenses db) (investments db) m (cards db)
       (savingsGoals db) (transactions db).
Definition set_cards (m : gmap string Card.t) (db : DB) : DB :=
  mkDB (accounts db) (incomes db) (expenses db) (investments db) (budgets db) m
       (savingsGoals db) (transactions db).
Definition set_savingsGoals (m : gmap string SavingsGoal.t) (db : DB) : DB :=
  mkDB (accounts db) (incomes db) (expenses db) (investments db) (budgets db)
       (cards db) m (transactions db).
Definition set_transactions (m : gmap string Transaction.t) (db : DB) : DB :=
  mkDB (accounts db) (incomes db) (expenses db) (investments db) (budgets db)
       (cards db) (savingsGoals db) m.

(** A table of the store, by its getter and setter. *)
Record Table (A : Type) : Type := mkTable {
  rows : DB → gmap string A;
  set_rows : gmap string A → DB → DB;
}.
Arguments rows {A} _ _.
Arguments set_rows {A} _ _ _.

Definition account : Table Account.t := mkTable _ accounts set_accounts.
Definition income : Table Income.t := mkTable _ incomes set_incomes.
Definition expense : Table Expense.t := mkTable _ expenses set_expenses.
Definition investment : Table Investment.t := mkTable _ investments set_investments.
Definition budget : Table Budget.t := mkTable _ budgets set_budgets.
Definition card : Table Card.t := mkTable _ cards set_cards.
Definition savingsGoal : Table SavingsGoal.t := mkTable _ savingsGoals set_savingsGoals.
Definition transaction : Table Transaction.t := mkTable _ transactions set_transactions.

(** ** Requests and responses *)

Module Req.
(** [userId] is what the token check put on the request ([undefined]
    without a valid token), [id] is [req.params.id]. *)
Record t : Type := mk {
  userId : option string;
  id : string;
  query : gmap string string;
  body : gmap string jsval;
}.
End Req.

(** [const { k } = req.body]: a missing key reads as [undefined]. *)
Definition field (k : string) (req : Req.t) : jsval :=
  default JUndefined (Req.body req !! k).

Inductive Response (R : Type) : Type :=
| Json (status : Z) (body : R)
| JsonError (status : Z) (error : string).
Arguments Json {R} _ _.
Arguments JsonError {R} _ _.

Definition statusOf {R : Type} (r : Response R) : Z :=
  match r with
  | Json s _ => s
  | JsonError s _ => s
  end.

(** ** The handler monad

    The body of a handler runs on the store and either goes on with a value,
    has returned a response, or has thrown. *)

Inductive step (R A : Type) : Type :=
| Go (a : A)
| Returned (r : Response R)
| Thrown.
Arguments Go {R A} _.
Arguments Returned {R A} _.
Arguments Thrown {R A}.

Definition M (R A : Type) : Type := DB → DB * step R A.

Definition go {R A : Type} (a : A) : M R A := λ db, (db, Go a).
Definition respond {R A : Type} (r : Response R) : M R A := λ db, (db, Returned r).
Definition throw {R A : Type} : M R A := λ db, (db, Thrown).

Definition bind {R A B : Type} (m : M R A) (k : A → M R B) : M R B :=
  λ db,
    match m db with
    | (db', Go a) => k a db'
    | (db', Returned r) => (db', Returned r)
    | (db', Thrown) => (db', Thrown)
    end.

Declare Scope handler_scope.
Delimit Scope handler_scope with handler.
Notation "'let*' x := m 'in' k" := (bind m (λ x, k))
  (at level 10, x pattern, m at level 100, k at level 200) : handler_scope.
Notation "m ;; k" := (bind m (λ _, k))
  (at level 100, k at level 200, right associativity) : handler_scope.

(** [try { body } catch { return res.status(500).json({ error }) }] *)
Definition tryCatch {R : Type} (error : string) (m : M R (Response R)) :
    DB → DB * Response R :=
  λ db,
    match m db with
    | (db', Go r) => (db', r)
    | (db', Returned r) => (db', r)
    | (db', Thrown) => (db', JsonError 500 error)
    end.

(** A value Prisma must accept, or the call throws. *)
Definition accepted {R A : Type} (o : option A) : M R A :=
  match o with
  | Some a => go a
  | None => throw
  end.

(** [!row] for the result of a lookup. *)
Definition missing {A : Type} (o : option A) : bool :=
  if o is Some _ then false else true.

(** [if (c) return r;] *)
Definition returnIf {R : Type} (c : bool) (r : Response R) : M R unit :=
  if c then respond r else go tt.

(** [if (!userId) return res.status(401).json({ error: 'Unauthorized' })];
    after it [userId] is a non-empty string. *)
Definition authorized {R : Type} (req : Req.t) : M R string :=
  match Req.userId req with
  | Some u => if String.eqb u "" then respond (JsonError 401 "Unauthorized") else go u
  | None => respond (JsonError 401 "Unauthorized")
  end.

(** ** Prisma calls *)

(** The largest integer up to which every integer is a number of
    JavaScript: 2^53 - 1. *)
Definition maxSafeInteger : Z := 9007199254740991.

(** A number that fits a signed integer of 64 bits. *)
Definition fitsInt64 (n : Z) : bool := (- 2 ^ 63 <=? n) && (n <? 2 ^ 63).

(** [skip] and [take] of a [findMany]: a number that does not fit 64 bits
    is rejected, and so is a negative [skip]; a negative [take] counts from
    the end of the list. *)
Definition page {A : Type} (skip take_ : Z) (l : list A) : option (list A) :=
  if negb (fitsInt64 skip && fitsInt64 take_) then None
  else if skip <? 0 then None
  else if 0 <=? take_ then Some (take (Z.to_nat take_) (drop (Z.to_nat skip) l))
  else Some (reverse (take (Z.to_nat (- take_)) (drop (Z.to_nat skip) (reverse l)))).

(** An order on rows, on rows with their keys. *)
Definition onRow {A : Type} (orderBy : relation A) : relation (string * A) :=
  λ x y, orderBy x.2 y.2.
Global Instance onRow_dec {A : Type} (orderBy : relation A) `{!RelDecision orderBy} :
  RelDecision (onRow orderBy).
Proof. intros x y. unfold onRow. apply _. Defined.

Section prisma.
Context {R A : Type} (T : Table A).

(** [findFirst({ where: { id, userId } })] *)
Definition findFirst (owner : A → string) (id userId : string) : M R (option A) :=
  λ db,
    (db, Go (match rows T db !! id with
             | Some r => if String.eqb (owner r) userId then Some r else None
             | None => None
             end)).

(** [findUnique({ where: { key } })] *)
Definition findUnique (key : string) : M R (option A) :=
  λ db, (db, Go (rows T db !! key)).

(** [create({ data })]: the key must be new. *)
Definition create (key : string) (row : A) : M R A :=
  λ db,
    match rows T db !! key with
    | Some _ => (db, Thrown)
    | None => (set_rows T (<[key := row]> (rows T db)) db, Go row)
    end.

(** [update({ where: { key }, data })]: the row must exist; [data] is
    given as the change it makes to the row, [None] when Prisma rejects a
    value in it. *)
Definition update (key : string) (data : A → option A) : M R A :=
  λ db,
    match rows T db !! key with
    | Some r =>
        match data r with
        | Some r' => (set_rows T (<[key := r']> (rows T db)) db, Go r')
        | None => (db, Thrown)
        end
    | None => (db, Thrown)
    end.

(** [updateMany({ where, data })] *)
Definition updateMany (where_ : A → bool) (data : A → A) : M R unit :=
  λ db,
    (set_rows T ((λ r, if where_ r then data r else r) <$> rows T db) db, Go tt).

(** [findMany({ where, orderBy })]: the rows that match, with their keys,
    in the order [orderBy] asks for. Rows that [orderBy] does not tell
    apart come in an order that the database does not fix; here they come
    in one order, that of the sort. *)
Definition findMany (where_ : A → bool) (orderBy : relation A)
    `{!RelDecision orderBy} : M R (list (string * A)) :=
  λ db,
    (db, Go (merge_sort (onRow orderBy)
               (filter (λ x, where_ x.2 = true) (map_to_list (rows T db))))).

(** [findMany({ where, orderBy, skip, take })] *)
Definition findManyPage (where_ : A → bool) (orderBy : relation A)
    `{!RelDecision orderBy} (skip take_ : Z) : M R (list (string * A)) :=
  bind (findMany where_ orderBy) (λ all, accepted (page skip take_ all)).

(** [count({ where })] *)
Definition count (where_ : A → bool) : M R Z :=
  λ db,
    (db, Go (Z.of_nat (length (filter (λ x, where_ x.2 = true)
                                 (map_to_list (rows T db)))))).

(** [delete({ where: { key } })]: the row must exist. *)
Definition delete_ (key : string) : M R unit :=
  λ db,
    match rows T db !! key with
    | Some _ => (set_rows T (delete key (rows T db)) db, Go tt)
    | None => (db, Thrown)
    end.
End prisma.

(** [Math.ceil(total / limit)] for a [limit] that is not zero. *)
Definition ceilDiv (total limit : Z) : Z := - ((- total) / limit).

(** [{ page, limit, total, pages }] *)
Module Pagination.
Record t : Type := mk {
  page : Z;
  limit : Z;
  total : Z;
  pages : Z;
}.
End Pagination.

(** [{ items, pagination }], the body of a paginated list. *)
Module Listing.
Record t (A : Type) : Type := mk {
  items : list (string * A);
  pagination : Pagination.t;
}.
Arguments mk {A} _ _.
Arguments items {A} _.
Arguments pagination {A} _.
End Listing.

(** [orderBy: { date: 'desc' }] and the like: the later row first. *)
Definition desc {A : Type} (key : A → Z) : relation A := λ x y, key y ≤ key x.
Global Instance desc_dec {A : Type} (key : A → Z) : RelDecision (desc key).
Proof. intros x y. unfold desc. apply _. Defined.

Definition descBool {A : Type} (key : A → bool) : relation A :=
  λ x y, implb (key y) (key x) = true.
Global Instance descBool_dec {A : Type} (key : A → bool) : RelDecision (descBool key).
Proof. intros x y. unfold descBool. apply _. Defined.

(** [...(v && { k: v })] on a filter of a query: the rows whose column is
    the value asked for, all rows when none is asked for. *)
Definition matches {A : Type} (col : A → string) (q : option string) (r : A) : bool :=
  match q with
  | Some s => if String.eqb s "" then true else String.eqb (col r) s
  | None => true
  end.

Local Open Scope handler_scope.

(** ** incomeController *)

Section incomeController.
Context `{JsBuiltins}.

(** The ledger change of an income: [delta] is added to [totalIncome] and
    to [totalBalance] ([increment], or [decrement] for a negative one). The
    update is rejected when a total leaves the range of its column. *)
Definition incomeTotals (delta : option Z) (a : Account.t) : option Account.t :=
  d ← delta;
  totalBalance ← decimal (Account.totalBalance a + d);
  totalIncome ← decimal (Account.totalIncome a + d);
  Some (Account.mk totalBalance totalIncome
          (Account.totalExpense a) (Account.totalSavings a)
          (Account.totalInvested a)).

Definition getIncomes (req : Req.t) : DB → DB * Response (Listing.t Income.t) :=
  tryCatch "Failed to fetch incomes" (
    let* userId := authorized req in
    let page_ := orDefault (parseInt (Req.query req !! "page")) 1 in
    let limit := orDefault (parseInt (Req.query req !! "limit")) 10 in
    let source := Req.query req !! "source" in
    let skip := (page_ - 1) * limit in
    let where_ := λ r, String.eqb (Income.userId r) userId && matches Income.source source r in
    let* incomes_ := findManyPage income where_ (desc Income.date) skip limit in
    let* total := count income where_ in
    go (Json 200 (Listing.mk incomes_
                    (Pagination.mk page_ limit total (ceilDiv total limit))))).

Definition createIncome (now : Z) (newId : string) (req : Req.t) :
    DB → DB * Response (string * Income.t) :=
  tryCatch "Failed to create income" (
    let* userId := authorized req in
    let title := field "title" req in
    let source := field "source" req in
    let amount := field "amount" req in
    let date := field "date" req in
    let frequency := field "frequency" req in
    let description := field "description" req in
    returnIf (negb (truthy title) || negb (truthy source) || negb (truthy amount))
      (JsonError 400 "Title, source, and amount are required");;
    let parsedAmount := parseFloat amount in
    returnIf (le0 parsedAmount) (JsonError 400 "Amount must be greater than 0");;
    let* data := accepted (
      title ← asString title;
      source ← asString source;
      amount ← parsedAmount ≫= decimal;
      date ← (if truthy date then newDate date else Some now);
      frequency ← asOptString frequency;
      description ← asOptString description;
      Some (Income.mk userId title source amount date frequency description)) in
    let* income_ := create income newId data in
    (* Update account totals (create account if missing for existing users) *)
    let* account_ := findUnique account userId in
    (if account_ is None then create account userId Account.zero;; go tt else go tt);;
    update account userId (incomeTotals parsedAmount);;
    go (Json 201 (newId, income_))).

Definition updateIncome (req : Req.t) : DB → DB * Response (string * Income.t) :=
  tryCatch "Failed to update income" (
    let id := Req.id req in
    let title := field "title" req in
    let source := field "source" req in
    let amount := field "amount" req in
    let date := field "date" req in
    let frequency := field "frequency" req in
    let description := field "description" req in
    let* userId := authorized req in
    let* income_ := findFirst income Income.userId id userId in
    returnIf (missing income_) (JsonError 404 "Income not found");;
    (* Validate amount if provided *)
    returnIf (truthy amount && le0 (parseFloat amount))
      (JsonError 400 "Amount must be greater than 0");;
    let* updated := update income id (λ r,
      title ← (if truthy title then asString title else Some (Income.title r));
      source ← (if truthy source then asString source else Some (Income.source r));
      amount ← (if truthy amount then parseFloat amount ≫= decimal
                else Some (Income.amount r));
      date ← (if truthy date then newDate date else Some (Income.date r));
      frequency ← (if truthy frequency then Some <$> asString frequency
                   else Some (Income.frequency r));
      description ← (if truthy description then Some <$> asString description
                     else Some (Income.description r));
      Some (Income.mk (Income.userId r) title source amount date frequency description)) in
    go (Json 200 (id, updated))).

Definition deleteIncome (req : Req.t) : DB → DB * Response string :=
  tryCatch "Failed to delete income" (
    let id := Req.id req in
    let* userId := authorized req in
    let* income_ := findFirst income Income.userId id userId in
    match income_ with
    | None => respond (JsonError 404 "Income not found")
    | Some income_ =>
        (* Revert account totals *)
        let* account_ := findUnique account userId in
        (if account_ is Some _
         then update account userId (incomeTotals (Some (- Income.amount income_)));; go tt
         else go tt);;
        delete_ income id;;
        go (Json 200 "Income deleted")
    end).
End incomeController.

(** ** expenseController *)

Section expenseController.
Context `{JsBuiltins}.

(** The ledger change of an expense: [delta] is added to [totalExpense]
    and taken from [totalBalance]. The update is rejected when a total
    leaves the range of its column. *)
Definition expenseTotals (delta : option Z) (a : Account.t) : option Account.t :=
  d ← delta;
  totalBalance ← decimal (Account.totalBalance a - d);
  totalExpense ← decimal (Account.totalExpense a + d);
  Some (Account.mk totalBalance (Account.totalIncome a)
          totalExpense (Account.totalSavings a)
          (Account.totalInvested a)).

Definition getExpenses (req : Req.t) : DB → DB * Response (Listing.t Expense.t) :=
  tryCatch "Failed to fetch expenses" (
    let* userId := authorized req in
    let page_ := orDefault (parseInt (Req.query req !! "page")) 1 in
    let limit := orDefault (parseInt (Req.query req !! "limit")) 10 in
    let category := Req.query req !! "category" in
    let skip := (page_ - 1) * limit in
    let where_ := λ r, String.eqb (Expense.userId r) userId
                       && matches Expense.category category r in
    let* expenses_ := findManyPage expense where_ (desc Expense.date) skip limit in
    let* total := count expense where_ in
    go (Json 200 (Listing.mk expenses_
                    (Pagination.mk page_ limit total (ceilDiv total limit))))).

Definition createExpense (now : Z) (newId : string) (req : Req.t) :
    DB → DB * Response (string * Expense.t) :=
  tryCatch "Failed to create expense" (
    let* userId := authorized req in
    let title := field "title" req in
    let category := field "category" req in
    let amount := field "amount" req in
    let date := field "date" req in
    let paymentMethod := field "paymentMethod" req in
    let description := field "description" req in
    returnIf (negb (truthy title) || negb (truthy category) || negb (truthy amount))
      (JsonError 400 "Title, category, and amount are required");;
    let parsedAmount := parseFloat amount in
    returnIf (le0 parsedAmount) (JsonError 400 "Amount must be greater than 0");;
    let* data := accepted (
      title ← asString title;
      category ← asString category;
      amount ← parsedAmount ≫= decimal;
      date ← (if truthy date then newDate date else Some now);
      paymentMethod ← asOptString paymentMethod;
      description ← asOptString description;
      Some (Expense.mk userId title category amount date paymentMethod description)) in
    let* expense_ := create expense newId data in
    (* Update account totals *)
    let* account_ := findUnique account userId in
    (if account_ is Some _
     then update account userId (expenseTotals parsedAmount);; go tt
     else go tt);;
    go (Json 201 (newId, expense_))).

Definition updateExpense (req : Req.t) : DB → DB * Response (string * Expense.t) :=
  tryCatch "Failed to update expense" (
    let id := Req.id req in
    let title := field "title" req in
    let category := field "category" req in
    let amount := field "amount" req in
    let date := field "date" req in
    let paymentMethod := field "paymentMethod" req in
    let description := field "description" req in
    let* userId := authorized req in
    (* Check if expense belongs to user *)
    let* expense_ := findFirst expense Expense.userId id userId in
    returnIf (missing expense_) (JsonError 404 "Expense not found");;
    (* Validate amount if provided *)
    returnIf (truthy amount && le0 (parseFloat amount))
      (JsonError 400 "Amount must be greater than 0");;
    let* updated := update expense id (λ r,
      title ← (if truthy title then asString title else Some (Expense.title r));
      category ← (if truthy category then asString category else Some (Expense.category r));
      amount ← (if truthy amount then parseFloat amount ≫= decimal
                else Some (Expense.amount r));
      date ← (if truthy date then newDate date else Some (Expense.date r));
      paymentMethod ← (if truthy paymentMethod then Some <$> asString paymentMethod
                       else Some (Expense.paymentMethod r));
      description ← (if truthy description then Some <$> asString description
                     else Some (Expense.description r));
      Some (Expense.mk (Expense.userId r) title category amount date paymentMethod
              description)) in
    go (Json 200 (id, updated))).

Definition deleteExpense (req : Req.t) : DB → DB * Response string :=
  tryCatch "Failed to delete expense" (
    let id := Req.id req in
    let* userId := authorized req in
    let* expense_ := findFirst expense Expense.userId id userId in
    match expense_ with
    | None => respond (JsonError 404 "Expense not found")
    | Some expense_ =>
        (* Revert account totals *)
        let* account_ := findUnique account userId in
        (if account_ is Some _
         then update account userId (expenseTotals (Some (- Expense.amount expense_)));; go tt
         else go tt);;
        delete_ expense id;;
        go (Json 200 "Expense deleted")
    end).
End expenseController.

(** ** investmentController *)

Section investmentController.
Context `{JsBuiltins}.

(** The ledger change of an investment: [delta] is added to
    [totalInvested] and taken from [totalBalance]. The update is rejected
    when a total leaves the range of its column. *)
Definition investmentTotals (delta : option Z) (a : Account.t) : option Account.t :=
  d ← delta;
  totalBalance ← decimal (Account.totalBalance a - d);
  totalInvested ← decimal (Account.totalInvested a + d);
  Some (Account.mk totalBalance (Account.totalIncome a)
          (Account.totalExpense a) (Account.totalSavings a)
          totalInvested).

Definition getInvestments (req : Req.t) :
    DB → DB * Response (Listing.t Investment.t) :=
  tryCatch "Failed to fetch investments" (
    let* userId := authorized req in
    let page_ := orDefault (parseInt (Req.query req !! "page")) 1 in
    let limit := orDefault (parseInt (Req.query req !! "limit")) 10 in
    let area := Req.query req !! "area" in
    let skip := (page_ - 1) * limit in
    let where_ := λ r, String.eqb (Investment.userId r) userId
                       && matches Investment.area area r in
    let* investments_ := findManyPage investment where_ (desc Investment.date) skip limit in
    let* total := count investment where_ in
    go (Json 200 (Listing.mk investments_
                    (Pagination.mk page_ limit total (ceilDiv total limit))))).

Definition createInvestment (now : Z) (newId : string) (req : Req.t) :
    DB → DB * Response (string * Investment.t) :=
  tryCatch "Failed to create investment" (
    let* userId := authorized req in
    let title := field "title" req in
    let area := field "area" req in
    let amount := field "amount" req in
    let quantity := field "quantity" req in
    let purchasePrice := field "purchasePrice" req in
    let currentValue := field "currentValue" req in
    let date := field "date" req in
    let description := field "description" req in
    returnIf (negb (truthy title) || negb (truthy area) || negb (truthy amount))
      (JsonError 400 "Title, area, and amount are required");;
    let parsedAmount := parseFloat amount in
    returnIf (le0 parsedAmount) (JsonError 400 "Amount must be greater than 0");;
    let* data := accepted (
      title ← asString title;
      area ← asString area;
      amount ← parsedAmount ≫= decimal;
      (* [NaN] in an optional column is stored as [NULL] *)
      let quantity := if truthy quantity then parseFloat quantity else None in
      let purchasePrice :=
        if truthy purchasePrice then parseFloat purchasePrice else None in
      let currentValue :=
        if truthy currentValue then parseFloat currentValue else Some amount in
      date ← (if truthy date then newDate date else Some now);
      description ← asOptString description;
      Some (Investment.mk userId title area amount quantity purchasePrice
              currentValue date description)) in
    let* investment_ := create investment newId data in
    (* Update account totals (create account if missing for existing users) *)
    let* account_ := findUnique account userId in
    (if account_ is None then create account userId Account.zero;; go tt else go tt);;
    update account userId (investmentTotals parsedAmount);;
    go (Json 201 (newId, investment_))).

Definition updateInvestment (req : Req.t) :
    DB → DB * Response (string * Investment.t) :=
  tryCatch "Failed to update investment" (
    let id := Req.id req in
    let title := field "title" req in
    let area := field "area" req in
    let quantity := field "quantity" req in
    let purchasePrice := field "purchasePrice" req in
    let currentValue := field "currentValue" req in
    let description := field "description" req in
    let* userId := authorized req in
    let* investment_ := findFirst investment Investment.userId id userId in
    returnIf (missing investment_)
      (JsonError 404 "Investment not found");;
    let* updated := update investment id (λ r,
      title ← (if truthy title then asString title else Some (Investment.title r));
      area ← (if truthy area then asString area else Some (Investment.area r));
      (* [NaN] in an optional column is stored as [NULL] *)
      quantity ← (if truthy quantity then Some (parseFloat quantity)
                  else Some (Investment.quantity r));
      purchasePrice ← (if truthy purchasePrice then Some (parseFloat purchasePrice)
                       else Some (Investment.purchasePrice r));
      currentValue ← (if truthy currentValue then Some (parseFloat currentValue)
                      else Some (Investment.currentValue r));
      description ← (if truthy description then Some <$> asString description
                     else Some (Investment.description r));
      Some (Investment.mk (Investment.userId r) title area (Investment.amount r)
              quantity purchasePrice currentValue (Investment.date r) description)) in
    go (Json 200 (id, updated))).

Definition deleteInvestment (req : Req.t) : DB → DB * Response string :=
  tryCatch "Failed to delete investment" (
    let id := Req.id req in
    let* userId := authorized req in
    let* investment_ := findFirst investment Investment.userId id userId in
    match investment_ with
    | None => respond (JsonError 404 "Investment not found")
    | Some investment_ =>
        (* Revert account totals *)
        let* account_ := findUnique account userId in
        (if account_ is Some _
         then update account userId
                (investmentTotals (Some (- Investment.amount investment_)));; go tt
         else go tt);;
        delete_ investment id;;
        go (Json 200 "Investment deleted")
    end).
End investmentController.

(** ** budgetController *)

Module budgetController.
Section budgetController.
Context `{JsBuiltins}.

Definition getBudgets (req : Req.t) : DB → DB * Response (list (string * Budget.t)) :=
tryCatch "Failed to fetch budgets" (
  let* userId := authorized req in
  let* budgets_ := findMany budget (λ r, String.eqb (Budget.userId r) userId)
                     (desc Budget.createdAt) in
  go (Json 200 budgets_)).

Definition createBudget (now : Z) (newId : string) (req : Req.t) :
  DB → DB * Response (string * Budget.t) :=
tryCatch "Failed to create budget" (
  let* userId := authorized req in
  let name := field "name" req in
  let category := field "category" req in
  let limit := field "limit" req in
  let color := field "color" req in
  let icon := field "icon" req in
  let frequency := field "frequency" req in
  let month := field "month" req in
  let year := field "year" req in
  let alertThreshold := field "alertThreshold" req in
  returnIf (negb (truthy name) || negb (truthy limit))
    (JsonError 400 "Name and limit are required");;
  let parsedLimit := parseFloat limit in
  returnIf (le0 parsedLimit) (JsonError 400 "Limit must be greater than 0");;
  let* data := accepted (
    name ← asString name;
    category ← asOptString category;
    limit ← parsedLimit;
    color ← (if truthy color then asString color else Some "#10B981");
    icon ← asOptString icon;
    frequency ← (if truthy frequency then asString frequency else Some "monthly");
    month ← asOptInt month;
    year ← asOptInt year;
    alertThreshold ← (if truthy alertThreshold then asInt alertThreshold else Some 80);
    Some (Budget.mk userId name category 0 limit color icon frequency month year
            alertThreshold None now)) in
  let* budget_ := create budget newId data in
  go (Json 201 (newId, budget_))).

Definition updateBudget (req : Req.t) : DB → DB * Response (string * Budget.t) :=
tryCatch "Failed to update budget" (
  let id := Req.id req in
  let name := field "name" req in
  let category := field "category" req in
  let limit := field "limit" req in
  let spent := field "spent" req in
  let color := field "color" req in
  let icon := field "icon" req in
  let alertThreshold := field "alertThreshold" req in
  let followed := field "followed" req in
  let* userId := authorized req in
  let* budget_ := findFirst budget Budget.userId id userId in
  returnIf (missing budget_) (JsonError 404 "Budget not found");;
  let* updated := update budget id (λ r,
    name ← (if truthy name then asString name else Some (Budget.name r));
    category ← (if defined category then asOptString category
                else Some (Budget.category r));
    limit ← (if truthy limit then parseFloat limit else Some (Budget.limit r));
    spent ← (if defined spent then parseFloat spent else Some (Budget.spent r));
    color ← (if truthy color then asString color else Some (Budget.color r));
    icon ← (if defined icon then asOptString icon else Some (Budget.icon r));
    alertThreshold ← (if defined alertThreshold then asInt alertThreshold
                      else Some (Budget.alertThreshold r));
    followed ← (if defined followed then Some (Some (truthy followed))
                else Some (Budget.followed r));
    Some (Budget.mk (Budget.userId r) name category spent limit color icon
            (Budget.frequency r) (Budget.month r) (Budget.year r) alertThreshold
            followed (Budget.createdAt r))) in
  go (Json 200 (id, updated))).

Definition deleteBudget (req : Req.t) : DB → DB * Response string :=
tryCatch "Failed to delete budget" (
  let id := Req.id req in
  let* userId := authorized req in
  let* budget_ := findFirst budget Budget.userId id userId in
  returnIf (missing budget_) (JsonError 404 "Budget not found");;
  delete_ budget id;;
  go (Json 200 "Budget deleted")).
End budgetController.
End budgetController.

(** ** cardController *)

Section cardController.
Context `{JsBuiltins}.

Definition getCards (req : Req.t) : DB → DB * Response (list (string * Card.t)) :=
  tryCatch "Failed to fetch cards" (
    let* userId := authorized req in
    let* cards_ := findMany card (λ r, String.eqb (Card.userId r) userId)
                     (descBool Card.isDefault) in
    go (Json 200 cards_)).

(** The expiry of a new card: [expiryMonth] and [expiryYear], replaced by
    the two parts of [expiryDate] (MM/YY or MM/YYYY) that are numbers. *)
Definition finalExpiry (expiryMonth expiryYear expiryDate : jsval) : jsval * jsval :=
  match expiryDate with
  | JStr s =>
      if truthy expiryDate then
        match trim <$> splitSlash s with
        | [p0; p1] =>
            let m := parseIntStr10 p0 in
            let y := (λ y, if y <? 100 then y + 2000 else y) <$> parseIntStr10 p1 in
            (from_option JNum expiryMonth m, from_option JNum expiryYear y)
        | _ => (expiryMonth, expiryYear)
        end
      else (expiryMonth, expiryYear)
  | _ => (expiryMonth, expiryYear)
  end.

(** [data: { isDefault: false }] *)
Definition unsetDefault (r : Card.t) : Card.t :=
  Card.mk (Card.userId r) (Card.name r) (Card.type r) (Card.last4 r) (Card.issuer r)
    (Card.expiryMonth r) (Card.expiryYear r) (Card.limit r) false (Card.createdAt r).

Definition createCard (now : Z) (newId : string) (req : Req.t) :
    DB → DB * Response (string * Card.t) :=
  tryCatch "Failed to create card" (
    let* userId := authorized req in
    let type := field "type" req in
    let issuer := field "issuer" req in
    let last4 := field "last4" req in
    let cardholderName := field "cardholderName" req in
    let expiryMonth := field "expiryMonth" req in
    let expiryYear := field "expiryYear" req in
    let limit := field "limit" req in
    let isDefault := field "isDefault" req in
    let cardType := field "cardType" req in
    let expiryDate := field "expiryDate" req in
    (* Determine final type (prefer backend `type`, fallback to frontend `cardType`) *)
    let finalType := toString (if truthy type then type
                               else if truthy cardType then cardType else JStr "") in
    (* Parse expiryDate if provided (format MM/YY or MM/YYYY) *)
    let '(finalExpiryMonth, finalExpiryYear) :=
      finalExpiry expiryMonth expiryYear expiryDate in
    (* Validate required fields (accept frontend names) *)
    returnIf (String.eqb finalType "" || negb (truthy last4) || negb (truthy cardholderName))
      (JsonError 400 "Type, last4, and cardholder name are required");;
    (* Validate limit if provided *)
    returnIf (truthy limit && le0 (parseFloat limit))
      (JsonError 400 "Card limit must be greater than 0");;
    (* If setting as default, unset other default cards for this user *)
    (if truthy isDefault
     then updateMany card (λ r, String.eqb (Card.userId r) userId && Card.isDefault r)
            unsetDefault
     else go tt);;
    let* data := accepted (
      issuer ← (if truthy issuer then asString issuer else Some "Unknown");
      name ← asString cardholderName;
      expiryMonth ← (if truthy finalExpiryMonth then asOptInt finalExpiryMonth
                     else Some None);
      expiryYear ← (if truthy finalExpiryYear then asOptInt finalExpiryYear
                    else Some None);
      (* [NaN] in an optional column is stored as [NULL] *)
      limit ← (if truthy limit then Some (parseFloat limit) else Some None);
      isDefault ← (if nullish isDefault then Some false else asBool isDefault);
      Some (Card.mk userId name finalType (sliceLast4 (toString last4)) (Some issuer)
              expiryMonth expiryYear limit isDefault now)) in
    let* card_ := create card newId data in
    go (Json 201 (newId, card_))).

Definition updateCard (req : Req.t) : DB → DB * Response (string * Card.t) :=
  tryCatch "Failed to update card" (
    let id := Req.id req in
    let cardholderName := field "cardholderName" req in
    let limit := field "limit" req in
    let isDefault := field "isDefault" req in
    let* userId := authorized req in
    let* card_ := findFirst card Card.userId id userId in
    match card_ with
    | None => respond (JsonError 404 "Card not found")
    | Some card_ =>
        (* If setting as default, unset others *)
        (if truthy isDefault && negb (Card.isDefault card_)
         then updateMany card
                (λ r, String.eqb (Card.userId r) userId && Card.isDefault r) unsetDefault
         else go tt);;
        let* updated := update card id (λ r,
          name ← (if truthy cardholderName then asString cardholderName
                  else Some (Card.name r));
          (* [NaN] in an optional column is stored as [NULL] *)
          limit ← (if truthy limit then Some (parseFloat limit)
                   else Some (Card.limit r));
          isDefault ← (if defined isDefault then asBool isDefault
                       else Some (Card.isDefault r));
          Some (Card.mk (Card.userId r) name (Card.type r) (Card.last4 r)
                  (Card.issuer r) (Card.expiryMonth r) (Card.expiryYear r) limit
                  isDefault (Card.createdAt r))) in
        go (Json 200 (id, updated))
    end).

Definition deleteCard (req : Req.t) : DB → DB * Response string :=
  tryCatch "Failed to delete card" (
    let id := Req.id req in
    let* userId := authorized req in
    let* card_ := findFirst card Card.userId id userId in
    returnIf (missing card_) (JsonError 404 "Card not found");;
    delete_ card id;;
    go (Json 200 "Card deleted")).
End cardController.


(** ** savingsGoalController

    The [progress] a response adds to the row is a quotient of two amounts
    and is left out of the bodies. *)

Section savingsGoalController.
Context `{JsBuiltins}.

Definition getSavingsGoals (req : Req.t) :
    DB → DB * Response (list (string * SavingsGoal.t)) :=
  tryCatch "Failed to fetch savings goals" (
    let* userId := authorized req in
    let* goals := findMany savingsGoal (λ r, String.eqb (SavingsGoal.userId r) userId)
                    (desc SavingsGoal.createdAt) in
    go (Json 200 goals)).

Definition createSavingsGoal (now : Z) (newId : string) (req : Req.t) :
    DB → DB * Response (string * SavingsGoal.t) :=
  tryCatch "Failed to create savings goal" (
    let* userId := authorized req in
    let title := field "title" req in
    let targetAmount := field "targetAmount" req in
    let currentAmount := field "currentAmount" req in
    let deadline := field "deadline" req in
    let priority := field "priority" req in
    let category := field "category" req in
    let icon := field "icon" req in
    let description := field "description" req in
    returnIf (negb (truthy title) || nullish targetAmount)
      (JsonError 400 "Title and target amount are required");;
    let parsedTargetAmount := Number targetAmount in
    returnIf (le0 parsedTargetAmount)
      (JsonError 400 "Target amount must be greater than 0");;
    let parsedCurrentAmount := if truthy currentAmount then Number currentAmount else Some 0 in
    returnIf (lt0 parsedCurrentAmount) (JsonError 400 "Current amount cannot be negative");;
    let* data := accepted (
      title ← asString title;
      targetAmount ← parsedTargetAmount;
      currentAmount ← parsedCurrentAmount;
      deadline ← (if truthy deadline then Some <$> newDate deadline else Some None);
      priority ← (if truthy priority then asString priority else Some "medium");
      category ← (if truthy category then asString category else Some "General");
      icon ← (if truthy icon then asString icon else Some "🎯");
      description ← asOptString description;
      Some (SavingsGoal.mk userId title description targetAmount currentAmount deadline
              priority "active" (Some category) (Some icon) now)) in
    let* goal := create savingsGoal newId data in
    go (Json 201 (newId, goal))).

Definition updateSavingsGoal (req : Req.t) :
    DB → DB * Response (string * SavingsGoal.t) :=
  tryCatch "Failed to update savings goal" (
    let id := Req.id req in
    let title := field "title" req in
    let currentAmount := field "currentAmount" req in
    let deadline := field "deadline" req in
    let priority := field "priority" req in
    let status := field "status" req in
    let category := field "category" req in
    let description := field "description" req in
    let* userId := authorized req in
    let* goal := findFirst savingsGoal SavingsGoal.userId id userId in
    returnIf (missing goal) (JsonError 404 "Savings goal not found");;
    let* updated := update savingsGoal id (λ r,
      title ← (if truthy title then asString title else Some (SavingsGoal.title r));
      currentAmount ← (if defined currentAmount then Number currentAmount
                       else Some (SavingsGoal.currentAmount r));
      deadline ← (if truthy deadline then Some <$> newDate deadline
                  else Some (SavingsGoal.deadline r));
      priority ← (if truthy priority then asString priority
                  else Some (SavingsGoal.priority r));
      status ← (if truthy status then asString status else Some (SavingsGoal.status r));
      category ← (if truthy category then Some <$> asString category
                  else Some (SavingsGoal.category r));
      description ← (if truthy description then Some <$> asString description
                     else Some (SavingsGoal.description r));
      Some (SavingsGoal.mk (SavingsGoal.userId r) title description
              (SavingsGoal.targetAmount r) currentAmount deadline priority status
              category (SavingsGoal.icon r) (SavingsGoal.createdAt r))) in
    let* updatedGoal := findUnique savingsGoal id in
    go (Json 200 (id, updated))).

(** [data: { currentAmount, status }] and [data: { currentAmount }] *)
Definition setAmount (currentAmount : option Z) (status : option string)
    (r : SavingsGoal.t) : option SavingsGoal.t :=
  currentAmount ← currentAmount;
  Some (SavingsGoal.mk (SavingsGoal.userId r) (SavingsGoal.title r)
          (SavingsGoal.description r) (SavingsGoal.targetAmount r) currentAmount
          (SavingsGoal.deadline r) (SavingsGoal.priority r)
          (default (SavingsGoal.status r) status) (SavingsGoal.category r)
          (SavingsGoal.icon r) (SavingsGoal.createdAt r)).

(** The body of a contribution: the row and [isComplete]. *)
Definition contributeSavingsGoal (req : Req.t) :
    DB → DB * Response (string * SavingsGoal.t * bool) :=
  tryCatch "Failed to contribute to savings goal" (
    let id := Req.id req in
    let amount := field "amount" req in
    let* userId := authorized req in
    returnIf (nullish amount || le0 (Number amount))
      (JsonError 400 "Amount must be greater than 0");;
    let* goal := findFirst savingsGoal SavingsGoal.userId id userId in
    match goal with
    | None => respond (JsonError 404 "Savings goal not found")
    | Some goal =>
        let newAmount := (λ a, SavingsGoal.currentAmount goal + a) <$> Number amount in
        (* Check if goal is now complete *)
        let isComplete :=
          if newAmount is Some n then SavingsGoal.targetAmount goal <=? n else false in
        let* updated := update savingsGoal id
          (setAmount newAmount (Some (if isComplete then "completed" else "active"))) in
        go (Json 200 (id, updated, isComplete))
    end).

Definition withdrawSavingsGoal (req : Req.t) :
    DB → DB * Response (string * SavingsGoal.t) :=
  tryCatch "Failed to withdraw from savings goal" (
    let id := Req.id req in
    let amount := field "amount" req in
    let* userId := authorized req in
    returnIf (nullish amount || le0 (Number amount))
      (JsonError 400 "Amount must be greater than 0");;
    let* goal := findFirst savingsGoal SavingsGoal.userId id userId in
    match goal with
    | None => respond (JsonError 404 "Savings goal not found")
    | Some goal =>
        let newAmount :=
          (λ a, Z.max 0 (SavingsGoal.currentAmount goal - a)) <$> Number amount in
        let* updated := update savingsGoal id (setAmount newAmount None) in
        go (Json 200 (id, updated))
    end).

Definition deleteSavingsGoal (req : Req.t) : DB → DB * Response string :=
  tryCatch "Failed to delete savings goal" (
    let id := Req.id req in
    let* userId := authorized req in
    let* goal := findFirst savingsGoal SavingsGoal.userId id userId in
    returnIf (missing goal) (JsonError 404 "Savings goal not found");;
    delete_ savingsGoal id;;
    go (Json 200 "Savings goal deleted")).
End savingsGoalController.

(** ** Dates *)

Definition msPerDay : Z := 86400000.

(** [d.setDate(d.getDate() - k)] *)
Definition minusDays (d k : Z) : Z := d - k * msPerDay.

(** The calendar day of a point in time, counted from the epoch. *)
Definition dayOf (d : Z) : Z := d / msPerDay.

(** [d.setHours(0, 0, 0, 0)] and [d.setHours(23, 59, 59, 999)] *)
Definition startOfDay (d : Z) : Z := d - d mod msPerDay.
Definition endOfDay (d : Z) : Z := startOfDay d + (msPerDay - 1).

(** [d.getDay()]: 0 is Sunday; the first day of the epoch was a Thursday. *)
Definition getDay (d : Z) : Z := (dayOf d + 4) mod 7.

Definition dayNames : list string := ["Sun"; "Mon"; "Tue"; "Wed"; "Thu"; "Fri"; "Sat"].

(** ** dashboardController *)

Module WeeklyStat.
Record t : Type := mk {
  day : option string;
  amount : Z;
}.
End WeeklyStat.

(** The view of the dashboard: the ledger totals, the sums over the rows,
    the savings advice, the totals of the active goals and the weekly
    series. The lists of the response (cards, the merged feed, budgets,
    expenses, investments, the category ranking, the goals) are not part of
    the embedding. *)
Module Dashboard.
Record t : Type := mk {
  totalBalance : Z;
  totalIncome : Z;
  totalExpense : Z;
  totalSavings : Z;
  totalInvested : Z;
  totalIncomeSum : Z;
  totalExpenseSum : Z;
  totalInvestmentSum : Z;
  balanceLeft : Z;
  recommendedSavings : Z;
  totalSavingsGoalAmount : Z;
  totalSavingsTarget : Z;
  weeklyStats : list WeeklyStat.t;
}.
End Dashboard.

(** [rows.reduce((s, r) => s + Number(r.amount), 0)] *)
Definition sumOf {A : Type} (amount : A → Z) (l : list (string * A)) : Z :=
  foldl (λ s r, s + amount r.2) 0 l.

(** [Math.round(x * 100) / 100] for [x] given in thousandths: the nearest
    hundredth, a tie going up. *)
Definition roundToHundredths (thousandths : Z) : Z := (thousandths + 5) / 10.

(** [Number(account?.column || 0)] *)
Definition ledger (column : Account.t → Z) (a : option Account.t) : Z :=
  from_option column 0 a.

(** [Array.from({ length: 7 }, (_, i) => ...)]: the income less the expense
    of each of the seven days up to the day of [now], not below zero. *)
Definition weeklyStatsOf (now : Z) (weeklyIncomes : list (string * Income.t))
    (weeklyExpenses : list (string * Expense.t)) : list WeeklyStat.t :=
  (λ i,
     let date := minusDays now (6 - i) in
     let day := dayNames !! Z.to_nat (getDay date) in
     let dayStart := startOfDay date in
     let dayEnd := endOfDay date in
     let dayIncome :=
       sumOf Income.amount
         (filter (λ t, dayStart ≤ Income.date t.2 ∧ Income.date t.2 ≤ dayEnd) weeklyIncomes) in
     let dayExpense :=
       sumOf Expense.amount
         (filter (λ t, dayStart ≤ Expense.date t.2 ∧ Expense.date t.2 ≤ dayEnd)
            weeklyExpenses) in
     let amount := dayIncome - dayExpense in
     WeeklyStat.mk day (Z.max 0 amount)) <$> seqZ 0 7.

Module dashboardController.
Section dashboardController.
Context `{JsBuiltins}.

Definition getDashboard (now : Z) (req : Req.t) : DB → DB * Response Dashboard.t :=
  tryCatch "Failed to fetch dashboard data" (
    let* userId := authorized req in
    (* Fetch user's account *)
    let* account_ := findUnique account userId in
    let* incomes_ := findMany income (λ r, String.eqb (Income.userId r) userId)
                       (desc Income.date) in
    let* expenses_ := findMany expense (λ r, String.eqb (Expense.userId r) userId)
                        (desc Expense.date) in
    let* investments_ := findMany investment
                           (λ r, String.eqb (Investment.userId r) userId)
                           (desc Investment.date) in
    let* savingsGoals_ := findMany savingsGoal
                            (λ r, String.eqb (SavingsGoal.userId r) userId
                                  && String.eqb (SavingsGoal.status r) "active")
                            (desc SavingsGoal.createdAt) in
    let totalIncomeSum := sumOf Income.amount incomes_ in
    let totalExpenseSum := sumOf Expense.amount expenses_ in
    let totalInvestmentSum := sumOf Investment.amount investments_ in
    let balanceLeft := totalIncomeSum - totalExpenseSum - totalInvestmentSum in
    (* 0.1 * balanceLeft, in thousandths *)
    let recommendedSavings := Z.max 0 balanceLeft in
    let sevenDaysAgo := minusDays now 7 in
    let weeklyIncomes := filter (λ i, sevenDaysAgo ≤ Income.date i.2) incomes_ in
    let weeklyExpenses := filter (λ e, sevenDaysAgo ≤ Expense.date e.2) expenses_ in
    (* Group by day and sum amounts *)
    let weeklyStats := weeklyStatsOf now weeklyIncomes weeklyExpenses in
    let totalSavingsGoalAmount := sumOf SavingsGoal.currentAmount savingsGoals_ in
    let totalSavingsTarget := sumOf SavingsGoal.targetAmount savingsGoals_ in
    go (Json 200 (Dashboard.mk
          (ledger Account.totalBalance account_)
          (ledger Account.totalIncome account_)
          (ledger Account.totalExpense account_)
          (ledger Account.totalSavings account_)
          (ledger Account.totalInvested account_)
          totalIncomeSum totalExpenseSum totalInvestmentSum balanceLeft
          (roundToHundredths recommendedSavings)
          totalSavingsGoalAmount totalSavingsTarget weeklyStats))).

Definition getTransactions (req : Req.t) :
    DB → DB * Response (Listing.t Transaction.t) :=
  tryCatch "Failed to fetch transactions" (
    let* userId := authorized req in
    let page_ := orDefault (parseInt (Req.query req !! "page")) 1 in
    let limit := orDefault (parseInt (Req.query req !! "limit")) 10 in
    let skip := (page_ - 1) * limit in
    let where_ := λ r, String.eqb (Transaction.userId r) userId in
    let* transactions_ := findManyPage transaction where_ (desc Transaction.date)
                            skip limit in
    let* total := count transaction where_ in
    go (Json 200 (Listing.mk transactions_
                    (Pagination.mk page_ limit total (ceilDiv total limit))))).

(** [type] is a column of the enumeration [TransactionType]. *)
Definition asTransactionType (v : jsval) : option string :=
  match v with
  | JStr s =>
      if bool_decide (s ∈ ["income"; "expense"; "investment"]) then Some s else None
  | _ => None
  end.

Definition createTransaction (now : Z) (newId : string) (req : Req.t) :
    DB → DB * Response (string * Transaction.t) :=
  tryCatch "Failed to create transaction" (
    let* userId := authorized req in
    let title := field "title" req in
    let category := field "category" req in
    let amount := field "amount" req in
    let type := field "type" req in
    let date := field "date" req in
    let icon := field "icon" req in
    let description := field "description" req in
    (* Validate input *)
    returnIf (negb (truthy title) || negb (truthy category) || negb (truthy amount)
              || negb (truthy type))
      (JsonError 400 "Missing required fields");;
    let* data := accepted (
      title ← asString title;
      category ← asString category;
      amount ← parseFloat amount;
      type ← asTransactionType type;
      date ← (if truthy date then newDate date else Some now);
      icon ← asOptString icon;
      description ← asOptString description;
      Some (Transaction.mk userId title description date amount type category icon)) in
    let* transaction_ := create transaction newId data in
    go (Json 201 (newId, transaction_))).

Definition getBudgets (req : Req.t) : DB → DB * Response (list (string * Budget.t)) :=
  tryCatch "Failed to fetch budgets" (
    let* userId := authorized req in
    let* budgets_ := findMany budget (λ r, String.eqb (Budget.userId r) userId)
                       (desc Budget.createdAt) in
    go (Json 200 budgets_)).

Definition createBudget (now : Z) (newId : string) (req : Req.t) :
    DB → DB * Response (string * Budget.t) :=
  tryCatch "Failed to create budget" (
    let* userId := authorized req in
    let name := field "name" req in
    let limit := field "limit" req in
    let color := field "color" req in
    let icon := field "icon" req in
    let category := field "category" req in
    returnIf (negb (truthy name) || negb (truthy limit))
      (JsonError 400 "Missing required fields");;
    let* data := accepted (
      name ← asString name;
      limit ← parseFloat limit;
      color ← (if truthy color then asString color else Some "#10B981");
      icon ← asOptString icon;
      category ← asOptString category;
      Some (Budget.mk userId name category 0 limit color icon "monthly" None None 80
              None now)) in
    let* budget_ := create budget newId data in
    go (Json 201 (newId, budget_))).

(** Update budget spending: the row is looked up by [id] alone. *)
Definition updateBudget (req : Req.t) : DB → DB * Response (string * Budget.t) :=
  tryCatch "Failed to update budget" (
    let id := Req.id req in
    let spent := field "spent" req in
    let limit := field "limit" req in
    let* budget_ := update budget id (λ r,
      spent ← (if defined spent then parseFloat spent else Some (Budget.spent r));
      limit ← (if defined limit then parseFloat limit else Some (Budget.limit r));
      Some (Budget.mk (Budget.userId r) (Budget.name r) (Budget.category r) spent limit
              (Budget.color r) (Budget.icon r) (Budget.frequency r) (Budget.month r)
              (Budget.year r) (Budget.alertThreshold r) (Budget.followed r)
              (Budget.createdAt r))) in
    go (Json 200 (id, budget_))).
End dashboardController.
End dashboardController.

(** ** Routes

    A route yields the store after the call and the status of the response.
    A router is given the method and the path below its mount point and
    answers with the handler of the first route that matches. A path is the
    list of its segments, the texts between its slashes, a slash at its end
    set aside. [OTHER] stands for every method that has no route. *)

Inductive method : Type := GET | POST | PUT | DELETE | HEAD | OPTIONS | OTHER.

(** The words of a path are matched whatever their case; the [:id] of a
    route, which is the third segment wherever there is one, is taken as it
    is written. *)
Definition lowerAscii (c : Ascii.ascii) : Ascii.ascii :=
  let n := Ascii.nat_of_ascii c in
  if ((65 <=? n) && (n <=? 90))%nat then Ascii.ascii_of_nat (n + 32) else c.

Fixpoint lower (s : string) : string :=
  match s with
  | EmptyString => EmptyString
  | String c rest => String (lowerAscii c) (lower rest)
  end.

Definition normalised (path : list string) : list string :=
  match path with
  | p0 :: p1 :: id :: rest => lower p0 :: lower p1 :: id :: (lower <$> rest)
  | _ => lower <$> path
  end.

Definition Handler : Type := Req.t → DB → DB * Z.

Definition served {R : Type} (h : Req.t → DB → DB * Response R) : Handler :=
  λ req db, let '(db', r) := h req db in (db', statusOf r).

(** [req.params.id] *)
Definition withId (id : string) (req : Req.t) : Req.t :=
  Req.mk (Req.userId req) id (Req.query req) (Req.body req).

(** The token check: [Req.userId] is the [userId] of a valid token. *)
Definition authMiddleware (next : Handler) : Handler :=
  λ req db,
    match Req.userId req with
    | Some _ => next req db
    | None => (db, 401)
    end.

Definition notFound : Handler := λ _ db, (db, 404).

Section routes.
Context `{JsBuiltins} (now : Z) (newId : string).

Definition dashboardRoutes (m : method) (path : list string) : option Handler :=
  match m, path with
  | GET, ["dashboard"] => Some (authMiddleware (served (dashboardController.getDashboard now)))
  | GET, ["transactions"] => Some (authMiddleware (served dashboardController.getTransactions))
  | POST, ["transactions"] =>
      Some (authMiddleware (served (dashboardController.createTransaction now newId)))
  | GET, ["budgets"] => Some (authMiddleware (served dashboardController.getBudgets))
  | POST, ["budgets"] =>
      Some (authMiddleware (served (dashboardController.createBudget now newId)))
  | PUT, ["budgets"; id] =>
      Some (authMiddleware (λ req, served dashboardController.updateBudget (withId id req)))
  | _, _ => None
  end.

Definition expenseRoutes (m : method) (path : list string) : option Handler :=
  match m, path with
  | GET, [] => Some (served getExpenses)
  | POST, [] => Some (served (createExpense now newId))
  | PUT, [id] => Some (λ req, served updateExpense (withId id req))
  | DELETE, [id] => Some (λ req, served deleteExpense (withId id req))
  | _, _ => None
  end.

Definition incomeRoutes (m : method) (path : list string) : option Handler :=
  match m, path with
  | GET, [] => Some (served getIncomes)
  | POST, [] => Some (served (createIncome now newId))
  | PUT, [id] => Some (λ req, served updateIncome (withId id req))
  | DELETE, [id] => Some (λ req, served deleteIncome (withId id req))
  | _, _ => None
  end.

Definition investmentRoutes (m : method) (path : list string) : option Handler :=
  match m, path with
  | GET, [] => Some (served getInvestments)
  | POST, [] => Some (served (createInvestment now newId))
  | PUT, [id] => Some (λ req, served updateInvestment (withId id req))
  | DELETE, [id] => Some (λ req, served deleteInvestment (withId id req))
  | _, _ => None
  end.

Definition budgetRoutes (m : method) (path : list string) : option Handler :=
  match m, path with
  | GET, [] => Some (served budgetController.getBudgets)
  | POST, [] => Some (served (budgetController.createBudget now newId))
  | PUT, [id] => Some (λ req, served budgetController.updateBudget (withId id req))
  | DELETE, [id] => Some (λ req, served budgetController.deleteBudget (withId id req))
  | _, _ => None
  end.

Definition cardRoutes (m : method) (path : list string) : option Handler :=
  match m, path with
  | GET, [] => Some (served getCards)
  | POST, [] => Some (served (createCard now newId))
  | PUT, [id] => Some (λ req, served updateCard (withId id req))
  | DELETE, [id] => Some (λ req, served deleteCard (withId id req))
  | _, _ => None
  end.

Definition savingsGoalRoutes (m : method) (path : list string) : option Handler :=
  match m, path with
  | GET, [] => Some (served getSavingsGoals)
  | POST, [] => Some (served (createSavingsGoal now newId))
  | PUT, [id] => Some (λ req, served updateSavingsGoal (withId id req))
  | POST, [id; "contribute"] => Some (λ req, served contributeSavingsGoal (withId id req))
  | POST, [id; "withdraw"] => Some (λ req, served withdrawSavingsGoal (withId id req))
  | DELETE, [id] => Some (λ req, served deleteSavingsGoal (withId id req))
  | _, _ => None
  end.

(** [router.use(authMiddleware)] in front of the routes of a router; a
    request that no route takes falls through to the 404 handler. *)
Definition guarded (routes : method → list string → option Handler)
    (m : method) (path : list string) : Handler :=
  authMiddleware (default notFound (routes m path)).

(** The routers of [index.ts] in the order they are mounted. The dashboard
    router is mounted on [/api] before the others and takes a request
    first. The router of [/api/auth] (register, login, profile) is not part
    of the embedding: [routers] is [None] on its paths. *)
Definition routers (m : method) (path : list string) : option Handler :=
  match path with
  | "api" :: rest =>
      match dashboardRoutes m rest with
      | Some h => Some h
      | None =>
          match rest with
          | "auth" :: _ => None
          | "expenses" :: sub => Some (guarded expenseRoutes m sub)
          | "incomes" :: sub => Some (guarded incomeRoutes m sub)
          | "investments" :: sub => Some (guarded investmentRoutes m sub)
          | "budgets" :: sub => Some (guarded budgetRoutes m sub)
          | "cards" :: sub => Some (guarded cardRoutes m sub)
          | "savings" :: sub => Some (guarded savingsGoalRoutes m sub)
          | _ => Some notFound
          end
      end
  | ["health"] => Some (if m is GET then (λ _ db, (db, 200)) else notFound)
  | _ => Some notFound
  end.

(** [index.ts] for a request whose body was parsed: [cors] answers every
    [OPTIONS] request with 204 before a router sees it; a [HEAD] request
    takes the routes of [GET]; the words of the path are matched whatever
    their case. *)
Definition app (m : method) (path : list string) : option Handler :=
  match m with
  | OPTIONS => Some (λ _ db, (db, 204))
  | _ => routers (if m is HEAD then GET else m) (normalised path)
  end.

(** [index.ts]: [express.json()] and [express.urlencoded()] come first. A
    body they reject ([bodyError] is the status of the error: 400 for a
    body that is not JSON, 413 for one that is too large) is answered by the
    error handler with [err.status || 500], before [cors] and the routers. *)
Definition index (bodyError : option Z) (m : method) (path : list string) :
    option Handler :=
  match bodyError with
  | Some status => Some (λ _ db, (db, if status =? 0 then 500 else status))
  | None => app m path
  end.
End routes.

(** ** utils/auth.ts

    The router of [/api/auth] is not part of [app]. Its handlers are
    embedded here on their own, with the token check as the middleware
    makes it. They work on the user table, which the other handlers do not
    read, and are given it beside the store. *)

(** The characters [' '] and ['@']. *)
Definition space : Ascii.ascii := Ascii.ascii_of_nat 32.
Definition atSign : Ascii.ascii := Ascii.ascii_of_nat 64.

(** [s.split(sep)] for a separator of one character. *)
Fixpoint splitOn (sep : Ascii.ascii) (s : string) : list string :=
  match s with
  | EmptyString => [""]
  | String c rest =>
      if Ascii.eqb c sep then "" :: splitOn sep rest
      else match splitOn sep rest with
           | part :: parts => String c part :: parts
           | [] => [String c ""]
           end
  end.

(** The libraries behind [utils/auth.ts], which the repository calls and
    does not define: bcryptjs, and jsonwebtoken with the secret and the
    expiry of the module. A token is signed at a time and verified at a
    time; [jwtVerify] gives the [userId] of the payload of a token it
    accepts ([None] inside when the payload has none) and [None] when it
    throws. *)
Class AuthLib : Type := {
  bcryptHash : string → string → string;
  bcryptCompare : string → string → bool;
  jwtSign : Z → string → string;
  jwtVerify : Z → string → option (option string);
}.

Section auth.
Context `{AuthLib}.

(** Hash a password with bcrypt; the salt is drawn by [bcrypt.genSalt]. *)
Definition hashPassword (salt password : string) : string := bcryptHash password salt.

(** Compare password with hash *)
Definition comparePassword (password hash : string) : bool := bcryptCompare password hash.

(** Generate JWT token *)
Definition generateToken (now : Z) (userId : string) : string := jwtSign now userId.

(** Verify JWT token *)
Definition verifyToken (now : Z) (token : string) : option (option string) :=
  jwtVerify now token.
End auth.

(** Extract token from Authorization header *)
Definition extractTokenFromHeader (authHeader : option string) : option string :=
  match authHeader with
  | None => None
  | Some authHeader =>
      if String.eqb authHeader "" then None
      else match splitOn space authHeader with
           | [p0; p1] => if String.eqb p0 "Bearer" then Some p1 else None
           | _ => None
           end
  end.

(** ** middleware/auth.ts

    The middleware is given [req.headers.authorization]; the handler behind
    it gets the request with [userId] set. It stands in front of handlers
    of any store [S]. *)

(** [req.userId = userId] *)
Definition withUserId (userId : option string) (req : Req.t) : Req.t :=
  Req.mk userId (Req.id req) (Req.query req) (Req.body req).

Module middleware.
Section middleware.
Context `{AuthLib} {S R : Type}.

(** Middleware to verify JWT token and extract userId *)
Definition authMiddleware (now : Z) (authorization : option string)
    (next : Req.t → S → S * Response R) (req : Req.t) : S → S * Response R :=
  λ db,
    match extractTokenFromHeader authorization with
    | None => (db, JsonError 401 "Missing authentication token")
    | Some token =>
        if String.eqb token "" then (db, JsonError 401 "Missing authentication token")
        else match verifyToken now token with
             | None => (db, JsonError 401 "Invalid or expired token")
             | Some userId => next (withUserId userId req) db
             end
    end.

(** Optional auth middleware - doesn't require token but extracts userId if
    present *)
Definition optionalAuthMiddleware (now : Z) (authorization : option string)
    (next : Req.t → S → S * Response R) (req : Req.t) : S → S * Response R :=
  λ db,
    match extractTokenFromHeader authorization with
    | None => next req db
    | Some token =>
        if String.eqb token "" then next req db
        else match verifyToken now token with
             | None => next req db
             | Some userId => next (withUserId userId req) db
             end
    end.
End middleware.
End middleware.

(** ** authController *)

Module User.
(** [password] holds the bcrypt hash. *)
Record t : Type := mk {
  email : string;
  password : string;
  name : option string;
  avatar : option string;
}.
End User.


(** [{ message, token, user: { id, email, name } }] *)
Module Session.
Record t : Type := mk {
  message : string;
  token : string;
  id : string;
  email : string;
  name : option string;
}.
End Session.

(** [{ message, user: { id, email, name, avatar } }] *)
Module PublicUser.
Record t : Type := mk {
  message : string;
  id : string;
  email : string;
  name : option string;
  avatar : option string;
}.
End PublicUser.

(** [{ id, email, name, avatar, account }] *)
Module Profile.
Record t : Type := mk {
  id : string;
  email : string;
  name : option string;
  avatar : option string;
  account : option Account.t;
}.
End Profile.

(** [findUnique({ where: { email } })] on the user table, which is a map
    from the [id] of a user. *)
Definition findByEmail (email : string) (users : gmap string User.t) :
    option (string * User.t) :=
  head (filter (λ x, User.email x.2 = email) (map_to_list users)).

Module authController.
Section authController.
Context `{AuthLib}.

(** Register a new user. [newId] is the id the user gets and [salt] the
    salt that is drawn for the hash. *)
Definition register (now : Z) (newId salt : string) (req : Req.t)
    (users : gmap string User.t) (db : DB) :
    gmap string User.t * DB * Response Session.t :=
  let email := field "email" req in
  let password := field "password" req in
  let name := field "name" req in
  let failed := JsonError 500 "Failed to register user" in
  (* Validate input *)
  if negb (truthy email) || negb (truthy password)
  then (users, db, JsonError 400 "Email and password are required")
  else
    match asString email with
    | None => (users, db, failed)
    | Some email =>
        (* Check if user already exists *)
        match findByEmail email users with
        | Some _ => (users, db, JsonError 409 "User already exists with this email")
        | None =>
            (* Hash password *)
            match asString password with
            | None => (users, db, failed)
            | Some password =>
                let hashedPassword := hashPassword salt password in
                (* Create user *)
                match (if truthy name then asString name
                       else head (splitOn atSign email)), users !! newId with
                | Some name, None =>
                    let user := User.mk email hashedPassword (Some name) None in
                    let users := <[newId := user]> users in
                    (* Create account for user *)
                    match accounts db !! newId with
                    | None =>
                        let db := set_accounts (<[newId := Account.zero]> (accounts db)) db in
                        (* Generate token *)
                        let token := generateToken now newId in
                        (users, db,
                         Json 201 (Session.mk "User registered successfully" token newId
                                     (User.email user) (User.name user)))
                    | Some _ => (users, db, failed)
                    end
                | _, _ => (users, db, failed)
                end
            end
        end
    end.

(** Login user *)
Definition login (now : Z) (req : Req.t) (users : gmap string User.t) (db : DB) :
    gmap string User.t * DB * Response Session.t :=
  let email := field "email" req in
  let password := field "password" req in
  let failed := JsonError 500 "Login failed" in
  (* Validate input *)
  if negb (truthy email) || negb (truthy password)
  then (users, db, JsonError 400 "Email and password are required")
  else
    match asString email with
    | None => (users, db, failed)
    | Some email =>
        (* Find user *)
        match findByEmail email users with
        | None => (users, db, JsonError 401 "Invalid email or password")
        | Some (id, user) =>
            (* Compare passwords *)
            match asString password with
            | None => (users, db, failed)
            | Some password =>
                if negb (comparePassword password (User.password user))
                then (users, db, JsonError 401 "Invalid email or password")
                else
                  (* Generate token *)
                  let token := generateToken now id in
                  (users, db,
                   Json 200 (Session.mk "Login successful" token id (User.email user)
                               (User.name user)))
            end
        end
    end.

(** Get current user profile *)
Definition getProfile (req : Req.t) (users : gmap string User.t) (db : DB) :
    gmap string User.t * DB * Response Profile.t :=
  match Req.userId req with
  | Some userId =>
      if String.eqb userId "" then (users, db, JsonError 401 "Unauthorized")
      else
        match users !! userId with
        | None => (users, db, JsonError 404 "User not found")
        | Some user =>
            (users, db,
             Json 200 (Profile.mk userId (User.email user) (User.name user)
                         (User.avatar user) (accounts db !! userId)))
        end
  | None => (users, db, JsonError 401 "Unauthorized")
  end.

(** Update user profile *)
Definition updateProfile (req : Req.t) (users : gmap string User.t) (db : DB) :
    gmap string User.t * DB * Response PublicUser.t :=
  let name := field "name" req in
  let avatar := field "avatar" req in
  let failed := JsonError 500 "Failed to update profile" in
  match Req.userId req with
  | Some userId =>
      if String.eqb userId "" then (users, db, JsonError 401 "Unauthorized")
      else
        match users !! userId with
        | None => (users, db, failed)
        | Some user =>
            match (if truthy name then Some <$> asString name else Some (User.name user)),
                  (if truthy avatar then Some <$> asString avatar
                   else Some (User.avatar user)) with
            | Some name, Some avatar =>
                let user := User.mk (User.email user) (User.password user) name avatar in
                (<[userId := user]> users, db,
                 Json 200 (PublicUser.mk "Profile updated" userId (User.email user)
                             (User.name user) (User.avatar user)))
            | _, _ => (users, db, failed)
            end
        end
  | None => (users, db, JsonError 401 "Unauthorized")
  end.
End authController.
End authController.

(** ** Worked examples: a runtime and requests

    The runtime of the examples reads strings of decimal digits (for
    [parseInt] also with a minus sign) and takes no other string for a
    number or a date; the examples send no other. *)

Fixpoint readDigits (acc : Z) (s : string) : option Z :=
  match s with
  | EmptyString => Some acc
  | String c rest =>
      let n := Z.of_nat (Ascii.nat_of_ascii c) in
      if (48 <=? n) && (n <=? 57) then readDigits (acc * 10 + (n - 48)) rest else None
  end.

Definition readNumber (s : string) : option Z :=
  if String.eqb s "" then None else readDigits 0 s.

(** An integer: digits, with a minus sign in front or not. *)
Definition readInteger (s : string) : option Z :=
  match s with
  | String c rest =>
      if Ascii.eqb c (Ascii.ascii_of_nat 45) then Z.opp <$> readNumber rest
      else readNumber s
  | EmptyString => None
  end.

Definition digitsOnly : JsBuiltins := {|
  parseFloatStr s := units <$> readNumber s;
  NumberStr s := if String.eqb s "" then Some 0 else units <$> readNumber s;
  parseIntStr := readInteger;
  parseIntStr10 := readInteger;
  DateParse _ := None;
  trim s := s;
|}.

(** A request of the user [u] on the row [id] with the given query and body. *)
Definition request (u id : string) (query : list (string * string))
    (body : list (string * jsval)) : Req.t :=
  Req.mk (Some u) id (list_to_map query) (list_to_map body).

(** * Statements

    The notions the properties are stated with, and the stores and requests
    of the examples. *)

(** ** The ledger a user sees *)

(** The ledger of a user as the dashboard reads it: the row of the account
    table, zeros when there is none. *)
Definition ledgerRow (u : string) (db : DB) : Account.t :=
  default Account.zero (accounts db !! u).

(** The totals of a ledger row are values of their columns, as those of a
    stored row are. *)
Definition accountFits (a : Account.t) : bool :=
  fitsDecimal (Account.totalBalance a) && fitsDecimal (Account.totalIncome a)
  && fitsDecimal (Account.totalExpense a) && fitsDecimal (Account.totalSavings a)
  && fitsDecimal (Account.totalInvested a).

(** ** The dashboard of a user *)

(** The rows of a user that the dashboard reads, and its view of them. *)
Definition incomesOf (u : string) (db : DB) : list (string * Income.t) :=
  merge_sort (onRow (desc Income.date))
    (filter (λ x, String.eqb (Income.userId x.2) u = true) (map_to_list (incomes db))).

Definition expensesOf (u : string) (db : DB) : list (string * Expense.t) :=
  merge_sort (onRow (desc Expense.date))
    (filter (λ x, String.eqb (Expense.userId x.2) u = true) (map_to_list (expenses db))).

Definition investmentsOf (u : string) (db : DB) : list (string * Investment.t) :=
  merge_sort (onRow (desc Investment.date))
    (filter (λ x, String.eqb (Investment.userId x.2) u = true)
       (map_to_list (investments db))).

Definition activeGoalsOf (u : string) (db : DB) : list (string * SavingsGoal.t) :=
  merge_sort (onRow (desc SavingsGoal.createdAt))
    (filter (λ x, String.eqb (SavingsGoal.userId x.2) u
                  && String.eqb (SavingsGoal.status x.2) "active" = true)
       (map_to_list (savingsGoals db))).

Definition dashboardOf (now : Z) (u : string) (db : DB) : Dashboard.t :=
  let balanceLeft :=
    sumOf Income.amount (incomesOf u db) - sumOf Expense.amount (expensesOf u db)
    - sumOf Investment.amount (investmentsOf u db) in
  Dashboard.mk
    (ledger Account.totalBalance (accounts db !! u))
    (ledger Account.totalIncome (accounts db !! u))
    (ledger Account.totalExpense (accounts db !! u))
    (ledger Account.totalSavings (accounts db !! u))
    (ledger Account.totalInvested (accounts db !! u))
    (sumOf Income.amount (incomesOf u db))
    (sumOf Expense.amount (expensesOf u db))
    (sumOf Investment.amount (investmentsOf u db))
    balanceLeft
    (roundToHundredths (Z.max 0 balanceLeft))
    (sumOf SavingsGoal.currentAmount (activeGoalsOf u db))
    (sumOf SavingsGoal.targetAmount (activeGoalsOf u db))
    (weeklyStatsOf now
       (filter (λ i, minusDays now 7 ≤ Income.date i.2) (incomesOf u db))
       (filter (λ e, minusDays now 7 ≤ Expense.date e.2) (expensesOf u db))).

(** The label of the calendar day [day]. *)
Definition weekdayOf (day : Z) : option string := dayNames !! Z.to_nat ((day + 4) mod 7).

(** What a user earned and spent on a calendar day. *)
Definition incomeOn (u : string) (day : Z) (db : DB) : Z :=
  sumOf Income.amount
    (filter (λ x, Income.userId x.2 = u ∧ dayOf (Income.date x.2) = day)
       (map_to_list (incomes db))).

Definition expenseOn (u : string) (day : Z) (db : DB) : Z :=
  sumOf Expense.amount
    (filter (λ x, Expense.userId x.2 = u ∧ dayOf (Expense.date x.2) = day)
       (map_to_list (expenses db))).

(** ** The default cards of a user *)

(** The cards of a user after [updateMany] has unset the defaults. *)
Definition unsetDefaults (u : string) (m : gmap string Card.t) : gmap string Card.t :=
  (λ r, if String.eqb (Card.userId r) u && Card.isDefault r then unsetDefault r else r)
    <$> m.

(** The card [id] is a default card of the user [u]. *)
Definition isDefaultOf (u id : string) (db : DB) : Prop :=
  ∃ c, cards db !! id = Some c ∧ Card.userId c = u ∧ Card.isDefault c = true.

Definition atMostOneDefault (u : string) (db : DB) : Prop :=
  ∀ id1 id2, isDefaultOf u id1 db → isDefaultOf u id2 db → id1 = id2.

Definition exactlyOneDefault (u : string) (db : DB) : Prop :=
  ∃ id, isDefaultOf u id db ∧ ∀ id', isDefaultOf u id' db → id' = id.

(** The card [r] as the default card: [data: { isDefault: true }]. *)
Definition setDefault (r : Card.t) : Card.t :=
  Card.mk (Card.userId r) (Card.name r) (Card.type r) (Card.last4 r) (Card.issuer r)
    (Card.expiryMonth r) (Card.expiryYear r) (Card.limit r) true (Card.createdAt r).

(** The default cards of a user, counted. *)
Definition defaultCards (u : string) (db : DB) : list (string * Card.t) :=
  filter (λ x, String.eqb (Card.userId x.2) u && Card.isDefault x.2 = true)
    (map_to_list (cards db)).

(** ** What an update writes *)

(** A column after an update, for a key that is applied when [guard] holds
    of the value sent: the value sent, converted, when it does, the old
    value when it does not. *)
Definition applied {A : Type} (guard : jsval → bool) (conv : jsval → option A)
    (v : jsval) (old new : A) : Prop :=
  if guard v then conv v = Some new else new = old.

Section patches.
Context `{JsBuiltins}.

Definition incomePatched (req : Req.t) (r r' : Income.t) : Prop :=
  Income.userId r' = Income.userId r ∧
  applied truthy asString (field "title" req) (Income.title r) (Income.title r') ∧
  applied truthy asString (field "source" req) (Income.source r) (Income.source r') ∧
  applied truthy (λ v, parseFloat v ≫= decimal) (field "amount" req) (Income.amount r)
    (Income.amount r') ∧
  applied truthy newDate (field "date" req) (Income.date r) (Income.date r') ∧
  applied truthy (λ v, Some <$> asString v) (field "frequency" req)
    (Income.frequency r) (Income.frequency r') ∧
  applied truthy (λ v, Some <$> asString v) (field "description" req)
    (Income.description r) (Income.description r').

Definition expensePatched (req : Req.t) (r r' : Expense.t) : Prop :=
  Expense.userId r' = Expense.userId r ∧
  applied truthy asString (field "title" req) (Expense.title r) (Expense.title r') ∧
  applied truthy asString (field "category" req) (Expense.category r)
    (Expense.category r') ∧
  applied truthy (λ v, parseFloat v ≫= decimal) (field "amount" req) (Expense.amount r)
    (Expense.amount r') ∧
  applied truthy newDate (field "date" req) (Expense.date r) (Expense.date r') ∧
  applied truthy (λ v, Some <$> asString v) (field "paymentMethod" req)
    (Expense.paymentMethod r) (Expense.paymentMethod r') ∧
  applied truthy (λ v, Some <$> asString v) (field "description" req)
    (Expense.description r) (Expense.description r').

Definition investmentPatched (req : Req.t) (r r' : Investment.t) : Prop :=
  Investment.userId r' = Investment.userId r ∧
  Investment.amount r' = Investment.amount r ∧
  Investment.date r' = Investment.date r ∧
  applied truthy asString (field "title" req) (Investment.title r) (Investment.title r') ∧
  applied truthy asString (field "area" req) (Investment.area r) (Investment.area r') ∧
  applied truthy (λ v, Some (parseFloat v)) (field "quantity" req)
    (Investment.quantity r) (Investment.quantity r') ∧
  applied truthy (λ v, Some (parseFloat v)) (field "purchasePrice" req)
    (Investment.purchasePrice r) (Investment.purchasePrice r') ∧
  applied truthy (λ v, Some (parseFloat v)) (field "currentValue" req)
    (Investment.currentValue r) (Investment.currentValue r') ∧
  applied truthy (λ v, Some <$> asString v) (field "description" req)
    (Investment.description r) (Investment.description r').

Definition budgetPatched (req : Req.t) (r r' : Budget.t) : Prop :=
  Budget.userId r' = Budget.userId r ∧
  Budget.frequency r' = Budget.frequency r ∧
  Budget.month r' = Budget.month r ∧
  Budget.year r' = Budget.year r ∧
  Budget.createdAt r' = Budget.createdAt r ∧
  applied truthy asString (field "name" req) (Budget.name r) (Budget.name r') ∧
  applied defined asOptString (field "category" req) (Budget.category r)
    (Budget.category r') ∧
  applied truthy parseFloat (field "limit" req) (Budget.limit r) (Budget.limit r') ∧
  applied defined parseFloat (field "spent" req) (Budget.spent r) (Budget.spent r') ∧
  applied truthy asString (field "color" req) (Budget.color r) (Budget.color r') ∧
  applied defined asOptString (field "icon" req) (Budget.icon r) (Budget.icon r') ∧
  applied defined asInt (field "alertThreshold" req) (Budget.alertThreshold r)
    (Budget.alertThreshold r') ∧
  applied defined (λ v, Some (Some (truthy v))) (field "followed" req)
    (Budget.followed r) (Budget.followed r').

Definition cardPatched (req : Req.t) (r r' : Card.t) : Prop :=
  Card.userId r' = Card.userId r ∧
  Card.type r' = Card.type r ∧
  Card.last4 r' = Card.last4 r ∧
  Card.issuer r' = Card.issuer r ∧
  Card.expiryMonth r' = Card.expiryMonth r ∧
  Card.expiryYear r' = Card.expiryYear r ∧
  Card.createdAt r' = Card.createdAt r ∧
  applied truthy asString (field "cardholderName" req) (Card.name r) (Card.name r') ∧
  applied truthy (λ v, Some (parseFloat v)) (field "limit" req) (Card.limit r)
    (Card.limit r') ∧
  applied defined asBool (field "isDefault" req) (Card.isDefault r) (Card.isDefault r').

Definition savingsGoalPatched (req : Req.t) (r r' : SavingsGoal.t) : Prop :=
  SavingsGoal.userId r' = SavingsGoal.userId r ∧
  SavingsGoal.targetAmount r' = SavingsGoal.targetAmount r ∧
  SavingsGoal.icon r' = SavingsGoal.icon r ∧
  SavingsGoal.createdAt r' = SavingsGoal.createdAt r ∧
  applied truthy asString (field "title" req) (SavingsGoal.title r)
    (SavingsGoal.title r') ∧
  applied defined Number (field "currentAmount" req) (SavingsGoal.currentAmount r)
    (SavingsGoal.currentAmount r') ∧
  applied truthy (λ v, Some <$> newDate v) (field "deadline" req)
    (SavingsGoal.deadline r) (SavingsGoal.deadline r') ∧
  applied truthy asString (field "priority" req) (SavingsGoal.priority r)
    (SavingsGoal.priority r') ∧
  applied truthy asString (field "status" req) (SavingsGoal.status r)
    (SavingsGoal.status r') ∧
  applied truthy (λ v, Some <$> asString v) (field "category" req)
    (SavingsGoal.category r) (SavingsGoal.category r') ∧
  applied truthy (λ v, Some <$> asString v) (field "description" req)
    (SavingsGoal.description r) (SavingsGoal.description r').

End patches.

(** [data: { spent, limit }] of the dashboard's budget update. *)
Definition spentAndLimit (spent limit : Z) (r : Budget.t) : Budget.t :=
  Budget.mk (Budget.userId r) (Budget.name r) (Budget.category r) spent limit
    (Budget.color r) (Budget.icon r) (Budget.frequency r) (Budget.month r)
    (Budget.year r) (Budget.alertThreshold r) (Budget.followed r) (Budget.createdAt r).

(** ** Paginated lists *)

(** The rows a list request asks for: [page] and [limit] of the query, 1
    and 10 when they are absent, not numbers or zero, and the number of
    rows that match. *)
Definition pageOf `{JsBuiltins} (req : Req.t) : Z :=
  orDefault (parseInt (Req.query req !! "page")) 1.

Definition limitOf `{JsBuiltins} (req : Req.t) : Z :=
  orDefault (parseInt (Req.query req !! "limit")) 10.

Definition totalOf {A : Type} (where_ : A → bool) (m : gmap string A) : Z :=
  Z.of_nat (length (filter (λ x, where_ x.2 = true) (map_to_list m))).

(** The response of a paginated list: 200, the rows of the page, and
    [{ page, limit, total, pages }] with [pages] the ceiling of
    [total / limit]; no row when the page is beyond [pages]. *)
Definition paginated `{JsBuiltins} {A : Type} (req : Req.t) (total : Z)
    (r : Response (Listing.t A)) : Prop :=
  ∃ rows_,
    r = Json 200 (Listing.mk rows_
                    (Pagination.mk (pageOf req) (limitOf req) total
                       (ceilDiv total (limitOf req)))) ∧
    limitOf req * (ceilDiv total (limitOf req) - 1) < total
      ≤ limitOf req * ceilDiv total (limitOf req) ∧
    Z.of_nat (length rows_) ≤ limitOf req ∧
    (ceilDiv total (limitOf req) < pageOf req → rows_ = []).

(** The list operations, and what a response to one holds: the number of
    rows and the pagination, when it reports one. *)
Inductive listOperation : Type :=
| ListExpenses | ListIncomes | ListInvestments | ListTransactions
| ListBudgets | ListDashboardBudgets | ListCards | ListSavingsGoals.

Definition pageSummary {A : Type} (r : DB * Response (Listing.t A)) :
    Response (nat * option Pagination.t) :=
  match r.2 with
  | Json s l => Json s (length (Listing.items l), Some (Listing.pagination l))
  | JsonError s e => JsonError s e
  end.

Definition plainSummary {A : Type} (r : DB * Response (list (string * A))) :
    Response (nat * option Pagination.t) :=
  match r.2 with
  | Json s l => Json s (length l, None)
  | JsonError s e => JsonError s e
  end.

Definition listRows `{JsBuiltins} (op : listOperation) (req : Req.t) (db : DB) :
    Response (nat * option Pagination.t) :=
  match op with
  | ListExpenses => pageSummary (getExpenses req db)
  | ListIncomes => pageSummary (getIncomes req db)
  | ListInvestments => pageSummary (getInvestments req db)
  | ListTransactions => pageSummary (dashboardController.getTransactions req db)
  | ListBudgets => plainSummary (budgetController.getBudgets req db)
  | ListDashboardBudgets => plainSummary (dashboardController.getBudgets req db)
  | ListCards => plainSummary (getCards req db)
  | ListSavingsGoals => plainSummary (getSavingsGoals req db)
  end.

(** ** Claims as they are stated *)

(** C2 as it is stated, for expenses: every expense that is created moves
    [totalExpense] and [totalBalance] of the ledger by its amount. *)
Definition expenseCreateMovesLedger `{JsBuiltins} : Prop :=
  ∀ (now : Z) (newId : string) (req : Req.t) (db db' : DB) (id : string)
    (e : Expense.t) (u : string),
    Req.userId req = Some u →
    createExpense now newId req db = (db', Json 201 (id, e)) →
    Account.totalExpense (ledgerRow u db')
      = Account.totalExpense (ledgerRow u db) + Expense.amount e ∧
    Account.totalBalance (ledgerRow u db')
      = Account.totalBalance (ledgerRow u db) - Expense.amount e.

(** C4 as it is stated, for a creation: after every call with
    [isDefault: true] by a user who had at most one default card, the user
    has exactly one. *)
Definition defaultRequestLeavesOne `{JsBuiltins} : Prop :=
  ∀ (now : Z) (newId : string) (req : Req.t) (db : DB) (u : string),
    Req.userId req = Some u →
    field "isDefault" req = JBool true →
    atMostOneDefault u db →
    exactlyOneDefault u (createCard now newId req db).1.

(** C6 as it is stated, for the title of an expense: a key that is present
    in the patch sets its column to the value sent. *)
Definition presentKeysApplied `{JsBuiltins} : Prop :=
  ∀ (req : Req.t) (db db' : DB) (id : string) (r' : Expense.t) (s : string),
    updateExpense req db = (db', Json 200 (id, r')) →
    Req.body req !! "title" = Some (JStr s) →
    Expense.title r' = s.

(** C8 as it is stated: every list reports [pages], the ceiling of
    [total / limit], and has no rows on a page beyond [pages]. *)
Definition everyListPaginated `{JsBuiltins} : Prop :=
  ∀ (op : listOperation) (req : Req.t) (db : DB) (n : nat) (p : option Pagination.t),
    listRows op req db = Json 200 (n, p) →
    ∃ pg, p = Some pg ∧
          Pagination.pages pg = ceilDiv (Pagination.total pg) (Pagination.limit pg) ∧
          (Pagination.pages pg < Pagination.page pg → n = 0%nat).

(** ** Stores and requests of the examples *)

(** A store with one goal of the user [u1]: 80.00 saved of 100.00, active. *)
Definition goal80 : SavingsGoal.t :=
  SavingsGoal.mk "u1" "Bike" None (units 100) (units 80) None "medium" "active"
    (Some "General") (Some "🎯") 0.

Definition goalDB : DB := set_savingsGoals {["g1" := goal80]} emptyDB.

(** The store after the scenario of C5: the goal is completed with nothing
    saved. *)
Definition goalDB_after : DB :=
  (withdrawSavingsGoal (H := digitsOnly)
     (request "u1" "g1" [] [("amount", JNum (units 200))])
     (contributeSavingsGoal (H := digitsOnly)
        (request "u1" "g1" [] [("amount", JNum (units 30))]) goalDB).1).1.

(** The store after registration of [u1]: the ledger row, all zero. *)
Definition registeredDB : DB := set_accounts {["u1" := Account.zero]} emptyDB.

Definition income500 : Req.t :=
  request "u1" "" []
    [("title", JStr "Salary"); ("source", JStr "Job"); ("amount", JNum (units 500))].

Definition expense120 : Req.t :=
  request "u1" "" []
    [("title", JStr "Food"); ("category", JStr "Groceries"); ("amount", JNum (units 120))].

Definition investment200 : Req.t :=
  request "u1" "" []
    [("title", JStr "Fund"); ("area", JStr "Stocks"); ("amount", JNum (units 200))].

(** The three creations of the scenario, one after the other: the store
    after them, and the statuses they are answered with. *)
Definition afterScenario `{JsBuiltins} (now : Z) (db : DB) : DB :=
  let db1 := (createIncome now "i1" income500 db).1 in
  let db2 := (createExpense now "e1" expense120 db1).1 in
  (createInvestment now "v1" investment200 db2).1.

Definition scenarioStatuses `{JsBuiltins} (now : Z) (db : DB) : list Z :=
  let r1 := createIncome now "i1" income500 db in
  let r2 := createExpense now "e1" expense120 r1.1 in
  let r3 := createInvestment now "v1" investment200 r2.1 in
  [statusOf r1.2; statusOf r2.2; statusOf r3.2].

(** A budget of [bob], and a request of [alice]. *)
Definition bobBudget : Budget.t :=
  Budget.mk "bob" "Food" None (units 10) (units 300) "#10B981" None "monthly" None None 80
    None 0.

Definition bobDB : DB := set_budgets {["b1" := bobBudget]} emptyDB.

Definition aliceSpent : Req.t := request "alice" "" [] [("spent", JNum (units 999))].

(** An expense of [u1], and the patch [{ title: "" }]. *)
Definition foodExpense : Expense.t :=
  Expense.mk "u1" "Food" "Groceries" (units 120) 0 None None.

Definition expenseDB : DB := set_expenses {["e1" := foodExpense]} emptyDB.

Definition emptyTitle : Req.t := request "u1" "e1" [] [("title", JStr "")].

Definition newTitle : Req.t := request "u1" "e1" [] [("title", JStr "Lunch")].

(** An income of 500.00 of [u1] with its ledger row, as its creation at
    time 0 by a newly registered user leaves them, and the patch
    [{ amount: 700 }]. *)
Definition salary : Income.t := Income.mk "u1" "Salary" "Job" (units 500) 0 None None.

Definition salaryDB : DB :=
  set_incomes {["i1" := salary]}
    (set_accounts {["u1" := Account.mk (units 500) (units 500) 0 0 0]} emptyDB).

Definition raise700 : Req.t := request "u1" "i1" [] [("amount", JNum (units 700))].

(** A store in which the ledger of [u1] holds the largest value of its
    columns. *)
Definition fullLedger : DB :=
  set_accounts {["u1" := Account.mk maxDecimal maxDecimal 0 0 0]} emptyDB.

Definition salary700 : Income.t := Income.mk "u1" "Salary" "Job" (units 700) 0 None None.

(** A card of [u1] that is the default, and a second one that is not. *)
Definition visa : Card.t :=
  Card.mk "u1" "Ann" "visa" "1111" (Some "Unknown") None None None true 0.

Definition amex : Card.t :=
  Card.mk "u1" "Ann" "amex" "2222" (Some "Unknown") None None None false 0.

Definition cardsDB : DB := set_cards (<["c1" := visa]> {["c2" := amex]}) emptyDB.

Definition makeDefault : Req.t := request "u1" "c2" [] [("isDefault", JBool true)].

(** A new default card, the month of its expiry sent as a text. *)
Definition monthAsText : Req.t :=
  request "u1" "" []
    [("cardholderName", JStr "Ann"); ("type", JStr "visa"); ("last4", JStr "5678");
     ("expiryMonth", JStr "12"); ("isDefault", JBool true)].

Definition amexDefault : Card.t :=
  Card.mk "u1" "Ann" "amex" "2222" (Some "Unknown") None None None true 0.

Definition cardsDB_after : DB :=
  set_cards (<["c1" := unsetDefault visa]> {["c2" := amexDefault]}) emptyDB.

(** A Wednesday: 15 November 2023, 00:00. *)
Definition aWednesday : Z := 1700006400000.

(** Three expenses of [u1], and the third page of two. *)
Definition threeExpenses : DB :=
  set_expenses
    (<["e1" := Expense.mk "u1" "Food" "Groceries" (units 120) 3 None None]>
       (<["e2" := Expense.mk "u1" "Bus" "Transport" (units 3) 2 None None]>
          {["e3" := Expense.mk "u1" "Rent" "Home" (units 700) 1 None None]}))
    emptyDB.

Definition thirdPage : Req.t := request "u1" "" [("page", "3"); ("limit", "2")] [].

(** The three expenses, the latest first. *)
Definition expensesByDate : list (string * Expense.t) :=
  [("e1", Expense.mk "u1" "Food" "Groceries" (units 120) 3 None None);
   ("e2", Expense.mk "u1" "Bus" "Transport" (units 3) 2 None None);
   ("e3", Expense.mk "u1" "Rent" "Home" (units 700) 1 None None)].

(** ** The handlers of the routers *)

(** The handlers the routers mount, by what they do to the store: those that
    read, those that write a row and the ledger with it, the two updates
    that can change an amount, the other handlers that write, and the one
    handler that does not ask who calls. *)
Definition reads `{JsBuiltins} (now : Z) : list Handler :=
  [ served getExpenses; served getIncomes; served getInvestments;
    served budgetController.getBudgets; served getCards; served getSavingsGoals;
    served (dashboardController.getDashboard now);
    served dashboardController.getTransactions; served dashboardController.getBudgets ].

Definition ledgerWrites `{JsBuiltins} (now : Z) (newId : string) : list Handler :=
  [ served (createIncome now newId); served deleteIncome;
    served (createExpense now newId); served deleteExpense;
    served (createInvestment now newId); served deleteInvestment ].

Definition amountUpdates `{JsBuiltins} : list Handler :=
  [ served updateIncome; served updateExpense ].

Definition otherWrites `{JsBuiltins} (now : Z) (newId : string) : list Handler :=
  [ served updateInvestment;
    served (budgetController.createBudget now newId);
    served budgetController.updateBudget; served budgetController.deleteBudget;
    served (createCard now newId); served updateCard; served deleteCard;
    served (createSavingsGoal now newId); served updateSavingsGoal;
    served contributeSavingsGoal; served withdrawSavingsGoal; served deleteSavingsGoal;
    served (dashboardController.createTransaction now newId);
    served (dashboardController.createBudget now newId) ].

Definition checkedHandlers `{JsBuiltins} (now : Z) (newId : string) : list Handler :=
  reads now ++ ledgerWrites now newId ++ amountUpdates ++ otherWrites now newId.

Definition handlers `{JsBuiltins} (now : Z) (newId : string) : list Handler :=
  checkedHandlers now newId ++ [served dashboardController.updateBudget].

(** ** The rows of a user

    What a user has in the store: the rows it owns in each table, and its
    ledger row. *)

Definition ownedBy {A : Type} (owner : A → string) (u : string) (m : gmap string A) :
    gmap string A :=
  filter (λ x, owner x.2 = u) m.

Definition storeOf (u : string) (db : DB) : DB :=
  mkDB (filter (λ x, x.1 = u) (accounts db))
    (ownedBy Income.userId u (incomes db))
    (ownedBy Expense.userId u (expenses db))
    (ownedBy Investment.userId u (investments db))
    (ownedBy Budget.userId u (budgets db))
    (ownedBy Card.userId u (cards db))
    (ownedBy SavingsGoal.userId u (savingsGoals db))
    (ownedBy Transaction.userId u (transactions db)).

(** ** The ledger and the rows

    The balance of a ledger row is what came in less what went out. *)
Definition balanced (a : Account.t) : Prop :=
  Account.totalBalance a
  = Account.totalIncome a - Account.totalExpense a - Account.totalInvested a.

(** The ledger of a user follows the rows: each total is the sum of the
    amounts of the rows of its kind. *)
Definition synced (u : string) (db : DB) : Prop :=
  Account.totalIncome (ledgerRow u db) = sumOf Income.amount (incomesOf u db) ∧
  Account.totalExpense (ledgerRow u db) = sumOf Expense.amount (expensesOf u db) ∧
  Account.totalInvested (ledgerRow u db) = sumOf Investment.amount (investmentsOf u db).

(** ** The rows of a list *)

(** A list holds the rows of a user in a table, each once. *)
Definition ownRows {A : Type} (owner : A → string) (u : string) (m : gmap string A)
    (l : list (string * A)) : Prop :=
  NoDup l ∧ ∀ id r, (id, r) ∈ l ↔ m !! id = Some r ∧ owner r = u.

(** The rows of page [p] of a list cut into pages of [limit] rows. *)
Definition slice {A : Type} (p limit : Z) (l : list A) : list A :=
  take (Z.to_nat limit) (drop (Z.to_nat ((p - 1) * limit)) l).

(** The later row first, and no two rows of the same date: the order of
    rows that [orderBy] leaves no choice in. *)
Definition strictlyDesc {A : Type} (key : A → Z) : relation A := λ x y, key y < key x.

(** The rows a paginated list is cut from: the rows of the user that match
    the filter of the query, the latest first. *)
Definition expensesMatching (u : string) (category : option string) (db : DB) :
    list (string * Expense.t) :=
  merge_sort (onRow (desc Expense.date))
    (filter (λ x, String.eqb (Expense.userId x.2) u
                  && matches Expense.category category x.2 = true)
       (map_to_list (expenses db))).

Definition incomesMatching (u : string) (source : option string) (db : DB) :
    list (string * Income.t) :=
  merge_sort (onRow (desc Income.date))
    (filter (λ x, String.eqb (Income.userId x.2) u
                  && matches Income.source source x.2 = true)
       (map_to_list (incomes db))).

Definition investmentsMatching (u : string) (area : option string) (db : DB) :
    list (string * Investment.t) :=
  merge_sort (onRow (desc Investment.date))
    (filter (λ x, String.eqb (Investment.userId x.2) u
                  && matches Investment.area area x.2 = true)
       (map_to_list (investments db))).

Definition transactionsOf (u : string) (db : DB) : list (string * Transaction.t) :=
  merge_sort (onRow (desc Transaction.date))
    (filter (λ x, String.eqb (Transaction.userId x.2) u = true)
       (map_to_list (transactions db))).

(** ** Saved amounts and card numbers *)

(** No goal of the store has a negative amount saved. *)
Definition savedAmountsNonNegative (db : DB) : Prop :=
  ∀ id g, savingsGoals db !! id = Some g → 0 ≤ SavingsGoal.currentAmount g.

(** No card of the store holds more than four characters of its number. *)
Definition cardNumbersMasked (db : DB) : Prop :=
  ∀ id c, cards db !! id = Some c → (String.length (Card.last4 c) ≤ 4)%nat.

(** ** Tokens and users *)

(** [holds sep s]: the character [sep] occurs in [s]. *)
Fixpoint holds (sep : Ascii.ascii) (s : string) : bool :=
  match s with
  | EmptyString => false
  | String c rest => Ascii.eqb c sep || holds sep rest
  end.

(** No two users share an email. *)
Definition uniqueEmails (users : gmap string User.t) : Prop :=
  ∀ id1 id2 u1 u2,
    users !! id1 = Some u1 → users !! id2 = Some u2 →
    User.email u1 = User.email u2 → id1 = id2.

(** Every user has a ledger row. *)
Definition usersHaveLedger (users : gmap string User.t) (db : DB) : Prop :=
  ∀ id, is_Some (users !! id) → is_Some (accounts db !! id).

(** ** More stores and requests of the examples *)

(** A card with its whole number sent, and one whose [isDefault] is not a
    boolean. *)
Definition wholeNumber : Req.t :=
  request "u1" "" []
    [("cardholderName", JStr "Ann"); ("type", JStr "visa");
     ("last4", JStr "4000123412345678")].

Definition defaultYes : Req.t :=
  request "u1" "" []
    [("cardholderName", JStr "Ann"); ("type", JStr "visa"); ("last4", JStr "5678");
     ("isDefault", JStr "yes")].

Definition card5678 : Card.t :=
  Card.mk "u1" "Ann" "visa" "5678" (Some "Unknown") None None None false 0.

(** A budget with a negative limit. *)
Definition negativeLimit : Req.t :=
  request "u1" "" [] [("name", JStr "Food"); ("limit", JNum (units (-5)))].

(** Amounts for the goal of [goalDB]. *)
Definition amount (n : Z) : Req.t := request "u1" "g1" [] [("amount", JNum (units n))].

Definition saved50 : Req.t := request "u1" "g1" [] [("currentAmount", JNum (units 50))].

(** A library for the examples: the hash of a password is the password
    behind a mark, a token is the user behind a mark. *)
Definition plainAuth : AuthLib := {|
  bcryptHash password _ := "#" +:+ password;
  bcryptCompare password hash := String.eqb hash ("#" +:+ password);
  jwtSign _ userId := "jwt." +:+ userId;
  jwtVerify _ token :=
    if String.prefix "jwt." token
    then Some (Some (String.substring 4 (String.length token - 4) token))
    else None;
|}.

Definition annRegisters : Req.t :=
  Req.mk None "" ∅ (list_to_map [("email", JStr "ann@mail.org"); ("password", JStr "secret")]).

Definition ann : User.t := User.mk "ann@mail.org" "#secret" (Some "ann") None.

Definition annSession : Session.t :=
  Session.mk "User registered successfully" "jwt.u1" "u1" "ann@mail.org" (Some "ann").

Definition annLogin : Session.t :=
  Session.mk "Login successful" "jwt.u1" "u1" "ann@mail.org" (Some "ann").

Definition beaRegisters : Req.t :=
  Req.mk None "" ∅
    (list_to_map [("email", JStr "bea@mail.org"); ("password", JStr "hidden");
                  ("name", JStr "Bea")]).

Definition annRenames : Req.t := request "u1" "" [] [("name", JStr "Ann")].

(** The character ['/'], and the year a card is given for the year [y] of
    an expiry date: a year of two digits is of this century. *)
Definition slash : Ascii.ascii := Ascii.ascii_of_nat 47.

Definition fullYear (y : Z) : Z := if y <? 100 then y + 2000 else y.

(** A card with the expiry date as the frontend sends it. *)
Definition expiresDec25 : Req.t :=
  request "u1" "" []
    [("cardholderName", JStr "Ann"); ("cardType", JStr "visa"); ("last4", JStr "5678");
     ("expiryMonth", JNum 1); ("expiryDate", JStr "12/25")].

Definition cardDec25 : Card.t :=
  Card.mk "u1" "Ann" "visa" "5678" (Some "Unknown") (Some 12) (Some 2025) None false 0.

(** * Properties *)

(** ** Running a handler in a proof

    [munfold] opens the monad of a handler; [step_in] decides the test at
    the head of the run in the equation of its result, from a hypothesis
    about the test when there is one and by cases otherwise. *)

Ltac spine_scrut t k :=
  lazymatch t with
  | match ?x with _ => _ end => first [spine_scrut x k | k x]
  | ?f ?a => spine_scrut f k
  end.

Ltac msimpl :=
  cbv beta iota delta [rows set_rows account income expense investment budget card
                       savingsGoal transaction orb andb negb missing];
  cbn [accounts incomes expenses investments budgets cards savingsGoals transactions
       set_accounts set_incomes set_expenses set_investments set_budgets set_cards
       set_savingsGoals set_transactions].
Ltac msimpl_in E :=
  cbv beta iota delta [rows set_rows account income expense investment budget card
                       savingsGoal transaction orb andb negb missing] in E;
  cbn [accounts incomes expenses investments budgets cards savingsGoals transactions
       set_accounts set_incomes set_expenses set_investments set_budgets set_cards
       set_savingsGoals set_transactions] in E.

Ltac munfold :=
  unfold findManyPage;
  unfold tryCatch, bind, authorized, findFirst, findUnique, create, update, updateMany,
    delete_, findMany, count, returnIf, accepted, respond, go, throw;
  msimpl.
Ltac munfold_in E :=
  unfold findManyPage in E;
  unfold tryCatch, bind, authorized, findFirst, findUnique, create, update, updateMany,
    delete_, findMany, count, returnIf, accepted, respond, go, throw in E;
  msimpl_in E.

Ltac decide_scrut_in E x :=
  first
    [ match goal with
      | H : x = _ |- _ => rewrite H in E
      end
    | let Hx := fresh "Hx" in destruct x eqn:Hx ].

Ltac step_in E :=
  lazymatch type of E with
  | ?l = _ => spine_scrut l ltac:(fun x => decide_scrut_in E x)
  end; msimpl_in E.

(** What a test that came out true or false says. *)
Ltac tests :=
  repeat match goal with
    | H : (_ || _) = false |- _ => apply orb_false_iff in H; destruct H
    | H : (_ && _) = true |- _ => apply andb_true_iff in H; destruct H
    | H : negb _ = true |- _ => apply negb_true_iff in H
    | H : negb _ = false |- _ => apply negb_false_iff in H
    | H : String.eqb _ _ = true |- _ => apply String.eqb_eq in H
    | H : String.eqb _ _ = false |- _ => apply String.eqb_neq in H
    | H : (_ <=? _) = true |- _ => apply Z.leb_le in H
    | H : (_ <=? _) = false |- _ => apply Z.leb_gt in H
    | H : (_ <? _) = true |- _ => apply Z.ltb_lt in H
    | H : (_ <? _) = false |- _ => apply Z.ltb_ge in H
    | H : (_ =? _) = true |- _ => apply Z.eqb_eq in H
    | H : (_ =? _) = false |- _ => apply Z.eqb_neq in H
    end.

(** ** The savings goal scenario and the status after a contribution *)

Section savings.
Context `{JsBuiltins}.

(** A contribution of a positive amount to a goal of the caller adds the
    amount and sets the status by the target. *)
Lemma contributeSavingsGoal_run req db u g a :
  Req.userId req = Some u → u ≠ "" →
  nullish (field "amount" req) = false →
  Number (field "amount" req) = Some a → 0 < a →
  savingsGoals db !! Req.id req = Some g →
  SavingsGoal.userId g = u →
  let complete := SavingsGoal.targetAmount g <=? SavingsGoal.currentAmount g + a in
  let g' := SavingsGoal.mk (SavingsGoal.userId g) (SavingsGoal.title g)
              (SavingsGoal.description g) (SavingsGoal.targetAmount g)
              (SavingsGoal.currentAmount g + a) (SavingsGoal.deadline g)
              (SavingsGoal.priority g) (if complete then "completed" else "active")
              (SavingsGoal.category g) (SavingsGoal.icon g) (SavingsGoal.createdAt g) in
  contributeSavingsGoal req db =
    (set_savingsGoals (<[Req.id req := g']> (savingsGoals db)) db,
     Json 200 (Req.id req, g', complete)).
Proof.
  intros Hu Hne Hnn Ha Hpos Hg Ho complete g'.
  assert (Hle : le0 (Some a) = false) by (apply Z.leb_gt; done).
  assert (Hown : String.eqb (SavingsGoal.userId g) u = true) by (by apply String.eqb_eq).
  apply String.eqb_neq in Hne.
  unfold contributeSavingsGoal. munfold.
  rewrite Hu, Hne. msimpl. rewrite Hnn, Ha, Hle. msimpl.
  rewrite Hg, Hown. msimpl. rewrite Hg. reflexivity.
Qed.

(** A withdrawal of a positive amount from a goal of the caller takes the
    amount off, not below zero, and keeps every other column. *)
Lemma withdrawSavingsGoal_run req db u g a :
  Req.userId req = Some u → u ≠ "" →
  nullish (field "amount" req) = false →
  Number (field "amount" req) = Some a → 0 < a →
  savingsGoals db !! Req.id req = Some g →
  SavingsGoal.userId g = u →
  let g' := SavingsGoal.mk (SavingsGoal.userId g) (SavingsGoal.title g)
              (SavingsGoal.description g) (SavingsGoal.targetAmount g)
              (Z.max 0 (SavingsGoal.currentAmount g - a)) (SavingsGoal.deadline g)
              (SavingsGoal.priority g) (SavingsGoal.status g)
              (SavingsGoal.category g) (SavingsGoal.icon g) (SavingsGoal.createdAt g) in
  withdrawSavingsGoal req db =
    (set_savingsGoals (<[Req.id req := g']> (savingsGoals db)) db,
     Json 200 (Req.id req, g')).
Proof.
  intros Hu Hne Hnn Ha Hpos Hg Ho g'.
  assert (Hle : le0 (Some a) = false) by (apply Z.leb_gt; done).
  assert (Hown : String.eqb (SavingsGoal.userId g) u = true) by (by apply String.eqb_eq).
  apply String.eqb_neq in Hne.
  unfold withdrawSavingsGoal. munfold.
  rewrite Hu, Hne. msimpl. rewrite Hnn, Ha, Hle. msimpl.
  rewrite Hg, Hown. msimpl. rewrite Hg. reflexivity.
Qed.
End savings.

(** C5. A goal with target 100 and 80 saved, active: contributing 30 gives
    110 saved and the status completed; withdrawing 200 after that gives 0
    saved (the floor, not a negative amount) and the status stays
    completed. *)
Theorem savings_goal_scenario `{JsBuiltins} (db : DB) (u id : string) (g : SavingsGoal.t) :
  u ≠ "" →
  savingsGoals db !! id = Some g →
  SavingsGoal.userId g = u →
  SavingsGoal.targetAmount g = units 100 →
  SavingsGoal.currentAmount g = units 80 →
  SavingsGoal.status g = "active" →
  ∃ db1 g1 db2 g2,
    contributeSavingsGoal (request u id [] [("amount", JNum (units 30))]) db
      = (db1, Json 200 (id, g1, true)) ∧
    savingsGoals db1 !! id = Some g1 ∧
    SavingsGoal.currentAmount g1 = units 110 ∧
    SavingsGoal.status g1 = "completed" ∧
    withdrawSavingsGoal (request u id [] [("amount", JNum (units 200))]) db1
      = (db2, Json 200 (id, g2)) ∧
    savingsGoals db2 !! id = Some g2 ∧
    SavingsGoal.currentAmount g2 = 0 ∧
    SavingsGoal.status g2 = "completed".
Proof.
  intros Hne Hg Ho Ht Hc Hs.
  pose proof (contributeSavingsGoal_run (request u id [] [("amount", JNum (units 30))])
                db u g (units 30) eq_refl Hne eq_refl eq_refl eq_refl Hg Ho) as Hrun1.
  cbv zeta in Hrun1. rewrite Ht, Hc in Hrun1.
  change (units 100 <=? units 80 + units 30) with true in Hrun1.
  cbv iota in Hrun1.
  match type of Hrun1 with
  | _ = (?d, Json 200 (_, ?r, _)) => set (db1 := d) in *; set (g1 := r) in *
  end.
  assert (Hg1 : savingsGoals db1 !! id = Some g1) by apply lookup_insert_eq.
  pose proof (withdrawSavingsGoal_run (request u id [] [("amount", JNum (units 200))])
                db1 u g1 (units 200) eq_refl Hne eq_refl eq_refl eq_refl Hg1 Ho) as Hrun2.
  cbv zeta in Hrun2.
  match type of Hrun2 with
  | _ = (?d, Json 200 (_, ?r)) => set (db2 := d) in *; set (g2 := r) in *
  end.
  exists db1, g1, db2, g2.
  repeat split; try done.
  apply lookup_insert_eq.
Qed.

Lemma savings_goal_scenario_witness :
  ∃ db1 g1 db2 g2,
    contributeSavingsGoal (H := digitsOnly)
      (request "u1" "g1" [] [("amount", JNum (units 30))]) goalDB
      = (db1, Json 200 ("g1", g1, true)) ∧
    savingsGoals db1 !! "g1" = Some g1 ∧
    SavingsGoal.currentAmount g1 = units 110 ∧
    SavingsGoal.status g1 = "completed" ∧
    withdrawSavingsGoal (H := digitsOnly)
      (request "u1" "g1" [] [("amount", JNum (units 200))]) db1
      = (db2, Json 200 ("g1", g2)) ∧
    savingsGoals db2 !! "g1" = Some g2 ∧
    SavingsGoal.currentAmount g2 = 0 ∧
    SavingsGoal.status g2 = "completed".
Proof.
  apply (savings_goal_scenario (H := digitsOnly) goalDB "u1" "g1" goal80).
  - discriminate.
  - vm_compute. reflexivity.
  - reflexivity.
  - reflexivity.
  - reflexivity.
  - reflexivity.
Defined.

(** C10. A contribution that leaves the saved amount strictly below the
    target sets the status to active, whatever the status was before: also
    when it was completed, which a withdrawal leaves in place while it
    lowers the saved amount. *)
Theorem contribute_below_target_sets_active `{JsBuiltins} (req : Req.t) (db : DB)
    (u : string) (g : SavingsGoal.t) (a : Z) :
  Req.userId req = Some u → u ≠ "" →
  nullish (field "amount" req) = false →
  Number (field "amount" req) = Some a → 0 < a →
  savingsGoals db !! Req.id req = Some g →
  SavingsGoal.userId g = u →
  SavingsGoal.currentAmount g + a < SavingsGoal.targetAmount g →
  ∃ db' g',
    contributeSavingsGoal req db = (db', Json 200 (Req.id req, g', false)) ∧
    savingsGoals db' !! Req.id req = Some g' ∧
    SavingsGoal.currentAmount g' = SavingsGoal.currentAmount g + a ∧
    SavingsGoal.status g' = "active".
Proof.
  intros Hu Hne Hnn Ha Hpos Hg Ho Hlt.
  pose proof (contributeSavingsGoal_run req db u g a Hu Hne Hnn Ha Hpos Hg Ho) as Hrun.
  cbv zeta in Hrun.
  assert (Hc : (SavingsGoal.targetAmount g <=? SavingsGoal.currentAmount g + a) = false)
    by (apply Z.leb_gt; done).
  rewrite Hc in Hrun.
  eexists _, _. split; [exact Hrun|].
  split; [apply lookup_insert_eq|]. split; reflexivity.
Qed.

Lemma contribute_below_target_sets_active_witness :
  (SavingsGoal.status <$> savingsGoals goalDB_after !! "g1") = Some "completed" ∧
  ∃ db' g',
    contributeSavingsGoal (H := digitsOnly)
      (request "u1" "g1" [] [("amount", JNum (units 10))]) goalDB_after
      = (db', Json 200 ("g1", g', false)) ∧
    savingsGoals db' !! "g1" = Some g' ∧
    SavingsGoal.currentAmount g' = 0 + units 10 ∧
    SavingsGoal.status g' = "active".
Proof.
  split; [vm_compute; reflexivity|].
  apply (contribute_below_target_sets_active (H := digitsOnly)
           (request "u1" "g1" [] [("amount", JNum (units 10))]) goalDB_after "u1"
           (SavingsGoal.mk "u1" "Bike" None (units 100) 0 None "medium" "completed"
              (Some "General") (Some "🎯") 0) (units 10)).
  - reflexivity.
  - discriminate.
  - reflexivity.
  - reflexivity.
  - reflexivity.
  - vm_compute. reflexivity.
  - reflexivity.
  - reflexivity.
Defined.

(** ** The dashboard of a new user *)

(** The dashboard reads the store and leaves it as it is; a caller with a
    token gets the view of the rows of that caller. *)
Lemma getDashboard_run (now : Z) (req : Req.t) (db : DB) (u : string) :
  Req.userId req = Some u → u ≠ "" →
  dashboardController.getDashboard now req db = (db, Json 200 (dashboardOf now u db)).
Proof.
  intros Hu Hne. apply String.eqb_neq in Hne.
  unfold dashboardController.getDashboard. munfold. rewrite Hu, Hne. reflexivity.
Qed.

(** C3. For a new user (no rows, a ledger of zeros), after an income of
    500, an expense of 120 and an investment of 200 the dashboard reports
    totalBalance 180, totalIncomeSum 500, totalExpenseSum 120,
    totalInvestmentSum 200, balanceLeft 180 and recommendedSavings 18.00,
    the tenth of balanceLeft, not below zero, rounded to two decimals. The
    same holds for a user whose ledger row is missing when the income is
    created first. *)
Theorem dashboard_scenario `{JsBuiltins} (now : Z) (db : DB) :
  db = registeredDB ∨ db = emptyDB →
  scenarioStatuses now db = [201; 201; 201] ∧
  ∃ d,
    dashboardController.getDashboard now (request "u1" "" [] []) (afterScenario now db)
      = (afterScenario now db, Json 200 d) ∧
    Dashboard.totalBalance d = units 180 ∧
    Dashboard.totalIncomeSum d = units 500 ∧
    Dashboard.totalExpenseSum d = units 120 ∧
    Dashboard.totalInvestmentSum d = units 200 ∧
    Dashboard.balanceLeft d = units 180 ∧
    Dashboard.recommendedSavings d = units 18 ∧
    Dashboard.recommendedSavings d
      = roundToHundredths (Z.max 0 (Dashboard.balanceLeft d)).
Proof.
  intros Hdb. split; [destruct Hdb as [-> | ->]; vm_compute; reflexivity|].
  exists (dashboardOf now "u1" (afterScenario now db)).
  split; [by apply getDashboard_run|].
  destruct Hdb as [-> | ->]; repeat split; vm_compute; reflexivity.
Qed.

Lemma dashboard_scenario_witness :
  @scenarioStatuses digitsOnly 1700000000000 registeredDB = [201; 201; 201] ∧
  ∃ d,
    dashboardController.getDashboard 1700000000000
      (request "u1" "" [] []) (@afterScenario digitsOnly 1700000000000 registeredDB)
      = (@afterScenario digitsOnly 1700000000000 registeredDB, Json 200 d) ∧
    Dashboard.totalBalance d = units 180 ∧
    Dashboard.totalIncomeSum d = units 500 ∧
    Dashboard.totalExpenseSum d = units 120 ∧
    Dashboard.totalInvestmentSum d = units 200 ∧
    Dashboard.balanceLeft d = units 180 ∧
    Dashboard.recommendedSavings d = units 18 ∧
    Dashboard.recommendedSavings d
      = roundToHundredths (Z.max 0 (Dashboard.balanceLeft d)).
Proof.
  apply (dashboard_scenario (H := digitsOnly) 1700000000000 registeredDB).
  left. reflexivity.
Defined.

(** ** Ownership of rows *)

(** A row of another user is, to the handlers that look a row up by [id]
    and [userId], a row that is not there: 404, and the store as it was. *)
Ltac not_owned Hu Hne Hrow Hown :=
  munfold; rewrite Hu, Hne; msimpl; rewrite Hrow, Hown; reflexivity.

Section ownership.
Context `{JsBuiltins}.
Context (req : Req.t) (db : DB) (a : string).
Hypothesis caller : Req.userId req = Some a.
Hypothesis caller_named : String.eqb a "" = false.

Lemma income_not_owned (r : Income.t) :
  incomes db !! Req.id req = Some r → String.eqb (Income.userId r) a = false →
  updateIncome req db = (db, JsonError 404 "Income not found") ∧
  deleteIncome req db = (db, JsonError 404 "Income not found").
Proof.
  intros Hrow Hown. split.
  - unfold updateIncome. not_owned caller caller_named Hrow Hown.
  - unfold deleteIncome. not_owned caller caller_named Hrow Hown.
Qed.

Lemma expense_not_owned (r : Expense.t) :
  expenses db !! Req.id req = Some r → String.eqb (Expense.userId r) a = false →
  updateExpense req db = (db, JsonError 404 "Expense not found") ∧
  deleteExpense req db = (db, JsonError 404 "Expense not found").
Proof.
  intros Hrow Hown. split.
  - unfold updateExpense. not_owned caller caller_named Hrow Hown.
  - unfold deleteExpense. not_owned caller caller_named Hrow Hown.
Qed.

Lemma investment_not_owned (r : Investment.t) :
  investments db !! Req.id req = Some r → String.eqb (Investment.userId r) a = false →
  updateInvestment req db = (db, JsonError 404 "Investment not found") ∧
  deleteInvestment req db = (db, JsonError 404 "Investment not found").
Proof.
  intros Hrow Hown. split.
  - unfold updateInvestment. not_owned caller caller_named Hrow Hown.
  - unfold deleteInvestment. not_owned caller caller_named Hrow Hown.
Qed.

Lemma card_not_owned (r : Card.t) :
  cards db !! Req.id req = Some r → String.eqb (Card.userId r) a = false →
  updateCard req db = (db, JsonError 404 "Card not found") ∧
  deleteCard req db = (db, JsonError 404 "Card not found").
Proof.
  intros Hrow Hown. split.
  - unfold updateCard. not_owned caller caller_named Hrow Hown.
  - unfold deleteCard. not_owned caller caller_named Hrow Hown.
Qed.

Lemma savingsGoal_not_owned (r : SavingsGoal.t) :
  savingsGoals db !! Req.id req = Some r → String.eqb (SavingsGoal.userId r) a = false →
  updateSavingsGoal req db = (db, JsonError 404 "Savings goal not found") ∧
  deleteSavingsGoal req db = (db, JsonError 404 "Savings goal not found").
Proof.
  intros Hrow Hown. split.
  - unfold updateSavingsGoal. not_owned caller caller_named Hrow Hown.
  - unfold deleteSavingsGoal. not_owned caller caller_named Hrow Hown.
Qed.

(** The budget controller does the same; its update is not the one that
    [PUT /api/budgets/:id] reaches. *)
Lemma budget_not_owned (r : Budget.t) :
  budgets db !! Req.id req = Some r → String.eqb (Budget.userId r) a = false →
  budgetController.updateBudget req db = (db, JsonError 404 "Budget not found") ∧
  budgetController.deleteBudget req db = (db, JsonError 404 "Budget not found").
Proof.
  intros Hrow Hown. split.
  - unfold budgetController.updateBudget. not_owned caller caller_named Hrow Hown.
  - unfold budgetController.deleteBudget. not_owned caller caller_named Hrow Hown.
Qed.
End ownership.

(** C1, where the code departs from it. [PUT /api/budgets/:id] is taken by
    the dashboard router, whose update looks the budget up by [id] alone:
    whoever the caller is and whoever owns the budget, a request that sets
    [spent] is answered 200 and the row is overwritten. *)
Theorem put_budget_ignores_owner `{JsBuiltins} (now : Z) (newId id : string) (req : Req.t)
    (db : DB) (a : string) (r : Budget.t) (n : Z) :
  Req.userId req = Some a →
  budgets db !! id = Some r →
  Budget.userId r ≠ a →
  field "spent" req = JNum n →
  field "limit" req = JUndefined →
  ∃ h,
    app now newId PUT ["api"; "budgets"; id] = Some h ∧
    h req db = (set_budgets (<[id := spentAndLimit n (Budget.limit r) r]> (budgets db)) db,
                200).
Proof.
  intros Hu Hrow Hown Hspent Hlimit.
  eexists. split; [reflexivity|].
  unfold authMiddleware, served, withId. rewrite Hu.
  unfold dashboardController.updateBudget. munfold.
  cbn [Req.id]. rewrite Hrow.
  unfold field in *. cbn [Req.body]. rewrite Hspent, Hlimit.
  reflexivity.
Qed.

Lemma put_budget_ignores_owner_witness :
  ∃ h,
    app (H := digitsOnly) 0 "new" PUT ["api"; "budgets"; "b1"] = Some h ∧
    h aliceSpent bobDB
      = (set_budgets (<["b1" := spentAndLimit (units 999) (units 300) bobBudget]>
                        (budgets bobDB)) bobDB, 200).
Proof.
  apply (put_budget_ignores_owner (H := digitsOnly) 0 "new" "b1" aliceSpent bobDB "alice"
           bobBudget (units 999)).
  - reflexivity.
  - vm_compute. reflexivity.
  - discriminate.
  - reflexivity.
  - reflexivity.
Defined.

(** ** Updates and the ledger *)

(** Runs a handler forward from the equation [E] of its result: every test
    on the way is decided by cases, and the cases whose response is not the
    one of [E] are dropped. *)
Ltac run_in E := repeat (step_in E; try discriminate E).

Ltac frame_by_cases E :=
  munfold_in E; run_in E; injection E as <- <-; reflexivity.

Section frame.
Context `{JsBuiltins}.

Lemma updateIncome_accounts (req : Req.t) (db : DB) :
  accounts (updateIncome req db).1 = accounts db.
Proof.
  destruct (updateIncome req db) as [db' r] eqn:E. unfold updateIncome in E.
  frame_by_cases E.
Qed.

Lemma updateExpense_accounts (req : Req.t) (db : DB) :
  accounts (updateExpense req db).1 = accounts db.
Proof.
  destruct (updateExpense req db) as [db' r] eqn:E. unfold updateExpense in E.
  frame_by_cases E.
Qed.

Lemma updateInvestment_accounts (req : Req.t) (db : DB) :
  accounts (updateInvestment req db).1 = accounts db.
Proof.
  destruct (updateInvestment req db) as [db' r] eqn:E. unfold updateInvestment in E.
  frame_by_cases E.
Qed.
End frame.

(** ** What an update writes *)

Lemma applied_intro {A : Type} (guard : jsval → bool) (conv : jsval → option A)
    (v : jsval) (old new : A) :
  (if guard v then conv v else Some old) = Some new → applied guard conv v old new.
Proof. unfold applied. destruct (guard v); [done|]. by intros [= ->]. Qed.

(** Splits the data of a write that Prisma accepted into its columns. *)
(** A value that a decimal column took is the value itself, within range. *)
Lemma decimal_Some (n m : Z) : decimal n = Some m → m = n ∧ fitsDecimal n = true.
Proof. unfold decimal. by destruct (fitsDecimal n); intros [= <-]. Qed.

Lemma decimal_fits (n : Z) : fitsDecimal n = true → decimal n = Some n.
Proof. unfold decimal. by intros ->. Qed.

Lemma fitsDecimal_spec (n : Z) :
  fitsDecimal n = true ↔ - maxDecimal ≤ n ≤ maxDecimal.
Proof. unfold fitsDecimal. rewrite andb_true_iff, !Z.leb_le. done. Qed.

Ltac columns H :=
  repeat (apply bind_Some in H as (? & ? & H));
  first [injection H as <- | apply decimal_Some in H as [-> ?]].

Ltac use_tests :=
  repeat match goal with
    | H : ?x = _ |- context [?x] => rewrite H
    end.

Ltac patched :=
  repeat split; try done;
  first [ apply applied_intro; assumption
        | unfold applied; use_tests; first [assumption | reflexivity | by simplify_eq/=] ].

Section patch.
Context `{JsBuiltins}.

Lemma updateIncome_run (req : Req.t) (db db' : DB) (id : string) (r' : Income.t) :
  updateIncome req db = (db', Json 200 (id, r')) →
  ∃ u r,
    Req.userId req = Some u ∧ id = Req.id req ∧
    incomes db !! id = Some r ∧ Income.userId r = u ∧
    db' = set_incomes (<[id := r']> (incomes db)) db ∧
    incomePatched req r r'.
Proof.
  intros E. unfold updateIncome in E. munfold_in E.
  run_in E; injection E as <- <- <-; tests;
  match goal with
  | Hu : Req.userId _ = Some ?u, Hr : incomes _ !! _ = Some ?t, Hd : mbind _ _ = Some _ |- _ =>
      exists u, t; columns Hd
  end;
  unfold incomePatched; patched.
Qed.

Lemma updateExpense_run (req : Req.t) (db db' : DB) (id : string) (r' : Expense.t) :
  updateExpense req db = (db', Json 200 (id, r')) →
  ∃ u r,
    Req.userId req = Some u ∧ id = Req.id req ∧
    expenses db !! id = Some r ∧ Expense.userId r = u ∧
    db' = set_expenses (<[id := r']> (expenses db)) db ∧
    expensePatched req r r'.
Proof.
  intros E. unfold updateExpense in E. munfold_in E.
  run_in E; injection E as <- <- <-; tests;
  match goal with
  | Hu : Req.userId _ = Some ?u, Hr : expenses _ !! _ = Some ?t, Hd : mbind _ _ = Some _ |- _ =>
      exists u, t; columns Hd
  end;
  unfold expensePatched; patched.
Qed.
Lemma updateInvestment_run (req : Req.t) (db db' : DB) (id : string) (r' : Investment.t) :
  updateInvestment req db = (db', Json 200 (id, r')) →
  ∃ u r,
    Req.userId req = Some u ∧ id = Req.id req ∧
    investments db !! id = Some r ∧ Investment.userId r = u ∧
    db' = set_investments (<[id := r']> (investments db)) db ∧
    investmentPatched req r r'.
Proof.
  intros E. unfold updateInvestment in E. munfold_in E.
  run_in E; injection E as <- <- <-; tests;
  match goal with
  | Hu : Req.userId _ = Some ?u, Hr : investments _ !! _ = Some ?t, Hd : mbind _ _ = Some _ |- _ =>
      exists u, t; columns Hd
  end;
  unfold investmentPatched; patched.
Qed.

Lemma updateBudget_run (req : Req.t) (db db' : DB) (id : string) (r' : Budget.t) :
  budgetController.updateBudget req db = (db', Json 200 (id, r')) →
  ∃ u r,
    Req.userId req = Some u ∧ id = Req.id req ∧
    budgets db !! id = Some r ∧ Budget.userId r = u ∧
    db' = set_budgets (<[id := r']> (budgets db)) db ∧
    budgetPatched req r r'.
Proof.
  intros E. unfold budgetController.updateBudget in E. munfold_in E.
  run_in E; injection E as <- <- <-; tests;
  match goal with
  | Hu : Req.userId _ = Some ?u, Hr : budgets _ !! _ = Some ?t, Hd : mbind _ _ = Some _ |- _ =>
      exists u, t; columns Hd
  end;
  unfold budgetPatched; patched.
Qed.

Lemma updateSavingsGoal_run (req : Req.t) (db db' : DB) (id : string) (r' : SavingsGoal.t) :
  updateSavingsGoal req db = (db', Json 200 (id, r')) →
  ∃ u r,
    Req.userId req = Some u ∧ id = Req.id req ∧
    savingsGoals db !! id = Some r ∧ SavingsGoal.userId r = u ∧
    db' = set_savingsGoals (<[id := r']> (savingsGoals db)) db ∧
    savingsGoalPatched req r r'.
Proof.
  intros E. unfold updateSavingsGoal in E. munfold_in E.
  run_in E; injection E as <- <- <-; tests;
  match goal with
  | Hu : Req.userId _ = Some ?u, Hr : savingsGoals _ !! _ = Some ?t, Hd : mbind _ _ = Some _ |- _ =>
      exists u, t; columns Hd
  end;
  unfold savingsGoalPatched; patched.
Qed.

Lemma updateCard_run (req : Req.t) (db db' : DB) (id : string) (r' : Card.t) :
  updateCard req db = (db', Json 200 (id, r')) →
  ∃ u r,
    Req.userId req = Some u ∧ id = Req.id req ∧
    cards db !! id = Some r ∧ Card.userId r = u ∧
    db' = set_cards
            (<[id := r']>
               (if truthy (field "isDefault" req) && negb (Card.isDefault r)
                then unsetDefaults u (cards db) else cards db)) db ∧
    cardPatched req r r'.
Proof.
  intros E. unfold updateCard in E. munfold_in E.
  do 4 (step_in E; try discriminate E). tests.
  match goal with
  | Hu : Req.userId _ = Some ?u, Hr : cards _ !! _ = Some ?t |- _ =>
      exists u, t; rename Hr into Hrow
  end.
  destruct (truthy (field "isDefault" req)) eqn:Hdef; msimpl_in E;
    [destruct (Card.isDefault t) eqn:Hwas; msimpl_in E|].
  - rewrite Hrow in E. run_in E. injection E as <- <- <-.
    match goal with Hd : mbind _ _ = Some _ |- _ => columns Hd end.
    unfold cardPatched; patched.
  - unfold unsetDefaults. rewrite lookup_fmap, Hrow in E. cbn [fmap option_fmap option_map] in E.
    rewrite Hwas in E. destruct (String.eqb (Card.userId t) s); msimpl_in E.
    all: run_in E; injection E as <- <- <-.
    all: match goal with Hd : mbind _ _ = Some _ |- _ => columns Hd end.
    all: unfold cardPatched; patched.
  - rewrite Hrow in E. run_in E. injection E as <- <- <-.
    match goal with Hd : mbind _ _ = Some _ |- _ => columns Hd end.
    unfold cardPatched; patched.
Qed.

(** The budget update of the dashboard controller: no caller, no owner. *)
Lemma dashboard_updateBudget_run (req : Req.t) (db db' : DB) (id : string) (r' : Budget.t) :
  dashboardController.updateBudget req db = (db', Json 200 (id, r')) →
  ∃ r,
    id = Req.id req ∧ budgets db !! id = Some r ∧
    db' = set_budgets (<[id := r']> (budgets db)) db ∧
    r' = spentAndLimit (Budget.spent r') (Budget.limit r') r ∧
    applied defined parseFloat (field "spent" req) (Budget.spent r) (Budget.spent r') ∧
    applied defined parseFloat (field "limit" req) (Budget.limit r) (Budget.limit r').
Proof.
  intros E. unfold dashboardController.updateBudget in E. munfold_in E.
  run_in E; injection E as <- <- <-;
  match goal with
  | Hr : budgets _ !! _ = Some ?t, Hd : mbind _ _ = Some _ |- _ => exists t; columns Hd
  end;
  patched.
Qed.
End patch.

(** C6, as amended. An update that succeeds (200) writes, for each key its
    handler reads, the value sent when that value is truthy (for some keys:
    when it is not undefined), converted to the type of the column, and
    keeps the old value otherwise; the other columns of the row stay as
    they were. A key that is present with a falsy value (an empty string,
    0, null, false) is therefore not applied. A truthy value that is not a
    number is written as [NULL] to an optional decimal column (the limit of
    a card; the quantity, purchase price and current value of an
    investment). All other rows stay as they were, but for the update of a
    card: with a truthy [isDefault], on a card that was not the default
    one, it unsets the default cards of the caller first. *)
Theorem update_applies_truthy_keys `{JsBuiltins} (req : Req.t) (db db' : DB) (id : string) :
  (∀ r', updateIncome req db = (db', Json 200 (id, r')) →
     ∃ r, incomes db !! id = Some r ∧
          db' = set_incomes (<[id := r']> (incomes db)) db ∧ incomePatched req r r') ∧
  (∀ r', updateExpense req db = (db', Json 200 (id, r')) →
     ∃ r, expenses db !! id = Some r ∧
          db' = set_expenses (<[id := r']> (expenses db)) db ∧ expensePatched req r r') ∧
  (∀ r', updateInvestment req db = (db', Json 200 (id, r')) →
     ∃ r, investments db !! id = Some r ∧
          db' = set_investments (<[id := r']> (investments db)) db ∧
          investmentPatched req r r') ∧
  (∀ r', budgetController.updateBudget req db = (db', Json 200 (id, r')) →
     ∃ r, budgets db !! id = Some r ∧
          db' = set_budgets (<[id := r']> (budgets db)) db ∧ budgetPatched req r r') ∧
  (∀ r', updateSavingsGoal req db = (db', Json 200 (id, r')) →
     ∃ r, savingsGoals db !! id = Some r ∧
          db' = set_savingsGoals (<[id := r']> (savingsGoals db)) db ∧
          savingsGoalPatched req r r') ∧
  (∀ r', updateCard req db = (db', Json 200 (id, r')) →
     ∃ u r, Req.userId req = Some u ∧ cards db !! id = Some r ∧
            db' = set_cards
                    (<[id := r']>
                       (if truthy (field "isDefault" req) && negb (Card.isDefault r)
                        then unsetDefaults u (cards db) else cards db)) db ∧
            cardPatched req r r') ∧
  (∀ r', dashboardController.updateBudget req db = (db', Json 200 (id, r')) →
     ∃ r, budgets db !! id = Some r ∧
          db' = set_budgets (<[id := r']> (budgets db)) db ∧
          r' = spentAndLimit (Budget.spent r') (Budget.limit r') r ∧
          applied defined parseFloat (field "spent" req) (Budget.spent r) (Budget.spent r') ∧
          applied defined parseFloat (field "limit" req) (Budget.limit r)
            (Budget.limit r')).
Proof.
  repeat split; intros r' E.
  - apply updateIncome_run in E as (u & r & _ & _ & ? & _ & ? & ?). eauto.
  - apply updateExpense_run in E as (u & r & _ & _ & ? & _ & ? & ?). eauto.
  - apply updateInvestment_run in E as (u & r & _ & _ & ? & _ & ? & ?). eauto.
  - apply updateBudget_run in E as (u & r & _ & _ & ? & _ & ? & ?). eauto.
  - apply updateSavingsGoal_run in E as (u & r & _ & _ & ? & _ & ? & ?). eauto.
  - apply updateCard_run in E as (u & r & ? & _ & ? & _ & ? & ?). eauto 10.
  - apply dashboard_updateBudget_run in E as (r & _ & ? & ? & ? & ? & ?). eauto 10.
Qed.

Lemma update_applies_truthy_keys_witness :
  ∃ r, expenses expenseDB !! "e1" = Some r ∧
       set_expenses {["e1" := Expense.mk "u1" "Lunch" "Groceries" (units 120) 0 None None]}
         emptyDB
       = set_expenses
           (<["e1" := Expense.mk "u1" "Lunch" "Groceries" (units 120) 0 None None]>
              (expenses expenseDB)) expenseDB ∧
       expensePatched (H := digitsOnly) newTitle r
         (Expense.mk "u1" "Lunch" "Groceries" (units 120) 0 None None).
Proof.
  apply (proj1 (proj2 (update_applies_truthy_keys (H := digitsOnly) newTitle expenseDB
                         (set_expenses
                            {["e1" := Expense.mk "u1" "Lunch" "Groceries" (units 120) 0
                                        None None]} emptyDB) "e1"))).
  vm_compute. reflexivity.
Defined.

(** The patch [{ title: "" }] is answered 200 and leaves the title. *)
Lemma present_key_not_applied : ¬ @presentKeysApplied digitsOnly.
Proof.
  intros Hclaim.
  specialize (Hclaim emptyTitle expenseDB expenseDB "e1" foodExpense "").
  discriminate Hclaim; vm_compute; reflexivity.
Qed.

(** ** Sums over the rows of a table *)

Section sums.
Context {A : Type} (f : A → Z).

Lemma foldl_sum (l : list (string * A)) (a : Z) :
  foldl (λ s r, s + f r.2) a l = a + sumOf f l.
Proof.
  unfold sumOf. revert a. induction l as [|x l IH] using rev_ind; intros a.
  - simpl. lia.
  - rewrite !foldl_app. simpl. rewrite IH. lia.
Qed.

Lemma sumOf_nil : sumOf f [] = 0.
Proof. reflexivity. Qed.

Lemma sumOf_cons (x : string * A) (l : list (string * A)) :
  sumOf f (x :: l) = f x.2 + sumOf f l.
Proof. unfold sumOf at 1. simpl. rewrite foldl_sum. lia. Qed.

Lemma sumOf_Permutation (l k : list (string * A)) : l ≡ₚ k → sumOf f l = sumOf f k.
Proof.
  induction 1 as [|x l k _ IH|x y l|l k m _ IH1 _ IH2].
  - reflexivity.
  - rewrite !sumOf_cons, IH. reflexivity.
  - rewrite !sumOf_cons. lia.
  - congruence.
Qed.

(** The sum over the rows that match, once the row [id] is replaced by a
    row that matches like the old one: the difference of the two rows when
    they match. *)
Lemma sumOf_insert (P : A → bool) (R : relation A) `{!RelDecision R}
    (m : gmap string A) (id : string) (r r' : A) :
  m !! id = Some r → P r' = P r →
  sumOf f (merge_sort (onRow R)
             (filter (λ x, P x.2 = true) (map_to_list (<[id := r']> m))))
  = sumOf f (merge_sort (onRow R) (filter (λ x, P x.2 = true) (map_to_list m)))
    + (if P r then f r' - f r else 0).
Proof.
  intros Hrow HP.
  rewrite !(sumOf_Permutation _ _ (merge_sort_Permutation _ _)).
  rewrite <- (insert_delete_eq m).
  rewrite (sumOf_Permutation _ _
             (filter_Permutation _ _ _
                (map_to_list_insert (delete id m) id r' (lookup_delete_eq m id)))).
  rewrite <- (sumOf_Permutation _ _
                (filter_Permutation _ _ _ (map_to_list_delete m id r Hrow))).
  rewrite !filter_cons. cbn [snd]. rewrite HP.
  destruct (P r); repeat case_decide; try done; rewrite ?sumOf_cons; cbn [snd]; lia.
Qed.
End sums.

(** C9. No update of an income, an expense or an investment writes the
    ledger: the account table after the call is the account table before
    it, whatever the request. An update that changes the amount of an income
    or of an expense therefore moves the sum over the rows by the change of
    the amount while the ledger totals stay: the ledger drifts from its
    rows. (The update of an investment does not read [amount].) *)
Theorem update_never_touches_ledger `{JsBuiltins} (now : Z) (req : Req.t) (db : DB) :
  accounts (updateIncome req db).1 = accounts db ∧
  accounts (updateExpense req db).1 = accounts db ∧
  accounts (updateInvestment req db).1 = accounts db ∧
  (∀ db' id r', updateIncome req db = (db', Json 200 (id, r')) →
     ∃ u r, Req.userId req = Some u ∧ incomes db !! id = Some r ∧
       Dashboard.totalIncome (dashboardOf now u db')
         = Dashboard.totalIncome (dashboardOf now u db) ∧
       Dashboard.totalBalance (dashboardOf now u db')
         = Dashboard.totalBalance (dashboardOf now u db) ∧
       Dashboard.totalIncomeSum (dashboardOf now u db')
         = Dashboard.totalIncomeSum (dashboardOf now u db)
           + (Income.amount r' - Income.amount r)) ∧
  (∀ db' id r', updateExpense req db = (db', Json 200 (id, r')) →
     ∃ u r, Req.userId req = Some u ∧ expenses db !! id = Some r ∧
       Dashboard.totalExpense (dashboardOf now u db')
         = Dashboard.totalExpense (dashboardOf now u db) ∧
       Dashboard.totalBalance (dashboardOf now u db')
         = Dashboard.totalBalance (dashboardOf now u db) ∧
       Dashboard.totalExpenseSum (dashboardOf now u db')
         = Dashboard.totalExpenseSum (dashboardOf now u db)
           + (Expense.amount r' - Expense.amount r)) ∧
  (∀ db' id r', updateInvestment req db = (db', Json 200 (id, r')) →
     ∃ r, investments db !! id = Some r ∧ Investment.amount r' = Investment.amount r).
Proof.
  split; [apply updateIncome_accounts|].
  split; [apply updateExpense_accounts|].
  split; [apply updateInvestment_accounts|].
  split; [|split].
  - intros db' id r' E.
    apply updateIncome_run in E as (u & r & Hu & _ & Hrow & Hown & -> & Hsame & _).
    exists u, r. repeat split; try done.
    cbn [Dashboard.totalIncomeSum dashboardOf]. unfold incomesOf. cbn [incomes set_incomes].
    pose proof (sumOf_insert Income.amount (λ r, String.eqb (Income.userId r) u)
                  (desc Income.date) (incomes db) id r r' Hrow) as Hsum.
    cbv beta in Hsum. rewrite Hsame, Hown, String.eqb_refl in Hsum. exact (Hsum eq_refl).
  - intros db' id r' E.
    apply updateExpense_run in E as (u & r & Hu & _ & Hrow & Hown & -> & Hsame & _).
    exists u, r. repeat split; try done.
    cbn [Dashboard.totalExpenseSum dashboardOf]. unfold expensesOf.
    cbn [expenses set_expenses].
    pose proof (sumOf_insert Expense.amount (λ r, String.eqb (Expense.userId r) u)
                  (desc Expense.date) (expenses db) id r r' Hrow) as Hsum.
    cbv beta in Hsum. rewrite Hsame, Hown, String.eqb_refl in Hsum. exact (Hsum eq_refl).
  - intros db' id r' E.
    apply updateInvestment_run in E as (u & r & _ & _ & Hrow & _ & _ & _ & Hamount & _).
    exists r. done.
Qed.

Lemma update_never_touches_ledger_witness :
  ∃ u r, Req.userId raise700 = Some u ∧ incomes salaryDB !! "i1" = Some r ∧
    Dashboard.totalIncome (dashboardOf 0 u (set_incomes {["i1" := salary700]} salaryDB))
      = Dashboard.totalIncome (dashboardOf 0 u salaryDB) ∧
    Dashboard.totalBalance (dashboardOf 0 u (set_incomes {["i1" := salary700]} salaryDB))
      = Dashboard.totalBalance (dashboardOf 0 u salaryDB) ∧
    Dashboard.totalIncomeSum (dashboardOf 0 u (set_incomes {["i1" := salary700]} salaryDB))
      = Dashboard.totalIncomeSum (dashboardOf 0 u salaryDB)
        + (Income.amount salary700 - Income.amount r).
Proof.
  apply (proj1 (proj2 (proj2 (proj2
           (update_never_touches_ledger (H := digitsOnly) 0 raise700 salaryDB))))
           (set_incomes {["i1" := salary700]} salaryDB) "i1" salary700).
  vm_compute. reflexivity.
Defined.

(** After the patch the ledger says 500.00 and the rows sum to 700.00. *)
Example ledger_drifts_after_update :
  let db' := (updateIncome (H := digitsOnly) raise700 salaryDB).1 in
  Dashboard.totalIncome (dashboardOf 0 "u1" db') = units 500 ∧
  Dashboard.totalIncomeSum (dashboardOf 0 "u1" db') = units 700.
Proof. vm_compute. done. Qed.

(** ** The ledger on create and delete *)

(** The amount of a row that was written: it parsed and fits its column. *)
Ltac amount_column :=
  repeat match goal with
    | Hb : mbind decimal _ = Some _ |- _ => apply bind_Some in Hb as (? & ? & Hb)
    | Hb : decimal _ = Some _ |- _ => apply decimal_Some in Hb as [-> ?]
    end;
  match goal with
  | Hp : parseFloat _ = Some _ |- _ => rewrite Hp in *
  end.

Ltac created totals :=
  match goal with
  | Hu : Req.userId _ = Some ?u, Ht : totals _ _ = Some ?acc, Hd : mbind _ _ = Some _
    |- _ => exists u, acc; columns Hd
  end;
  amount_column;
  unfold ledgerRow, le0 in *; tests.

Section ledger.
Context `{JsBuiltins}.

(** An income that was created: its row is new, the ledger row is the old
    one (a row of zeros, made on the way, when there was none) with the
    amount added to [totalIncome] and [totalBalance]. *)
Lemma createIncome_run (now : Z) (newId : string) (req : Req.t) (db db' : DB)
    (id : string) (i : Income.t) :
  createIncome now newId req db = (db', Json 201 (id, i)) →
  ∃ u acc',
    Req.userId req = Some u ∧ u ≠ "" ∧ id = newId ∧ incomes db !! newId = None ∧
    Income.userId i = u ∧ 0 < Income.amount i ∧
    incomeTotals (Some (Income.amount i)) (ledgerRow u db) = Some acc' ∧
    db' = set_accounts (<[u := acc']> (accounts db))
            (set_incomes (<[newId := i]> (incomes db)) db).
Proof.
  intros E. unfold createIncome in E. munfold_in E.
  run_in E; injection E as <- <- <-; created incomeTotals;
    cbn [Income.userId Income.amount].
  - match goal with Ha : accounts _ !! _ = Some _ |- _ => rewrite Ha end.
    repeat split; done.
  - match goal with Ha : accounts _ !! _ = None |- _ => rewrite Ha end.
    match goal with Ha : <[_ := _]> _ !! _ = Some _ |- _ =>
      rewrite lookup_insert_eq in Ha; injection Ha as <- end.
    repeat split; try done.
    rewrite insert_insert_eq. reflexivity.
Qed.

Lemma createInvestment_run (now : Z) (newId : string) (req : Req.t) (db db' : DB)
    (id : string) (i : Investment.t) :
  createInvestment now newId req db = (db', Json 201 (id, i)) →
  ∃ u acc',
    Req.userId req = Some u ∧ u ≠ "" ∧ id = newId ∧ investments db !! newId = None ∧
    Investment.userId i = u ∧ 0 < Investment.amount i ∧
    investmentTotals (Some (Investment.amount i)) (ledgerRow u db) = Some acc' ∧
    db' = set_accounts (<[u := acc']> (accounts db))
            (set_investments (<[newId := i]> (investments db)) db).
Proof.
  intros E. unfold createInvestment in E. munfold_in E.
  run_in E; injection E as <- <- <-; created investmentTotals;
    cbn [Investment.userId Investment.amount].
  - match goal with Ha : accounts _ !! _ = Some _ |- _ => rewrite Ha end.
    repeat split; done.
  - match goal with Ha : accounts _ !! _ = None |- _ => rewrite Ha end.
    match goal with Ha : <[_ := _]> _ !! _ = Some _ |- _ =>
      rewrite lookup_insert_eq in Ha; injection Ha as <- end.
    repeat split; try done.
    rewrite insert_insert_eq. reflexivity.
Qed.

(** An expense that was created: its row is new; the ledger row, when
    there is one, has the amount added to [totalExpense] and taken from
    [totalBalance]; when there is none the account table is left alone. *)
Lemma createExpense_run (now : Z) (newId : string) (req : Req.t) (db db' : DB)
    (id : string) (e : Expense.t) :
  createExpense now newId req db = (db', Json 201 (id, e)) →
  ∃ u,
    Req.userId req = Some u ∧ u ≠ "" ∧ id = newId ∧ expenses db !! newId = None ∧
    Expense.userId e = u ∧ 0 < Expense.amount e ∧
    match accounts db !! u with
    | Some acc =>
        ∃ acc', expenseTotals (Some (Expense.amount e)) acc = Some acc' ∧
                db' = set_accounts (<[u := acc']> (accounts db))
                        (set_expenses (<[newId := e]> (expenses db)) db)
    | None => db' = set_expenses (<[newId := e]> (expenses db)) db
    end.
Proof.
  intros E. unfold createExpense in E. munfold_in E.
  run_in E; injection E as <- <- <-;
  match goal with
  | Hu : Req.userId _ = Some ?u, Hd : mbind _ _ = Some _ |- _ => exists u; columns Hd
  end;
  amount_column;
  unfold le0 in *; tests; cbn [Expense.userId Expense.amount];
  match goal with Ha : accounts _ !! _ = _ |- _ => rewrite Ha end;
  repeat split; try done.
  eexists. split; [eassumption|]. by destruct db.
Qed.

(** Deleting a row of the caller takes its amount back out of the ledger
    row, when there is one and the totals stay in range, and removes the
    row. *)
Lemma deleteIncome_run (req : Req.t) (db : DB) (u : string) (i : Income.t) :
  Req.userId req = Some u → u ≠ "" →
  incomes db !! Req.id req = Some i → Income.userId i = u →
  (∀ acc, accounts db !! u = Some acc →
     is_Some (incomeTotals (Some (- Income.amount i)) acc)) →
  deleteIncome req db =
    (set_incomes (delete (Req.id req) (incomes db))
       (set_accounts
          (match accounts db !! u with
           | Some acc =>
               <[u := default acc (incomeTotals (Some (- Income.amount i)) acc)]>
                 (accounts db)
           | None => accounts db
           end) db),
     Json 200 "Income deleted").
Proof.
  intros Hu Hne Hrow Hown Hfits. apply String.eqb_neq in Hne.
  assert (Hmine : String.eqb (Income.userId i) u = true) by (by apply String.eqb_eq).
  unfold deleteIncome. munfold. rewrite Hu, Hne. msimpl. rewrite Hrow, Hmine. msimpl.
  destruct (accounts db !! u) as [acc|] eqn:Hacc; msimpl.
  - destruct (Hfits acc eq_refl) as [acc' Hacc'].
    rewrite Hacc, Hacc'. cbn. rewrite Hrow. reflexivity.
  - rewrite Hrow. reflexivity.
Qed.

Lemma deleteExpense_run (req : Req.t) (db : DB) (u : string) (e : Expense.t) :
  Req.userId req = Some u → u ≠ "" →
  expenses db !! Req.id req = Some e → Expense.userId e = u →
  (∀ acc, accounts db !! u = Some acc →
     is_Some (expenseTotals (Some (- Expense.amount e)) acc)) →
  deleteExpense req db =
    (set_expenses (delete (Req.id req) (expenses db))
       (set_accounts
          (match accounts db !! u with
           | Some acc =>
               <[u := default acc (expenseTotals (Some (- Expense.amount e)) acc)]>
                 (accounts db)
           | None => accounts db
           end) db),
     Json 200 "Expense deleted").
Proof.
  intros Hu Hne Hrow Hown Hfits. apply String.eqb_neq in Hne.
  assert (Hmine : String.eqb (Expense.userId e) u = true) by (by apply String.eqb_eq).
  unfold deleteExpense. munfold. rewrite Hu, Hne. msimpl. rewrite Hrow, Hmine. msimpl.
  destruct (accounts db !! u) as [acc|] eqn:Hacc; msimpl.
  - destruct (Hfits acc eq_refl) as [acc' Hacc'].
    rewrite Hacc, Hacc'. cbn. rewrite Hrow. reflexivity.
  - rewrite Hrow. reflexivity.
Qed.

Lemma deleteInvestment_run (req : Req.t) (db : DB) (u : string) (i : Investment.t) :
  Req.userId req = Some u → u ≠ "" →
  investments db !! Req.id req = Some i → Investment.userId i = u →
  (∀ acc, accounts db !! u = Some acc →
     is_Some (investmentTotals (Some (- Investment.amount i)) acc)) →
  deleteInvestment req db =
    (set_investments (delete (Req.id req) (investments db))
       (set_accounts
          (match accounts db !! u with
           | Some acc =>
               <[u := default acc (investmentTotals (Some (- Investment.amount i)) acc)]>
                 (accounts db)
           | None => accounts db
           end) db),
     Json 200 "Investment deleted").
Proof.
  intros Hu Hne Hrow Hown Hfits. apply String.eqb_neq in Hne.
  assert (Hmine : String.eqb (Investment.userId i) u = true) by (by apply String.eqb_eq).
  unfold deleteInvestment. munfold. rewrite Hu, Hne. msimpl. rewrite Hrow, Hmine. msimpl.
  destruct (accounts db !! u) as [acc|] eqn:Hacc; msimpl.
  - destruct (Hfits acc eq_refl) as [acc' Hacc'].
    rewrite Hacc, Hacc'. cbn. rewrite Hrow. reflexivity.
  - rewrite Hrow. reflexivity.
Qed.
End ledger.

Lemma ledgerRow_insert (u : string) (acc : Account.t) (m : gmap string Account.t)
    (db : DB) :
  ledgerRow u (set_accounts (<[u := acc]> m) db) = acc.
Proof. unfold ledgerRow. cbn [accounts set_accounts]. by rewrite lookup_insert_eq. Qed.

(** What the three ledger changes make of a row, and that the opposite
    change takes a row back when its totals were values of their columns. *)
Lemma incomeTotals_Some (d : Z) (a a' : Account.t) :
  incomeTotals (Some d) a = Some a' →
  a' = Account.mk (Account.totalBalance a + d) (Account.totalIncome a + d)
         (Account.totalExpense a) (Account.totalSavings a) (Account.totalInvested a).
Proof.
  unfold incomeTotals. cbn. intros E.
  apply bind_Some in E as (b & Hb%decimal_Some & E).
  apply bind_Some in E as (i & Hi%decimal_Some & E).
  destruct Hb as [-> _], Hi as [-> _]. by injection E as <-.
Qed.

Lemma expenseTotals_Some (d : Z) (a a' : Account.t) :
  expenseTotals (Some d) a = Some a' →
  a' = Account.mk (Account.totalBalance a - d) (Account.totalIncome a)
         (Account.totalExpense a + d) (Account.totalSavings a) (Account.totalInvested a).
Proof.
  unfold expenseTotals. cbn. intros E.
  apply bind_Some in E as (b & Hb%decimal_Some & E).
  apply bind_Some in E as (i & Hi%decimal_Some & E).
  destruct Hb as [-> _], Hi as [-> _]. by injection E as <-.
Qed.

Lemma investmentTotals_Some (d : Z) (a a' : Account.t) :
  investmentTotals (Some d) a = Some a' →
  a' = Account.mk (Account.totalBalance a - d) (Account.totalIncome a)
         (Account.totalExpense a) (Account.totalSavings a) (Account.totalInvested a + d).
Proof.
  unfold investmentTotals. cbn. intros E.
  apply bind_Some in E as (b & Hb%decimal_Some & E).
  apply bind_Some in E as (i & Hi%decimal_Some & E).
  destruct Hb as [-> _], Hi as [-> _]. by injection E as <-.
Qed.

Ltac undone :=
  unfold accountFits; intros Hfits E;
  repeat match goal with
    | Hf : (_ && _) = true |- _ => apply andb_true_iff in Hf as [Hf ?]
    end;
  match goal with
  | |- ?totals _ ?a' = Some ?a =>
      first [ apply incomeTotals_Some in E | apply expenseTotals_Some in E
            | apply investmentTotals_Some in E ];
      subst a'; destruct a; unfold totals; cbn in *
  end;
  repeat match goal with
    | |- context [decimal ?x] =>
        lazymatch x with
        | _ + _ => idtac
        | _ - _ => idtac
        end;
        ring_simplify x
    end;
  repeat (rewrite decimal_fits by assumption; cbn);
  reflexivity.

Lemma incomeTotals_undo (d : Z) (a a' : Account.t) :
  accountFits a = true → incomeTotals (Some d) a = Some a' →
  incomeTotals (Some (- d)) a' = Some a.
Proof. undone. Qed.

Lemma expenseTotals_undo (d : Z) (a a' : Account.t) :
  accountFits a = true → expenseTotals (Some d) a = Some a' →
  expenseTotals (Some (- d)) a' = Some a.
Proof. undone. Qed.

Lemma investmentTotals_undo (d : Z) (a a' : Account.t) :
  accountFits a = true → investmentTotals (Some d) a = Some a' →
  investmentTotals (Some (- d)) a' = Some a.
Proof. undone. Qed.




(** An income of 500.00 for a ledger that is full: the row is written, the
    update of the ledger is rejected and the answer is 500. The row stays
    and the ledger is as it was. *)
Example income_beyond_the_ledger :
  createIncome (H := digitsOnly) 0 "i1" income500 fullLedger
  = (set_incomes {["i1" := salary]} fullLedger, JsonError 500 "Failed to create income").
Proof. vm_compute. reflexivity. Qed.

(** ** The default card *)

(** After [updateMany] no card of the user is a default card. *)
Lemma unsetDefaults_lookup (u id : string) (m : gmap string Card.t) (c : Card.t) :
  unsetDefaults u m !! id = Some c → Card.userId c = u → Card.isDefault c = false.
Proof.
  unfold unsetDefaults. rewrite lookup_fmap. intros Hc Hu.
  destruct (m !! id) as [c0|]; [|done]. injection Hc as <-.
  destruct (String.eqb (Card.userId c0) u) eqn:Hown; cbn [andb] in *.
  - destruct (Card.isDefault c0) eqn:Hdef; [reflexivity|done].
  - apply String.eqb_neq in Hown. destruct (Card.isDefault c0); cbn in Hu; done.
Qed.

Lemma only_default_after_unset (u id : string) (m : gmap string Card.t) (c : Card.t)
    (db : DB) :
  Card.userId c = u → Card.isDefault c = true →
  exactlyOneDefault u (set_cards (<[id := c]> (unsetDefaults u m)) db).
Proof.
  intros Hu Hdef. exists id. split.
  - exists c. cbn [cards set_cards]. by rewrite lookup_insert_eq.
  - intros id' (c' & Hc' & Hu' & Hdef'). cbn [cards set_cards] in Hc'.
    destruct (decide (id' = id)) as [->|Hne]; [done|].
    rewrite lookup_insert_ne in Hc' by done.
    pose proof (unsetDefaults_lookup u id' m c' Hc' Hu'). congruence.
Qed.

Section cards.
Context `{JsBuiltins}.

(** A card created with [isDefault: true]: the defaults of the user are
    unset, then the card is inserted as a default card of the user. *)
Lemma createCard_run (now : Z) (newId : string) (req : Req.t) (db db' : DB)
    (id : string) (c : Card.t) :
  field "isDefault" req = JBool true →
  createCard now newId req db = (db', Json 201 (id, c)) →
  ∃ u,
    Req.userId req = Some u ∧ id = newId ∧
    Card.userId c = u ∧ Card.isDefault c = true ∧
    db' = set_cards (<[newId := c]> (unsetDefaults u (cards db))) db.
Proof.
  intros Hdef E. unfold createCard in E. munfold_in E.
  rewrite Hdef in E. cbn [truthy nullish] in E.
  run_in E; injection E as <- <- <-;
  match goal with
  | Hu : Req.userId _ = Some ?u, Hd : mbind _ _ = Some _ |- _ => exists u; columns Hd
  end;
  match goal with
  | Hb : asBool (JBool true) = Some _ |- _ => injection Hb as <-
  end;
  repeat split; done.
Qed.
End cards.

Lemma length_one_of_unique {A : Type} (l : list A) (x : A) :
  NoDup l → x ∈ l → (∀ y, y ∈ l → y = x) → length l = 1%nat.
Proof.
  intros Hnd Hx Hall. destruct l as [|a [|b l]].
  - by apply elem_of_nil in Hx.
  - reflexivity.
  - exfalso. apply NoDup_cons in Hnd as [Hnotin _].
    assert (Ha : a = x) by (apply Hall; left).
    assert (Hb : b = x) by (apply Hall; right; left).
    apply Hnotin. rewrite Ha, <- Hb. left.
Qed.

Lemma elem_of_defaultCards (u id : string) (c : Card.t) (db : DB) :
  (id, c) ∈ defaultCards u db ↔
  cards db !! id = Some c ∧ Card.userId c = u ∧ Card.isDefault c = true.
Proof.
  unfold defaultCards. rewrite list_elem_of_filter, elem_of_map_to_list. cbn [snd].
  rewrite andb_true_iff, String.eqb_eq. tauto.
Qed.

(** Exactly one default card is one card in the list of default cards. *)
Lemma exactlyOneDefault_count (u : string) (db : DB) :
  exactlyOneDefault u db → length (defaultCards u db) = 1%nat.
Proof.
  intros (id & (c & Hc & Hu & Hdef) & Hall).
  apply (length_one_of_unique _ (id, c)).
  - apply NoDup_filter, NoDup_map_to_list.
  - by apply elem_of_defaultCards.
  - intros [id' c'] Hin. apply elem_of_defaultCards in Hin as (Hc' & Hu' & Hdef').
    assert (id' = id) as -> by (apply Hall; by exists c').
    congruence.
Qed.

(** After [updateMany] the user has no default card. *)
Lemma no_default_after_unset (u id : string) (m : gmap string Card.t) (db : DB) :
  ¬ isDefaultOf u id (set_cards (unsetDefaults u m) db).
Proof.
  intros (c & Hc & Hu & Hdef). cbn [cards set_cards] in Hc.
  pose proof (unsetDefaults_lookup u id m c Hc Hu). congruence.
Qed.

Section cardCalls.
Context `{JsBuiltins}.

Lemma createCard_rejected (now : Z) (newId : string) (req : Req.t) (db db' : DB)
    (e : string) :
  field "isDefault" req = JBool true →
  createCard now newId req db = (db', JsonError 500 e) →
  ∃ u, Req.userId req = Some u ∧ db' = set_cards (unsetDefaults u (cards db)) db.
Proof.
  intros Hdef E. unfold createCard in E. munfold_in E.
  rewrite Hdef in E. cbn [truthy nullish] in E.
  run_in E; injection E as <- <-; eexists; split; reflexivity.
Qed.

Lemma updateCard_rejected (req : Req.t) (db db' : DB) (e : string) :
  field "isDefault" req = JBool true →
  updateCard req db = (db', JsonError 500 e) →
  ∃ u r,
    Req.userId req = Some u ∧ cards db !! Req.id req = Some r ∧ Card.userId r = u ∧
    db' = set_cards (if Card.isDefault r then cards db else unsetDefaults u (cards db)) db.
Proof.
  intros Hdef E. unfold updateCard in E. munfold_in E.
  rewrite Hdef in E. cbn [truthy andb] in E.
  do 4 (step_in E; try discriminate E). tests.
  match goal with
  | Hu : Req.userId _ = Some ?u, Hr : cards _ !! _ = Some ?t |- _ =>
      exists u, t; rename Hr into Hrow
  end.
  destruct (Card.isDefault t) eqn:Hwas; msimpl_in E.
  - rewrite Hrow in E. run_in E; injection E as <- <-. by destruct db.
  - rewrite lookup_fmap, Hrow in E. cbn [fmap option_fmap option_map] in E.
    rewrite Hwas in E. destruct (String.eqb (Card.userId t) s); msimpl_in E.
    all: run_in E; injection E as <- <-; done.
Qed.

Lemma createCard_plain (now : Z) (newId : string) (req : Req.t) (db : DB)
    (u type name : string) :
  Req.userId req = Some u → u ≠ "" →
  field "isDefault" req = JBool true →
  field "type" req = JStr type → type ≠ "" →
  truthy (field "last4" req) = true →
  field "cardholderName" req = JStr name → name ≠ "" →
  field "issuer" req = JUndefined → field "limit" req = JUndefined →
  field "expiryMonth" req = JUndefined → field "expiryYear" req = JUndefined →
  field "expiryDate" req = JUndefined →
  cards db !! newId = None →
  let c := Card.mk u name type (sliceLast4 (toString (field "last4" req))) (Some "Unknown")
             None None None true now in
  createCard now newId req db
    = (set_cards (<[newId := c]> (unsetDefaults u (cards db))) db, Json 201 (newId, c)).
Proof.
  intros Hu Hne Hdef Htype Htyped Hlast Hname Hnamed Hissuer Hlimit Hm Hy Hd Hnew c.
  apply String.eqb_neq in Hne. apply String.eqb_neq in Htyped.
  apply String.eqb_neq in Hnamed.
  unfold createCard. munfold.
  rewrite Hu, Hne, Htype, Hname, Hissuer, Hlimit, Hm, Hy, Hd, Hdef. cbn [truthy toString].
  rewrite Htyped. cbn [negb toString finalExpiry truthy]. rewrite Htyped, Hlast, Hnamed.
  msimpl. cbn. unfold unsetDefaults at 1. rewrite lookup_fmap, Hnew. cbn. reflexivity.
Qed.

Lemma updateCard_plain (req : Req.t) (db : DB) (u : string) (r : Card.t) :
  Req.userId req = Some u → u ≠ "" →
  field "isDefault" req = JBool true →
  cards db !! Req.id req = Some r → Card.userId r = u →
  field "cardholderName" req = JUndefined → field "limit" req = JUndefined →
  updateCard req db
    = (set_cards (<[Req.id req := setDefault r]>
                    (if Card.isDefault r then cards db else unsetDefaults u (cards db))) db,
       Json 200 (Req.id req, setDefault r)).
Proof.
  intros Hu Hne Hdef Hrow Hown Hname Hlimit.
  apply String.eqb_neq in Hne.
  assert (Hmine : String.eqb (Card.userId r) u = true) by (by apply String.eqb_eq).
  unfold updateCard. munfold.
  rewrite Hu, Hne, Hdef, Hname, Hlimit. msimpl. rewrite Hrow, Hmine. msimpl.
  cbn [truthy andb]. destruct (Card.isDefault r) eqn:Hwas; msimpl.
  - rewrite Hrow. cbn. unfold setDefault. by destruct r; simplify_eq/=.
  - rewrite lookup_fmap, Hrow. cbn [fmap option_fmap option_map].
    rewrite Hwas, Hmine. cbn.
    unfold setDefault. by destruct r; simplify_eq/=.
Qed.
End cardCalls.

(** C4, as amended. For a card created or updated with [isDefault: true]
    by a user who had at most one default card: when the call is answered
    201 or 200, the user has exactly one default card after it, the card of
    the call, and the defaults the user had before are unset first. A
    creation with a type, a number and a holder's name and no other key,
    under a new id, is answered 201, and so is, with 200, an update of a
    card of the user with no other key. When the row is rejected after the
    defaults were unset, the answer is 500 and the write stays: after a
    creation the user has no default card, after an update none but the
    card of the call if it was the default one. *)
Theorem single_default_card `{JsBuiltins} (now : Z) (newId : string) (req : Req.t)
    (db : DB) (u : string) :
  Req.userId req = Some u →
  field "isDefault" req = JBool true →
  atMostOneDefault u db →
  (∀ db' id c,
     createCard now newId req db = (db', Json 201 (id, c))
     ∨ updateCard req db = (db', Json 200 (id, c)) →
     exactlyOneDefault u db' ∧
     length (defaultCards u db') = 1%nat ∧
     cards db' !! id = Some c ∧ Card.userId c = u ∧ Card.isDefault c = true) ∧
  (∀ type name,
     u ≠ "" → field "type" req = JStr type → type ≠ "" →
     truthy (field "last4" req) = true →
     field "cardholderName" req = JStr name → name ≠ "" →
     field "issuer" req = JUndefined → field "limit" req = JUndefined →
     field "expiryMonth" req = JUndefined → field "expiryYear" req = JUndefined →
     field "expiryDate" req = JUndefined →
     cards db !! newId = None →
     ∃ db',
       createCard now newId req db
         = (db', Json 201 (newId, Card.mk u name type
                                    (sliceLast4 (toString (field "last4" req)))
                                    (Some "Unknown") None None None true now))) ∧
  (∀ r,
     u ≠ "" → cards db !! Req.id req = Some r → Card.userId r = u →
     field "cardholderName" req = JUndefined → field "limit" req = JUndefined →
     ∃ db', updateCard req db = (db', Json 200 (Req.id req, setDefault r))) ∧
  (∀ db' e,
     createCard now newId req db = (db', JsonError 500 e) →
     db' = set_cards (unsetDefaults u (cards db)) db ∧ ∀ id, ¬ isDefaultOf u id db') ∧
  (∀ db' e,
     updateCard req db = (db', JsonError 500 e) →
     ∃ r, cards db !! Req.id req = Some r ∧ Card.userId r = u ∧
          db' = set_cards (if Card.isDefault r then cards db
                           else unsetDefaults u (cards db)) db).
Proof.
  intros Hu Hdef Hinv. split; [|split; [|split; [|split]]].
  - intros db' id c Hcall.
    assert (exactlyOneDefault u db' ∧
            cards db' !! id = Some c ∧ Card.userId c = u ∧ Card.isDefault c = true)
      as (Hone & ? & ? & ?); [|by auto using exactlyOneDefault_count].
    destruct Hcall as [E | E].
    + apply createCard_run in E as (u0 & Hu0 & -> & Hown & Hc & ->); [|done].
      assert (u0 = u) as -> by congruence.
      split; [by apply only_default_after_unset|].
      cbn [cards set_cards]. by rewrite lookup_insert_eq.
    + apply updateCard_run in E as (u0 & r & Hu0 & -> & Hrow & Hown & -> & Hpatched).
      assert (u0 = u) as -> by congruence.
      destruct Hpatched as (Hsame & _ & _ & _ & _ & _ & _ & _ & _ & Hset).
      unfold applied in Hset. rewrite Hdef in Hset. cbn in Hset. injection Hset as Hc.
      assert (Card.userId c = u) as Hmine by congruence.
      split; [|cbn [cards set_cards]; by rewrite lookup_insert_eq].
      rewrite Hdef. cbn [truthy andb].
      destruct (Card.isDefault r) eqn:Hwas; cbn [negb].
      * exists (Req.id req). split.
        -- exists c. cbn [cards set_cards]. by rewrite lookup_insert_eq.
        -- intros id' (c' & Hc' & Hu' & Hdef'). cbn [cards set_cards] in Hc'.
           destruct (decide (id' = Req.id req)) as [->|Hne]; [done|].
           rewrite lookup_insert_ne in Hc' by done.
           apply (Hinv id' (Req.id req)); [by exists c'|by exists r].
      * by apply only_default_after_unset.
  - intros type name Hne Htype Htyped Hlast Hname Hnamed Hissuer Hlimit Hm Hy Hd Hnew.
    eexists. by apply createCard_plain.
  - intros r Hne Hrow Hown Hname Hlimit. eexists. by apply updateCard_plain.
  - intros db' e E. apply createCard_rejected in E as (u0 & Hu0 & ->); [|done].
    assert (u0 = u) as -> by congruence.
    split; [done|]. intros id. apply no_default_after_unset.
  - intros db' e E. apply updateCard_rejected in E as (u0 & r & Hu0 & ? & ? & ->); [|done].
    assert (u0 = u) as -> by congruence. by exists r.
Qed.

Lemma cardsDB_atMostOneDefault : atMostOneDefault "u1" cardsDB.
Proof.
  assert (Hc1 : ∀ id, isDefaultOf "u1" id cardsDB → id = "c1").
  { intros id (c & Hc & _ & Hdef). cbn [cards cardsDB set_cards] in Hc.
    destruct (decide (id = "c1")) as [->|Hne1]; [done|].
    rewrite lookup_insert_ne in Hc by done.
    destruct (decide (id = "c2")) as [->|Hne2].
    - rewrite lookup_singleton_eq in Hc. injection Hc as <-. discriminate Hdef.
    - rewrite lookup_singleton_ne in Hc by done. discriminate Hc. }
  intros id1 id2 H1 H2. rewrite (Hc1 id1 H1), (Hc1 id2 H2). reflexivity.
Qed.

Lemma single_default_card_witness :
  exactlyOneDefault "u1" cardsDB_after ∧
  length (defaultCards "u1" cardsDB_after) = 1%nat ∧
  cards cardsDB_after !! "c2" = Some amexDefault ∧
  Card.userId amexDefault = "u1" ∧ Card.isDefault amexDefault = true.
Proof.
  apply (proj1 (single_default_card (H := digitsOnly) 0 "new" makeDefault cardsDB "u1"
                  eq_refl eq_refl cardsDB_atMostOneDefault) cardsDB_after "c2" amexDefault).
  right. vm_compute. reflexivity.
Defined.

(** A card is created with [isDefault: true] and the month of its expiry as
    a text: the default card of the user is unset, the new card is rejected
    and the answer is 500. The user, who had one default card, has none. *)
Lemma rejected_default_card_leaves_none : ¬ @defaultRequestLeavesOne digitsOnly.
Proof.
  intros Hclaim.
  destruct (Hclaim 0 "c3" monthAsText cardsDB "u1" eq_refl eq_refl
              cardsDB_atMostOneDefault) as (id & Hid & _).
  assert (E : (createCard (H := digitsOnly) 0 "c3" monthAsText cardsDB).1
              = set_cards (unsetDefaults "u1" (cards cardsDB)) cardsDB)
    by (vm_compute; reflexivity).
  rewrite E in Hid. by apply no_default_after_unset in Hid.
Qed.

(** ** The weekly series *)

(** The points in time of a calendar day are those from its start to its
    end; the day [k] days back starts less than [k + 1] days back. *)
Lemma in_day (now k t : Z) :
  0 ≤ k →
  (startOfDay (minusDays now k) ≤ t ∧ t ≤ endOfDay (minusDays now k))
  ↔ dayOf t = dayOf now - k.
Proof.
  intros Hk. unfold endOfDay, startOfDay, minusDays, dayOf, msPerDay.
  Z.div_mod_to_equations. lia.
Qed.

Lemma within_week (now k t : Z) :
  0 ≤ k ≤ 6 → dayOf t = dayOf now - k → minusDays now 7 ≤ t.
Proof.
  intros Hk. unfold minusDays, dayOf, msPerDay.
  Z.div_mod_to_equations. lia.
Qed.

Lemma weekdayOf_named (day : Z) : ∃ name, weekdayOf day = Some name ∧ name ∈ dayNames.
Proof.
  unfold weekdayOf.
  assert (Hr : 0 ≤ (day + 4) mod 7 < 7) by (apply Z.mod_pos_bound; lia).
  destruct (dayNames !! Z.to_nat ((day + 4) mod 7)) as [name|] eqn:Hname.
  - exists name. split; [done|]. by eapply list_elem_of_lookup_2.
  - apply lookup_ge_None in Hname. cbn in Hname. lia.
Qed.

Lemma getDay_minusDays (now k : Z) :
  dayNames !! Z.to_nat (getDay (minusDays now k)) = weekdayOf (dayOf now - k).
Proof.
  unfold weekdayOf, getDay. do 3 f_equal.
  unfold minusDays, dayOf, msPerDay. Z.div_mod_to_equations. lia.
Qed.

(** The sum, over the rows of a user the dashboard has read, of those
    within the day [k] days back is the sum over the rows of the table that
    are the user's and dated on that day. *)
Lemma day_sum {A : Type} (f date : A → Z) (owner : A → string)
    (R : relation (string * A)) `{!RelDecision R} (u : string) (now k : Z)
    (m : gmap string A) :
  0 ≤ k ≤ 6 →
  sumOf f
    (filter (λ t, startOfDay (minusDays now k) ≤ date t.2
                  ∧ date t.2 ≤ endOfDay (minusDays now k))
       (filter (λ x, minusDays now 7 ≤ date x.2)
          (merge_sort R
             (filter (λ x, String.eqb (owner x.2) u = true) (map_to_list m)))))
  = sumOf f
      (filter (λ x, owner x.2 = u ∧ dayOf (date x.2) = dayOf now - k) (map_to_list m)).
Proof.
  intros Hk. rewrite list_filter_filter.
  etrans.
  { apply sumOf_Permutation, filter_Permutation, merge_sort_Permutation. }
  rewrite list_filter_filter. f_equal. apply list_filter_iff.
  intros [id x]. cbn [snd]. rewrite String.eqb_eq, in_day by lia.
  split.
  - intros [[? ?] ?]. done.
  - intros [? ?]. split; [|done]. split; [done|]. by eapply within_week.
Qed.



(** The series of that Wednesday after the scenario of C3: six empty days
    and, today, 500.00 earned less 120.00 spent. *)
Example weekly_series_of_scenario :
  Dashboard.weeklyStats
    (dashboardOf aWednesday "u1" (@afterScenario digitsOnly aWednesday registeredDB))
  = [WeeklyStat.mk (Some "Thu") 0; WeeklyStat.mk (Some "Fri") 0;
     WeeklyStat.mk (Some "Sat") 0; WeeklyStat.mk (Some "Sun") 0;
     WeeklyStat.mk (Some "Mon") 0; WeeklyStat.mk (Some "Tue") 0;
     WeeklyStat.mk (Some "Wed") (units 380)].
Proof. vm_compute. reflexivity. Qed.

(** ** Pagination *)

Lemma ceilDiv_spec (total limit : Z) :
  0 < limit →
  limit * (ceilDiv total limit - 1) < total ≤ limit * ceilDiv total limit.
Proof.
  intros Hpos. unfold ceilDiv.
  pose proof (Z.div_mod (- total) limit ltac:(lia)) as Hdm.
  pose proof (Z.mod_pos_bound (- total) limit Hpos) as Hr.
  nia.
Qed.

(** A page of a positive size that starts in the list or at its end. *)
Lemma page_forward {A : Type} (skip take_ : Z) (l : list A) :
  0 ≤ take_ ≤ maxSafeInteger → 0 ≤ skip ≤ maxSafeInteger →
  page skip take_ l = Some (take (Z.to_nat take_) (drop (Z.to_nat skip) l)).
Proof.
  intros Htake Hskip. unfold page, fitsInt64, maxSafeInteger in *.
  change (2 ^ 63) with 9223372036854775808.
  repeat match goal with
    | |- context [?a <=? ?b] => destruct (Z.leb_spec a b); [|lia]
    | |- context [?a <? ?b] => destruct (Z.ltb_spec a b); try lia
    end.
  reflexivity.
Qed.

(** The first row and the size of a page, for a page from 1 on of a
    positive size: numbers that are exact. *)
Lemma skip_take_exact (page_ limit : Z) :
  0 < limit → 1 ≤ page_ → page_ * limit ≤ maxSafeInteger →
  0 ≤ limit ≤ maxSafeInteger ∧ 0 ≤ (page_ - 1) * limit ≤ maxSafeInteger.
Proof. unfold maxSafeInteger. nia. Qed.

Lemma paginated_intro `{JsBuiltins} {A : Type} (req : Req.t) (l : list (string * A))
    (total : Z) :
  0 < limitOf req → 1 ≤ pageOf req → pageOf req * limitOf req ≤ maxSafeInteger →
  Z.of_nat (length l) = total →
  ∃ rows_,
    page ((pageOf req - 1) * limitOf req) (limitOf req) l = Some rows_ ∧
    paginated req total
      (Json 200 (Listing.mk rows_
                   (Pagination.mk (pageOf req) (limitOf req) total
                      (ceilDiv total (limitOf req))))).
Proof.
  intros Hlimit Hpage Hexact Htotal.
  pose proof (ceilDiv_spec total (limitOf req) Hlimit) as Hceil.
  destruct (skip_take_exact _ _ Hlimit Hpage Hexact) as [Htake Hskip].
  rewrite page_forward by done.
  eexists. split; [reflexivity|]. eexists. split; [reflexivity|].
  split; [done|]. split.
  - rewrite length_take. lia.
  - intros Hbeyond. rewrite drop_ge by nia. by rewrite take_nil.
Qed.

Ltac list_run Hu Hne Hlimit Hpage Hexact :=
  munfold; rewrite Hu, Hne; msimpl;
  match goal with
  | |- context [page _ _ ?l] =>
      let rows_ := fresh "rows_" in
      let Hrows := fresh "Hrows" in
      let Hpag := fresh "Hpag" in
      destruct (paginated_intro _ l _ Hlimit Hpage Hexact eq_refl)
        as (rows_ & Hrows & Hpag);
      unfold pageOf, limitOf in Hrows; rewrite Hrows; msimpl;
      eexists; split; [reflexivity|];
      rewrite (Permutation_length (merge_sort_Permutation _ _)) in Hpag;
      exact Hpag
  end.

Section lists.
Context `{JsBuiltins}.
Context (req : Req.t) (db : DB) (u : string).
Hypothesis caller : Req.userId req = Some u.
Hypothesis caller_named : String.eqb u "" = false.
Hypothesis limit_positive : 0 < limitOf req.
Hypothesis page_positive : 1 ≤ pageOf req.
Hypothesis numbers_exact : pageOf req * limitOf req ≤ maxSafeInteger.

Lemma getExpenses_paginated :
  ∃ r, getExpenses req db = (db, r) ∧
       paginated req
         (totalOf (λ r, String.eqb (Expense.userId r) u
                        && matches Expense.category (Req.query req !! "category") r)
            (expenses db)) r.
Proof.
  unfold getExpenses.
  list_run caller caller_named limit_positive page_positive numbers_exact.
Qed.

Lemma getIncomes_paginated :
  ∃ r, getIncomes req db = (db, r) ∧
       paginated req
         (totalOf (λ r, String.eqb (Income.userId r) u
                        && matches Income.source (Req.query req !! "source") r)
            (incomes db)) r.
Proof.
  unfold getIncomes.
  list_run caller caller_named limit_positive page_positive numbers_exact.
Qed.

Lemma getInvestments_paginated :
  ∃ r, getInvestments req db = (db, r) ∧
       paginated req
         (totalOf (λ r, String.eqb (Investment.userId r) u
                        && matches Investment.area (Req.query req !! "area") r)
            (investments db)) r.
Proof.
  unfold getInvestments.
  list_run caller caller_named limit_positive page_positive numbers_exact.
Qed.

Lemma getTransactions_paginated :
  ∃ r, dashboardController.getTransactions req db = (db, r) ∧
       paginated req
         (totalOf (λ r, String.eqb (Transaction.userId r) u) (transactions db)) r.
Proof.
  unfold dashboardController.getTransactions.
  list_run caller caller_named limit_positive page_positive numbers_exact.
Qed.
End lists.

Lemma ceilDiv_nonneg (total limit : Z) : 0 ≤ total → 0 < limit → 0 ≤ ceilDiv total limit.
Proof. intros Ht Hl. pose proof (ceilDiv_spec total limit Hl). nia. Qed.

(** The rows that a [findMany] finds are the rows of the table that match,
    each once. *)
Section found.
Context {A : Type} (P : string * A → Prop) `{!∀ x, Decision (P x)}.
Context (R : relation (string * A)) `{!RelDecision R} (m : gmap string A).

Lemma found_NoDup : NoDup (merge_sort R (filter P (map_to_list m))).
Proof. rewrite merge_sort_Permutation. apply NoDup_filter, NoDup_map_to_list. Qed.

Lemma found_rows (id : string) (r : A) :
  (id, r) ∈ merge_sort R (filter P (map_to_list m)) ↔ m !! id = Some r ∧ P (id, r).
Proof.
  rewrite merge_sort_Permutation, list_elem_of_filter, elem_of_map_to_list. tauto.
Qed.
End found.

Ltac listed Hu Hne :=
  munfold; rewrite Hu, Hne; msimpl; eexists; split; [reflexivity|];
  split; [apply found_NoDup|];
  intros id r; rewrite found_rows; cbn [snd]; rewrite String.eqb_eq; reflexivity.

(** C8, as amended. The lists of expenses, incomes, investments and
    transactions are paginated. [page] and [limit] are the numbers of the
    query; they default to 1 and 10 when they are absent, not numbers or 0.
    For a positive [limit] and a page from 1 on, with [page * limit] a
    number that is exact, the response is 200 and reports [pages] as the
    ceiling of [total / limit], where [total] is the number of rows that
    match, whatever the page; and a page beyond [pages] (which is a page
    from 1 on) has no rows. The lists of cards, budgets and savings goals
    have no pages: they answer 200 with the rows of the caller, all of them
    and each once, whatever the query. *)
Theorem pagination_law `{JsBuiltins} (req : Req.t) (db : DB) (u : string) :
  Req.userId req = Some u → u ≠ "" →
  (Req.query req !! "page" = None → pageOf req = 1) ∧
  (Req.query req !! "limit" = None → limitOf req = 10) ∧
  (parseInt (Req.query req !! "page") = None
   ∨ parseInt (Req.query req !! "page") = Some 0 → pageOf req = 1) ∧
  (parseInt (Req.query req !! "limit") = None
   ∨ parseInt (Req.query req !! "limit") = Some 0 → limitOf req = 10) ∧
  (∀ n, parseInt (Req.query req !! "page") = Some n → n ≠ 0 → pageOf req = n) ∧
  (∀ n, parseInt (Req.query req !! "limit") = Some n → n ≠ 0 → limitOf req = n) ∧
  (0 < limitOf req →
   (∀ total, 0 ≤ total → ceilDiv total (limitOf req) < pageOf req → 1 ≤ pageOf req) ∧
   (1 ≤ pageOf req → pageOf req * limitOf req ≤ maxSafeInteger →
    (∃ r, getExpenses req db = (db, r) ∧
          paginated req
            (totalOf (λ r, String.eqb (Expense.userId r) u
                           && matches Expense.category (Req.query req !! "category") r)
               (expenses db)) r) ∧
    (∃ r, getIncomes req db = (db, r) ∧
          paginated req
            (totalOf (λ r, String.eqb (Income.userId r) u
                           && matches Income.source (Req.query req !! "source") r)
               (incomes db)) r) ∧
    (∃ r, getInvestments req db = (db, r) ∧
          paginated req
            (totalOf (λ r, String.eqb (Investment.userId r) u
                           && matches Investment.area (Req.query req !! "area") r)
               (investments db)) r) ∧
    (∃ r, dashboardController.getTransactions req db = (db, r) ∧
          paginated req
            (totalOf (λ r, String.eqb (Transaction.userId r) u) (transactions db)) r))) ∧
  (∃ l, getCards req db = (db, Json 200 l) ∧ ownRows Card.userId u (cards db) l) ∧
  (∃ l, budgetController.getBudgets req db = (db, Json 200 l)
        ∧ ownRows Budget.userId u (budgets db) l) ∧
  (∃ l, dashboardController.getBudgets req db = (db, Json 200 l)
        ∧ ownRows Budget.userId u (budgets db) l) ∧
  (∃ l, getSavingsGoals req db = (db, Json 200 l)
        ∧ ownRows SavingsGoal.userId u (savingsGoals db) l).
Proof.
  intros Hu Hne. apply String.eqb_neq in Hne.
  split; [by unfold pageOf; intros ->|]. split; [by unfold limitOf; intros ->|].
  split; [by unfold pageOf; intros [-> | ->]|].
  split; [by unfold limitOf; intros [-> | ->]|].
  split.
  { intros n Hn Hn0. unfold pageOf. rewrite Hn. cbn.
    by destruct (Z.eqb_spec n 0). }
  split.
  { intros n Hn Hn0. unfold limitOf. rewrite Hn. cbn.
    by destruct (Z.eqb_spec n 0). }
  split.
  { intros Hlimit. split.
    - intros total Htotal Hbeyond. pose proof (ceilDiv_nonneg total _ Htotal Hlimit). lia.
    - intros Hpage Hexact.
      split; [by apply getExpenses_paginated|].
      split; [by apply getIncomes_paginated|].
      split; [by apply getInvestments_paginated|].
      by apply getTransactions_paginated. }
  unfold ownRows.
  split; [unfold getCards; listed Hu Hne|].
  split; [unfold budgetController.getBudgets; listed Hu Hne|].
  split; [unfold dashboardController.getBudgets; listed Hu Hne|].
  unfold getSavingsGoals; listed Hu Hne.
Qed.

Lemma pagination_law_witness :
  ∃ r, getExpenses (H := digitsOnly) thirdPage threeExpenses = (threeExpenses, r) ∧
       paginated (H := digitsOnly) thirdPage
         (totalOf (λ r, String.eqb (Expense.userId r) "u1"
                        && matches Expense.category (Req.query thirdPage !! "category") r)
            (expenses threeExpenses)) r.
Proof.
  apply (proj1 (proj2 (proj1 (proj2 (proj2 (proj2 (proj2 (proj2 (proj2
           (pagination_law (H := digitsOnly) thirdPage threeExpenses "u1" eq_refl
              ltac:(discriminate))))))))
                         ltac:(vm_compute; reflexivity))
                  ltac:(vm_compute; discriminate) ltac:(vm_compute; discriminate))).
Defined.

(** The third page of two of three expenses: no rows, total 3, 2 pages. *)
Example third_page_is_empty :
  (getExpenses (H := digitsOnly) thirdPage threeExpenses).2
  = Json 200 (Listing.mk [] (Pagination.mk 3 2 3 2)).
Proof. vm_compute. reflexivity. Qed.

(** A [limit] that does not fit 64 bits is rejected by the query: 500. *)
Example limit_beyond_64_bits :
  (getExpenses (H := digitsOnly)
     (request "u1" "" [("limit", "99999999999999999999")] []) threeExpenses).2
  = JsonError 500 "Failed to fetch expenses".
Proof. vm_compute. reflexivity. Qed.

(** The list of cards takes no [page] and no [limit]: asked for page 2 of
    the two cards of [u1] it answers with both and reports no pages. *)
Lemma cards_are_not_paginated : ¬ @everyListPaginated digitsOnly.
Proof.
  intros Hclaim.
  destruct (Hclaim ListCards (request "u1" "" [("page", "2"); ("limit", "10")] [])
              cardsDB 2%nat None) as (pg & Hpg & _).
  - vm_compute. reflexivity.
  - discriminate Hpg.
Qed.

(** A negative [limit] is passed on as it is: the first page of [-2] of
    three expenses has two rows and reports [-1] pages. *)
Example negative_limit :
  pageSummary (getExpenses (H := digitsOnly)
                 (request "u1" "" [("limit", "-2")] []) threeExpenses)
  = Json 200 (2%nat, Some (Pagination.mk 1 (-2) 3 (-1))).
Proof. vm_compute. reflexivity. Qed.

(** * Properties of all handlers

    The handlers of the routers, each run to each of its ends. *)

Ltac open_served E :=
  unfold served in E;
  match type of E with
  | (let '(_, _) := ?h ?req ?db in _) = _ =>
      let E' := fresh "E" in
      destruct (h req db) as [? ?] eqn:E'; injection E as <- <-
  end.

Ltac open_handler E :=
  unfold getExpenses, createExpense, updateExpense, deleteExpense,
    getIncomes, createIncome, updateIncome, deleteIncome,
    getInvestments, createInvestment, updateInvestment, deleteInvestment,
    budgetController.getBudgets, budgetController.createBudget,
    budgetController.updateBudget, budgetController.deleteBudget,
    getCards, createCard, updateCard, deleteCard,
    getSavingsGoals, createSavingsGoal, updateSavingsGoal, contributeSavingsGoal,
    withdrawSavingsGoal, deleteSavingsGoal,
    dashboardController.getDashboard, dashboardController.getTransactions,
    dashboardController.createTransaction, dashboardController.getBudgets,
    dashboardController.createBudget, dashboardController.updateBudget in E;
  munfold_in E.

(** Every handler of the list in turn, each run to each of its ends: the
    store after the call and the response are then explicit. *)
Ltac each_handler Hin E :=
  repeat (apply elem_of_cons in Hin as [-> | Hin]); [..|by apply elem_of_nil in Hin];
  open_served E;
  match goal with
  | E' : _ = (_, _) |- _ => open_handler E'; run_in E'; injection E' as <- <-
  end.

(** A handler of a list, found in it. *)
Ltac listed_handler :=
  unfold handlers, checkedHandlers, reads, ledgerWrites, amountUpdates, otherWrites;
  cbn [Datatypes.app];
  repeat first [apply list_elem_of_here | apply list_elem_of_further].

(** X1: a request that a handler of the routers answers with a status
    from 400 to 499 has written nothing: the store after the call is the
    store before it. *)
Theorem client_error_writes_nothing `{JsBuiltins} (now : Z) (newId : string) (h : Handler)
    (req : Req.t) (db : DB) :
  h ∈ handlers now newId → 400 ≤ (h req db).2 < 500 → (h req db).1 = db.
Proof.
  intros Hin Hs. destruct (h req db) as [db' s] eqn:E. cbn [fst snd] in *.
  unfold handlers, checkedHandlers, reads, ledgerWrites, amountUpdates, otherWrites in Hin.
  cbn [Datatypes.app] in Hin.
  each_handler Hin E; first [reflexivity | cbn [statusOf] in Hs; lia].
Qed.

Lemma client_error_writes_nothing_witness :
  (served deleteIncome (request "u2" "i1" [] []) salaryDB).1 = salaryDB.
Proof.
  apply (client_error_writes_nothing (H := digitsOnly) 0 "new").
  - unfold handlers, checkedHandlers. rewrite !elem_of_app. left. right. left.
    apply list_elem_of_further, list_elem_of_here.
  - vm_compute. split; [discriminate|reflexivity].
Defined.

Ltac data_columns :=
  repeat match goal with
    | Hd : mbind _ _ = Some _ |- _ => columns Hd
    end.

Ltac projections :=
  cbn [accounts incomes expenses investments budgets cards savingsGoals transactions
       set_accounts set_incomes set_expenses set_investments set_budgets set_cards
       set_savingsGoals set_transactions] in *.

(** The ledger row a handler wrote, from the totals it was made with. *)
Ltac ledger_rows :=
  unfold incomeTotals, expenseTotals, investmentTotals in *;
  repeat match goal with
    | H : <[?u := _]> _ !! ?u = Some _ |- _ => rewrite lookup_insert_eq in H; injection H as <-
    end;
  data_columns;
  repeat match goal with
    | Hb : decimal _ = Some _ |- _ => apply decimal_Some in Hb as [-> ?]
    end.

(** X2: for amounts of at most two decimals: when the balance of every
    ledger row is its income less its expense less what is invested, it is
    so again after a call of any handler of the routers (a ledger update
    that would take a total out of the range of its column is rejected and
    leaves the row as it was). *)
Theorem ledger_stays_balanced `{JsBuiltins} (now : Z) (newId : string) (h : Handler)
    (req : Req.t) (db : DB) :
  h ∈ handlers now newId →
  (∀ u a, accounts db !! u = Some a → balanced a) →
  ∀ u a, accounts (h req db).1 !! u = Some a → balanced a.
Proof.
  intros Hin Hbal u a. destruct (h req db) as [db' s] eqn:E. cbn [fst snd].
  unfold handlers, checkedHandlers, reads, ledgerWrites, amountUpdates, otherWrites in Hin.
  cbn [Datatypes.app] in Hin.
  each_handler Hin E; projections; try apply Hbal.
  all: intros Ha; ledger_rows.
  all: repeat (apply lookup_insert_Some in Ha as [[<- <-] | [_ Ha]]); try (by eapply Hbal).
  all: try reflexivity.
  all: match goal with
       | Hrow : accounts _ !! _ = Some ?t |- _ =>
           pose proof (Hbal _ _ Hrow); destruct t; unfold balanced in *; cbn in *; lia
       | _ => unfold balanced; cbn; lia
       end.
Qed.

Lemma ledger_stays_balanced_witness :
  accounts (served (createExpense (H := digitsOnly) 0 "e1") expense120 salaryDB).1 !! "u1"
    = Some (Account.mk (units 380) (units 500) (units 120) 0 0) ∧
  balanced (Account.mk (units 380) (units 500) (units 120) 0 0).
Proof.
  split; [vm_compute; reflexivity|].
  refine (ledger_stays_balanced (H := digitsOnly) 0 "e1"
            (served (createExpense (H := digitsOnly) 0 "e1")) expense120 salaryDB _ _ "u1"
            _ _).
  - listed_handler.
  - intros u a Ha. cbn [accounts salaryDB set_incomes set_accounts] in Ha.
    apply lookup_singleton_Some in Ha as [_ <-]. reflexivity.
  - vm_compute. reflexivity.
Defined.


(** X3: no handler of the routers removes a ledger row, and none changes
    its [totalSavings]. *)
Theorem ledger_rows_persist `{JsBuiltins} (now : Z) (newId : string) (h : Handler)
    (req : Req.t) (db : DB) (u : string) (a : Account.t) :
  h ∈ handlers now newId →
  accounts db !! u = Some a →
  ∃ a', accounts (h req db).1 !! u = Some a' ∧
        Account.totalSavings a' = Account.totalSavings a.
Proof.
  intros Hin Hrow. destruct (h req db) as [db' s] eqn:E. cbn [fst snd].
  unfold handlers, checkedHandlers, reads, ledgerWrites, amountUpdates, otherWrites in Hin.
  cbn [Datatypes.app] in Hin.
  each_handler Hin E; projections; try (by exists a).
  all: ledger_rows.
  all: match goal with
       | Hu : Req.userId _ = Some ?s |- _ => destruct (decide (s = u)) as [->|Hne]
       end.
  all: rewrite ?lookup_insert_eq, ?lookup_insert_ne by done; try (by exists a).
  all: eexists; split; [reflexivity|]; cbn; congruence.
Qed.

Lemma ledger_rows_persist_witness :
  ∃ a', accounts (served (createExpense (H := digitsOnly) 0 "e1") expense120 salaryDB).1
          !! "u1" = Some a' ∧
        Account.totalSavings a'
        = Account.totalSavings (Account.mk (units 500) (units 500) 0 0 0).
Proof.
  apply (ledger_rows_persist (H := digitsOnly) 0 "e1"); [listed_handler|reflexivity].
Defined.

Section ownedBy.
Context {A : Type} (owner : A → string) (u : string).

Lemma ownedBy_insert (m : gmap string A) (id : string) (r' : A) :
  owner r' ≠ u → (∀ r, m !! id = Some r → owner r ≠ u) →
  ownedBy owner u (<[id := r']> m) = ownedBy owner u m.
Proof.
  intros Hr' Hold. unfold ownedBy. apply map_filter_insert_not'; [done|].
  intros r Hr. by apply Hold.
Qed.

Lemma ownedBy_delete (m : gmap string A) (id : string) :
  (∀ r, m !! id = Some r → owner r ≠ u) →
  ownedBy owner u (delete id m) = ownedBy owner u m.
Proof.
  intros Hold. unfold ownedBy. apply map_filter_delete_not.
  intros r Hr. by apply Hold.
Qed.

Lemma ownedBy_fmap (f : A → A) (m : gmap string A) :
  (∀ r, owner (f r) = owner r) → (∀ r, owner r = u → f r = r) →
  ownedBy owner u (f <$> m) = ownedBy owner u m.
Proof.
  intros Hsame Hid. unfold ownedBy. apply map_eq. intros id.
  rewrite !map_lookup_filter, lookup_fmap.
  destruct (m !! id) as [r|]; [|done]. cbn.
  destruct (decide (owner r = u)) as [Hu|Hu].
  - rewrite (Hid r Hu). done.
  - rewrite !option_guard_False; [done|done|]. cbn. by rewrite Hsame.
Qed.
End ownedBy.

Lemma ledgerOf_insert (u v : string) (a : Account.t) (m : gmap string Account.t) :
  v ≠ u →
  filter (λ x : string * Account.t, x.1 = u) (<[v := a]> m) = filter (λ x, x.1 = u) m.
Proof. intros Hne. apply map_filter_insert_not. intros y. cbn. done. Qed.

Ltac other_caller :=
  match goal with
  | Hu : Some ?s ≠ Some ?u |- _ => assert (s ≠ u) by congruence
  end.

Ltac fmap_rows :=
  repeat match goal with
    | H : (_ <$> _) !! _ = Some _ |- _ => apply lookup_fmap_Some in H as (? & <- & H)
    | H : (_ <$> _) !! _ = None |- _ => rewrite lookup_fmap, fmap_None in H
    end.

Ltac owner_differs := cbn; first [congruence | repeat case_match; cbn; congruence].

Ltac known_row :=
  let r := fresh "r" in
  let Hr := fresh "Hr" in
  intros r Hr; fmap_rows; owner_differs.

Ltac framed :=
  unfold storeOf; projections; f_equal;
  repeat first
    [ reflexivity
    | rewrite ledgerOf_insert by done
    | rewrite ownedBy_insert; [|owner_differs|known_row]
    | rewrite ownedBy_delete; [|known_row]
    | rewrite ownedBy_fmap;
        [|intros; owner_differs|intros; repeat case_match; tests; congruence] ].

(** X4: a call leaves the rows and the ledger row of every user other than
    the caller as they were, for every handler of the routers but
    [updateBudget] of the dashboard controller. *)
Theorem other_users_rows_untouched `{JsBuiltins} (now : Z) (newId : string) (h : Handler)
    (req : Req.t) (db : DB) (u : string) :
  h ∈ checkedHandlers now newId → Req.userId req ≠ Some u →
  storeOf u (h req db).1 = storeOf u db.
Proof.
  intros Hin Hu. destruct (h req db) as [db' s] eqn:E. cbn [fst snd].
  unfold checkedHandlers, reads, ledgerWrites, amountUpdates, otherWrites in Hin.
  cbn [Datatypes.app] in Hin.
  each_handler Hin E; try reflexivity.
  all: tests; unfold setAmount in *; fmap_rows; data_columns; try other_caller.
  all: framed.
Qed.

Lemma other_users_rows_untouched_witness :
  storeOf "bob" (served (budgetController.updateBudget (H := digitsOnly)) 
                   (request "alice" "b1" [] [("spent", JNum (units 999))]) bobDB).1
  = storeOf "bob" bobDB.
Proof.
  apply (other_users_rows_untouched (H := digitsOnly) 0 "new").
  - unfold checkedHandlers. rewrite !elem_of_app. do 3 right.
    do 2 apply list_elem_of_further. apply list_elem_of_here.
  - discriminate.
Defined.

(** X5: the ledger is written by the creation and the deletion of an
    income, an expense or an investment only: every other handler of the
    routers leaves the account table as it was. *)
Theorem ledger_written_on_create_and_delete_only `{JsBuiltins} (now : Z) (newId : string)
    (h : Handler) (req : Req.t) (db : DB) :
  h ∈ (reads now ++ amountUpdates ++ otherWrites now newId
       ++ [served dashboardController.updateBudget])%list →
  accounts (h req db).1 = accounts db.
Proof.
  intros Hin. destruct (h req db) as [db' s] eqn:E. cbn [fst snd].
  unfold reads, amountUpdates, otherWrites in Hin. cbn [Datatypes.app] in Hin.
  each_handler Hin E; reflexivity.
Qed.

Lemma ledger_written_on_create_and_delete_only_witness :
  accounts (served (updateIncome (H := digitsOnly)) raise700 salaryDB).1 = accounts salaryDB.
Proof.
  apply (ledger_written_on_create_and_delete_only (H := digitsOnly) 0 "new").
  listed_handler.
Defined.

Section rowSums.
Context {A : Type} (f : A → Z) (P : A → bool).

Lemma sumOf_sorted (R : relation (string * A)) `{!RelDecision R} (l : list (string * A)) :
  sumOf f (merge_sort R l) = sumOf f l.
Proof. apply sumOf_Permutation, merge_sort_Permutation. Qed.

Lemma sumOf_rows_insert_new (m : gmap string A) (id : string) (r : A) :
  m !! id = None →
  sumOf f (filter (λ x, P x.2 = true) (map_to_list (<[id := r]> m)))
  = sumOf f (filter (λ x, P x.2 = true) (map_to_list m)) + (if P r then f r else 0).
Proof.
  intros Hnew.
  rewrite (sumOf_Permutation _ _ _
             (filter_Permutation _ _ _ (map_to_list_insert m id r Hnew))).
  rewrite filter_cons. cbn [snd].
  destruct (P r); case_decide; try done; rewrite ?sumOf_cons; cbn [snd]; lia.
Qed.

Lemma sumOf_rows_delete (m : gmap string A) (id : string) (r : A) :
  m !! id = Some r →
  sumOf f (filter (λ x, P x.2 = true) (map_to_list (delete id m)))
  = sumOf f (filter (λ x, P x.2 = true) (map_to_list m)) - (if P r then f r else 0).
Proof.
  intros Hrow.
  rewrite <- (sumOf_Permutation _ _ _
                (filter_Permutation _ _ _ (map_to_list_delete m id r Hrow))).
  rewrite filter_cons. cbn [snd].
  destruct (P r); case_decide; try done; rewrite ?sumOf_cons; cbn [snd]; lia.
Qed.

Lemma sumOf_rows_insert (m : gmap string A) (id : string) (r r' : A) :
  m !! id = Some r →
  sumOf f (filter (λ x, P x.2 = true) (map_to_list (<[id := r']> m)))
  = sumOf f (filter (λ x, P x.2 = true) (map_to_list m))
    - (if P r then f r else 0) + (if P r' then f r' else 0).
Proof.
  intros Hrow. rewrite <- (insert_delete_eq m).
  rewrite sumOf_rows_insert_new by apply lookup_delete_eq.
  rewrite (sumOf_rows_delete m id r Hrow). reflexivity.
Qed.
End rowSums.


Ltac sums_of f owner u :=
  repeat first
    [ rewrite (sumOf_rows_insert_new f (λ r, String.eqb (owner r) u)) by done
    | erewrite (sumOf_rows_insert f (λ r, String.eqb (owner r) u)) by eassumption
    | erewrite (sumOf_rows_delete f (λ r, String.eqb (owner r) u)) by eassumption ].

(** The ledger row of [Hacc] is the one every other lookup of it found. *)
Ltac same_ledger_row Hacc :=
  lazymatch type of Hacc with
  | ?m !! ?u = Some ?a0 =>
      repeat match goal with
        | Hrow : m !! u = Some ?t |- _ =>
            lazymatch t with
            | a0 => fail
            | _ => assert (t = a0) by congruence; subst t; clear Hrow
            end
        | Hrow : m !! u = None |- _ => congruence
        end;
      rewrite ?Hacc in *
  end.

(** X6: when the income, expense and invested totals of the ledger row of
    a user are the sums of the amounts of its rows, they are so again after
    a call of any handler but [updateIncome] and [updateExpense] that is
    not answered 500. (A creation whose ledger update is rejected, because
    a total would leave the range of its column, is answered 500: it keeps
    the new row and leaves the ledger as it was.) *)
Theorem ledger_follows_rows `{JsBuiltins} (now : Z) (newId : string) (h : Handler)
    (req : Req.t) (db : DB) (u : string) :
  h ∈ (reads now ++ ledgerWrites now newId ++ otherWrites now newId
       ++ [served dashboardController.updateBudget])%list →
  is_Some (accounts db !! u) → synced u db → (h req db).2 ≠ 500 →
  synced u (h req db).1.
Proof.
  intros Hin [a0 Hacc] Hsync. destruct (h req db) as [db' s] eqn:E. cbn [fst snd].
  intros Hok.
  unfold reads, ledgerWrites, otherWrites in Hin. cbn [Datatypes.app] in Hin.
  each_handler Hin E; try exact Hsync.
  all: cbn [statusOf] in Hok; try congruence.
  all: unfold synced, ledgerRow, incomesOf, expensesOf, investmentsOf in *; projections;
       try exact Hsync.
  all: rewrite ?sumOf_sorted in *.
  all: ledger_rows.
  all: sums_of Income.amount Income.userId u; sums_of Expense.amount Expense.userId u;
       sums_of Investment.amount Investment.userId u.
  all: try exact Hsync.
  all: match goal with
       | Hu : Req.userId _ = Some ?s |- _ =>
           destruct (decide (s = u)) as [Heq|Hne]; [subst s|]
       end.
  all: tests; rewrite ?lookup_insert_eq, ?lookup_insert_ne by done.
  all: try congruence.
  all: same_ledger_row Hacc.
  all: cbn [default from_option id Income.userId Income.amount Expense.userId Expense.amount
            Investment.userId Investment.amount Account.totalIncome Account.totalExpense
            Account.totalInvested] in *.
  all: repeat match goal with
         | |- context [String.eqb ?a ?b] => destruct (String.eqb_spec a b); try congruence
         end.
  all: destruct Hsync as (? & ? & ?).
  all: simplify_eq; repeat split; lia.
Qed.

Lemma ledger_follows_rows_witness :
  synced "u1" salaryDB ∧
  (served (createExpense (H := digitsOnly) 0 "e1") expense120 salaryDB).2 = 201 ∧
  synced "u1" (served (createExpense (H := digitsOnly) 0 "e1") expense120 salaryDB).1.
Proof.
  assert (Hs : synced "u1" salaryDB) by (vm_compute; done).
  split; [exact Hs|]. split; [vm_compute; reflexivity|].
  apply (ledger_follows_rows (H := digitsOnly) 0 "e1"); [listed_handler| |exact Hs|].
  - eexists. reflexivity.
  - vm_compute. discriminate.
Defined.

(** ** What a list returns *)

Lemma sublist_reverse {A : Type} (l k : list A) :
  l `sublist_of` k → reverse l `sublist_of` reverse k.
Proof.
  induction 1 as [|x l k _ IH|x l k _ IH].
  - done.
  - rewrite !reverse_cons. by apply sublist_app.
  - rewrite reverse_cons. by apply sublist_inserts_r.
Qed.

Lemma StronglySorted_sublist {A : Type} (R : relation A) (l k : list A) :
  l `sublist_of` k → StronglySorted R k → StronglySorted R l.
Proof.
  induction 1 as [|x l k Hsub IH|x l k Hsub IH]; intros Hk.
  - done.
  - apply StronglySorted_inv in Hk as [Hk Hx]. constructor; [by apply IH|].
    rewrite Forall_forall in *. intros y Hy. apply Hx. by eapply elem_of_sublist.
  - apply StronglySorted_inv in Hk as [Hk _]. by apply IH.
Qed.

(** The rows of a page are rows of the list, in the order of the list. *)
Lemma page_rows {A : Type} (skip take_ : Z) (l rows_ : list A) :
  page skip take_ l = Some rows_ → rows_ `sublist_of` l.
Proof.
  unfold page. intros Hpage. repeat case_match; simplify_eq.
  - etrans; [apply sublist_take|apply sublist_drop].
  - rewrite <- (reverse_involutive l) at 2. apply sublist_reverse.
    etrans; [apply sublist_take|apply sublist_drop].
Qed.

Ltac paged E Hu Hne :=
  munfold_in E; rewrite Hu, Hne in E; msimpl_in E;
  match type of E with
  | context [page ?s ?t ?l] =>
      let rows_ := fresh "rows" in
      let Hrows := fresh "Hrows" in
      let Hnd := fresh "Hnd" in
      let Hin := fresh "Hin" in
      destruct (page s t l) as [rows_|] eqn:Hrows; msimpl_in E; [|discriminate E];
      injection E as <- <-; cbn [Listing.items];
      apply page_rows in Hrows;
      split; [reflexivity|];
      split; [eapply sublist_NoDup; [|exact Hrows]; apply found_NoDup|];
      let id := fresh "id" in
      let r := fresh "r" in
      let Hr := fresh "Hr" in
      intros id r Hr; apply (λ H, elem_of_sublist _ _ _ H Hrows), found_rows in Hr
        as [Hrow Hw];
      cbn [snd] in Hw
  end.

(** X7: the lists of cards, goals and budgets are the rows of the caller,
    each once; a page of expenses, incomes, investments or transactions
    holds rows of the caller only, each once, that match the filter of the
    query; none of the lists writes. *)
Theorem lists_return_own_rows `{JsBuiltins} (req : Req.t) (db : DB) (u : string) :
  Req.userId req = Some u → u ≠ "" →
  (∃ l, getCards req db = (db, Json 200 l) ∧ ownRows Card.userId u (cards db) l) ∧
  (∃ l, getSavingsGoals req db = (db, Json 200 l)
        ∧ ownRows SavingsGoal.userId u (savingsGoals db) l) ∧
  (∃ l, budgetController.getBudgets req db = (db, Json 200 l)
        ∧ ownRows Budget.userId u (budgets db) l) ∧
  (∃ l, dashboardController.getBudgets req db = (db, Json 200 l)
        ∧ ownRows Budget.userId u (budgets db) l) ∧
  (∀ db' l, getExpenses req db = (db', Json 200 l) →
     db' = db ∧ NoDup (Listing.items l) ∧
     ∀ id r, (id, r) ∈ Listing.items l →
       expenses db !! id = Some r ∧ Expense.userId r = u ∧
       matches Expense.category (Req.query req !! "category") r = true) ∧
  (∀ db' l, getIncomes req db = (db', Json 200 l) →
     db' = db ∧ NoDup (Listing.items l) ∧
     ∀ id r, (id, r) ∈ Listing.items l →
       incomes db !! id = Some r ∧ Income.userId r = u ∧
       matches Income.source (Req.query req !! "source") r = true) ∧
  (∀ db' l, getInvestments req db = (db', Json 200 l) →
     db' = db ∧ NoDup (Listing.items l) ∧
     ∀ id r, (id, r) ∈ Listing.items l →
       investments db !! id = Some r ∧ Investment.userId r = u ∧
       matches Investment.area (Req.query req !! "area") r = true) ∧
  (∀ db' l, dashboardController.getTransactions req db = (db', Json 200 l) →
     db' = db ∧ NoDup (Listing.items l) ∧
     ∀ id r, (id, r) ∈ Listing.items l →
       transactions db !! id = Some r ∧ Transaction.userId r = u).
Proof.
  intros Hu Hne. apply String.eqb_neq in Hne. unfold ownRows.
  split; [unfold getCards; listed Hu Hne|].
  split; [unfold getSavingsGoals; listed Hu Hne|].
  split; [unfold budgetController.getBudgets; listed Hu Hne|].
  split; [unfold dashboardController.getBudgets; listed Hu Hne|].
  split.
  { intros db' l E. unfold getExpenses in E. paged E Hu Hne.
    destruct (String.eqb_spec (Expense.userId r) u); done. }
  split.
  { intros db' l E. unfold getIncomes in E. paged E Hu Hne.
    destruct (String.eqb_spec (Income.userId r) u); done. }
  split.
  { intros db' l E. unfold getInvestments in E. paged E Hu Hne.
    destruct (String.eqb_spec (Investment.userId r) u); done. }
  intros db' l E. unfold dashboardController.getTransactions in E. paged E Hu Hne.
  by apply String.eqb_eq in Hw.
Qed.

Lemma lists_return_own_rows_witness :
  ∃ l, getCards makeDefault cardsDB = (cardsDB, Json 200 l)
       ∧ ownRows Card.userId "u1" (cards cardsDB) l.
Proof.
  apply (lists_return_own_rows (H := digitsOnly) makeDefault cardsDB "u1");
    [reflexivity|discriminate].
Defined.

(** ** Pages *)

(** Cut into pieces of [n] rows, a list of at most [k * n] rows is its
    first [k] pieces one after the other. *)
Lemma pieces_concat {A : Type} (n k : nat) (l : list A) :
  (length l ≤ k * n)%nat →
  mjoin ((λ i, take n (drop (i * n) l)) <$> seq 0 k) = l.
Proof.
  revert l. induction k as [|k IH]; intros l Hlen.
  - destruct l; [done|]. cbn in Hlen. lia.
  - cbn [seq fmap list_fmap mjoin list_join]. rewrite <- fmap_S_seq, <- list_fmap_compose.
    rewrite Nat.mul_0_l, drop_0.
    transitivity (take n l ++ drop n l)%list; [|apply take_drop]. f_equal.
    etrans; [|apply (IH (drop n l)); rewrite length_drop; lia].
    f_equal. apply list_fmap_ext. intros _ i _. cbn.
    rewrite drop_drop. repeat f_equal; lia.
Qed.

Lemma slices_concat {A : Type} (limit : Z) (l : list A) :
  0 < limit →
  mjoin ((λ p, slice p limit l) <$> seqZ 1 (ceilDiv (Z.of_nat (length l)) limit)) = l.
Proof.
  intros Hlimit.
  pose proof (ceilDiv_spec (Z.of_nat (length l)) limit Hlimit) as Hceil.
  unfold seqZ. rewrite <- list_fmap_compose.
  etrans; [|apply (pieces_concat (Z.to_nat limit)
                     (Z.to_nat (ceilDiv (Z.of_nat (length l)) limit)) l); nia].
  f_equal. apply list_fmap_ext. intros _ i _. cbn. unfold slice.
  repeat f_equal; nia.
Qed.

Lemma length_sorted {A : Type} (R : relation A) `{!RelDecision R} (l : list A) :
  length (merge_sort R l) = length l.
Proof. apply Permutation_length, merge_sort_Permutation. Qed.

(** Rows of which no two have the same key have one order by it. *)
Lemma sorted_unique {A : Type} (key : A → Z) (l k : list (string * A)) :
  StronglySorted (onRow (strictlyDesc key)) l → StronglySorted (onRow (desc key)) k →
  l ≡ₚ k → l = k.
Proof.
  revert k. induction l as [|x l IH]; intros k Hl Hk Hperm.
  - by apply Permutation_nil_l in Hperm.
  - apply StronglySorted_inv in Hl as [Hl Hx].
    destruct k as [|y k]; [by apply Permutation_nil_r in Hperm|].
    apply StronglySorted_inv in Hk as [Hk Hy].
    assert (y = x) as ->.
    { assert (Hin : y ∈ x :: l) by (rewrite Hperm; left).
      apply elem_of_cons in Hin as [->|Hin]; [done|].
      assert (Hin' : x ∈ y :: k) by (rewrite <- Hperm; left).
      apply elem_of_cons in Hin' as [->|Hin']; [done|].
      rewrite Forall_forall in Hx, Hy.
      specialize (Hx _ Hin). specialize (Hy _ Hin').
      unfold onRow, strictlyDesc, desc in *. lia. }
    f_equal. apply IH; [done|done|]. by apply Permutation_cons_inv in Hperm.
Qed.

Global Instance onRow_desc_trans {A : Type} (key : A → Z) : Transitive (onRow (desc key)).
Proof. intros x y z. unfold onRow, desc. lia. Qed.
Global Instance onRow_desc_total {A : Type} (key : A → Z) : Total (onRow (desc key)).
Proof. intros x y. unfold onRow, desc. lia. Qed.

Ltac sliced Hu Hne Hlimit Hpage Hexact :=
  let all := fresh "all" in
  let Hall := fresh "Hall" in
  let Hsorted := fresh "Hsorted" in
  intros all Hall Hsorted;
  match type of Hall with
  | _ ≡ₚ merge_sort ?R ?l0 =>
      apply (sorted_unique _ _ (merge_sort R l0)) in Hsorted;
        [|by apply StronglySorted_merge_sort; apply _|exact Hall]
  end;
  subst all;
  munfold; rewrite Hu, Hne; msimpl;
  destruct (skip_take_exact _ _ Hlimit Hpage Hexact) as [? ?];
  match goal with
  | |- context [page _ _ ?l] =>
      rewrite (page_forward _ _ l) by done; msimpl;
      eexists; split; [reflexivity|];
      cbn [Pagination.pages];
      match goal with
      | |- context [merge_sort ?R ?l0] => rewrite <- (length_sorted R l0)
      end;
      apply slices_concat, Hlimit
  end.

(** X8: for a page number from 1 and a positive limit, with [page * limit]
    a number that is exact, and rows of which no two have the same date:
    page [p] of a paginated list is rows [(p - 1) * limit] to
    [p * limit - 1] of the matching rows of the caller, the latest first,
    and the pages 1 to [pages] one after the other are all of them. (Rows
    of the same date come in an order that the query does not fix.) *)
Theorem pages_are_slices `{JsBuiltins} (req : Req.t) (db : DB) (u : string) :
  Req.userId req = Some u → u ≠ "" → 0 < limitOf req → 1 ≤ pageOf req →
  pageOf req * limitOf req ≤ maxSafeInteger →
  (∀ all,
     all ≡ₚ expensesMatching u (Req.query req !! "category") db →
     StronglySorted (onRow (strictlyDesc Expense.date)) all →
     ∃ pg,
       getExpenses req db
         = (db, Json 200 (Listing.mk (slice (pageOf req) (limitOf req) all) pg)) ∧
       mjoin ((λ p, slice p (limitOf req) all) <$> seqZ 1 (Pagination.pages pg)) = all) ∧
  (∀ all,
     all ≡ₚ incomesMatching u (Req.query req !! "source") db →
     StronglySorted (onRow (strictlyDesc Income.date)) all →
     ∃ pg,
       getIncomes req db
         = (db, Json 200 (Listing.mk (slice (pageOf req) (limitOf req) all) pg)) ∧
       mjoin ((λ p, slice p (limitOf req) all) <$> seqZ 1 (Pagination.pages pg)) = all) ∧
  (∀ all,
     all ≡ₚ investmentsMatching u (Req.query req !! "area") db →
     StronglySorted (onRow (strictlyDesc Investment.date)) all →
     ∃ pg,
       getInvestments req db
         = (db, Json 200 (Listing.mk (slice (pageOf req) (limitOf req) all) pg)) ∧
       mjoin ((λ p, slice p (limitOf req) all) <$> seqZ 1 (Pagination.pages pg)) = all) ∧
  (∀ all,
     all ≡ₚ transactionsOf u db →
     StronglySorted (onRow (strictlyDesc Transaction.date)) all →
     ∃ pg,
       dashboardController.getTransactions req db
         = (db, Json 200 (Listing.mk (slice (pageOf req) (limitOf req) all) pg)) ∧
       mjoin ((λ p, slice p (limitOf req) all) <$> seqZ 1 (Pagination.pages pg)) = all).
Proof.
  intros Hu Hne Hlimit Hpage Hexact. apply String.eqb_neq in Hne.
  unfold pageOf, limitOf in *.
  split; [unfold getExpenses, expensesMatching; sliced Hu Hne Hlimit Hpage Hexact|].
  split; [unfold getIncomes, incomesMatching; sliced Hu Hne Hlimit Hpage Hexact|].
  split; [unfold getInvestments, investmentsMatching; sliced Hu Hne Hlimit Hpage Hexact|].
  unfold dashboardController.getTransactions, transactionsOf.
  sliced Hu Hne Hlimit Hpage Hexact.
Qed.

Lemma pages_are_slices_witness :
  ∃ pg,
    getExpenses (H := digitsOnly) thirdPage threeExpenses
      = (threeExpenses, Json 200 (Listing.mk (slice 3 2 expensesByDate) pg)) ∧
    mjoin ((λ p, slice p 2 expensesByDate) <$> seqZ 1 (Pagination.pages pg))
    = expensesByDate.
Proof.
  apply (proj1 (pages_are_slices (H := digitsOnly) thirdPage threeExpenses "u1"
                  eq_refl ltac:(discriminate) eq_refl ltac:(discriminate)
                  ltac:(discriminate))).
  - vm_compute. reflexivity.
  - unfold expensesByDate. repeat constructor; unfold onRow, strictlyDesc; cbn; lia.
Defined.

(** ** The order of a list *)

Global Instance onRow_descBool_trans {A : Type} (key : A → bool) :
  Transitive (onRow (descBool key)).
Proof. intros x y z. unfold onRow, descBool. by destruct (key x.2), (key y.2), (key z.2). Qed.
Global Instance onRow_descBool_total {A : Type} (key : A → bool) :
  Total (onRow (descBool key)).
Proof. intros x y. unfold onRow, descBool. destruct (key x.2), (key y.2); auto. Qed.

Ltac ordered E :=
  munfold_in E; run_in E; injection E as <- <-;
  first
    [ by apply StronglySorted_merge_sort; apply _
    | match goal with
      | Hp : page _ _ _ = Some _ |- _ =>
          apply page_rows in Hp; eapply StronglySorted_sublist; [exact Hp|];
          apply StronglySorted_merge_sort; apply _
      end ].

(** X9: the order of the lists: expenses, incomes, investments and
    transactions by date, the latest first; budgets and goals by creation,
    the latest first; cards with the default cards first. *)
Theorem lists_are_ordered `{JsBuiltins} (req : Req.t) (db db' : DB) :
  (∀ l, getExpenses req db = (db', Json 200 l) →
     StronglySorted (onRow (desc Expense.date)) (Listing.items l)) ∧
  (∀ l, getIncomes req db = (db', Json 200 l) →
     StronglySorted (onRow (desc Income.date)) (Listing.items l)) ∧
  (∀ l, getInvestments req db = (db', Json 200 l) →
     StronglySorted (onRow (desc Investment.date)) (Listing.items l)) ∧
  (∀ l, dashboardController.getTransactions req db = (db', Json 200 l) →
     StronglySorted (onRow (desc Transaction.date)) (Listing.items l)) ∧
  (∀ l, budgetController.getBudgets req db = (db', Json 200 l) →
     StronglySorted (onRow (desc Budget.createdAt)) l) ∧
  (∀ l, dashboardController.getBudgets req db = (db', Json 200 l) →
     StronglySorted (onRow (desc Budget.createdAt)) l) ∧
  (∀ l, getSavingsGoals req db = (db', Json 200 l) →
     StronglySorted (onRow (desc SavingsGoal.createdAt)) l) ∧
  (∀ l, getCards req db = (db', Json 200 l) →
     StronglySorted (onRow (descBool Card.isDefault)) l).
Proof.
  repeat split; intros l E.
  - unfold getExpenses in E. ordered E.
  - unfold getIncomes in E. ordered E.
  - unfold getInvestments in E. ordered E.
  - unfold dashboardController.getTransactions in E. ordered E.
  - unfold budgetController.getBudgets in E. ordered E.
  - unfold dashboardController.getBudgets in E. ordered E.
  - unfold getSavingsGoals in E. ordered E.
  - unfold getCards in E. ordered E.
Qed.

Lemma lists_are_ordered_witness :
  ∃ l, getExpenses (H := digitsOnly) (request "u1" "" [] []) threeExpenses
       = (threeExpenses, Json 200 l) ∧
       StronglySorted (onRow (desc Expense.date)) (Listing.items l).
Proof.
  eexists. split; [vm_compute; reflexivity|].
  apply (proj1 (lists_are_ordered (H := digitsOnly) (request "u1" "" [] []) threeExpenses
                  threeExpenses)).
  vm_compute. reflexivity.
Defined.

(** ** Reads, rows that were created and rows that were deleted *)

(** X10: a GET handler leaves the store as it was, whatever it answers. *)
Theorem reads_write_nothing `{JsBuiltins} (now : Z) (h : Handler) (req : Req.t) (db : DB) :
  h ∈ reads now → (h req db).1 = db.
Proof.
  intros Hin. destruct (h req db) as [db' s] eqn:E. cbn [fst snd].
  unfold reads in Hin. each_handler Hin E; reflexivity.
Qed.

Lemma reads_write_nothing_witness :
  (served (dashboardController.getDashboard 0) income500 salaryDB).1
  = salaryDB.
Proof.
  apply (reads_write_nothing (H := digitsOnly) 0). unfold reads.
  repeat first [apply list_elem_of_here | apply list_elem_of_further].
Defined.

(** ** A row that was created, a row that was deleted *)

Ltac created_row E :=
  munfold_in E; run_in E; injection E as <- <- <-; data_columns; tests;
  munfold;
  repeat match goal with
    | Hu : Req.userId _ = Some _ |- _ => rewrite Hu
    | Hne : ?u ≠ "" |- context [String.eqb ?u ""] =>
        rewrite (proj2 (String.eqb_neq u "") Hne)
    end;
  msimpl; eexists; (split; [reflexivity|]);
  apply found_rows; cbn [snd];
  (split; [|apply String.eqb_refl]).

(** X11: a card, a goal or a budget that was created (201) is in the list
    the same caller reads next, as the creation returned it. *)
Theorem created_rows_are_listed `{JsBuiltins} (now : Z) (newId : string) (req : Req.t)
    (db db' : DB) (id : string) :
  (∀ c, createCard now newId req db = (db', Json 201 (id, c)) →
     ∃ l, getCards req db' = (db', Json 200 l) ∧ (id, c) ∈ l) ∧
  (∀ g, createSavingsGoal now newId req db = (db', Json 201 (id, g)) →
     ∃ l, getSavingsGoals req db' = (db', Json 200 l) ∧ (id, g) ∈ l) ∧
  (∀ b, budgetController.createBudget now newId req db = (db', Json 201 (id, b)) →
     ∃ l, budgetController.getBudgets req db' = (db', Json 200 l) ∧ (id, b) ∈ l) ∧
  (∀ b, dashboardController.createBudget now newId req db = (db', Json 201 (id, b)) →
     ∃ l, dashboardController.getBudgets req db' = (db', Json 200 l) ∧ (id, b) ∈ l).
Proof.
  repeat split; intros r E.
  - unfold createCard in E. unfold getCards. created_row E. all: apply lookup_insert_eq.
  - unfold createSavingsGoal in E. unfold getSavingsGoals. created_row E.
    all: apply lookup_insert_eq.
  - unfold budgetController.createBudget in E. unfold budgetController.getBudgets.
    created_row E. all: apply lookup_insert_eq.
  - unfold dashboardController.createBudget in E. unfold dashboardController.getBudgets.
    created_row E. all: apply lookup_insert_eq.
Qed.

Lemma created_rows_are_listed_witness :
  ∃ l, getCards wholeNumber (createCard (H := digitsOnly) 0 "c3" wholeNumber cardsDB).1
       = ((createCard (H := digitsOnly) 0 "c3" wholeNumber cardsDB).1, Json 200 l) ∧
       ("c3", card5678) ∈ l.
Proof.
  apply (proj1 (created_rows_are_listed (H := digitsOnly) 0 "c3" wholeNumber cardsDB _ "c3")
           card5678).
  vm_compute. reflexivity.
Defined.

Ltac deleted_row E :=
  munfold_in E; run_in E; injection E as <- <-; msimpl;
  (split; [apply lookup_delete_eq|]);
  munfold;
  repeat match goal with
    | Hu : Req.userId _ = Some _ |- _ => rewrite Hu
    | Hx : String.eqb _ _ = _ |- _ => rewrite Hx
    end;
  msimpl; rewrite ?lookup_delete_eq; msimpl; eexists; reflexivity.

(** X12: after a deletion that was answered with 200 the row is gone, and
    the same request once more is answered with 404 and writes nothing. *)
Theorem deleted_rows_are_gone `{JsBuiltins} (req : Req.t) (db db' : DB) (m : string) :
  (deleteIncome req db = (db', Json 200 m) →
     incomes db' !! Req.id req = None ∧
     ∃ e, deleteIncome req db' = (db', JsonError 404 e)) ∧
  (deleteExpense req db = (db', Json 200 m) →
     expenses db' !! Req.id req = None ∧
     ∃ e, deleteExpense req db' = (db', JsonError 404 e)) ∧
  (deleteInvestment req db = (db', Json 200 m) →
     investments db' !! Req.id req = None ∧
     ∃ e, deleteInvestment req db' = (db', JsonError 404 e)) ∧
  (budgetController.deleteBudget req db = (db', Json 200 m) →
     budgets db' !! Req.id req = None ∧
     ∃ e, budgetController.deleteBudget req db' = (db', JsonError 404 e)) ∧
  (deleteCard req db = (db', Json 200 m) →
     cards db' !! Req.id req = None ∧
     ∃ e, deleteCard req db' = (db', JsonError 404 e)) ∧
  (deleteSavingsGoal req db = (db', Json 200 m) →
     savingsGoals db' !! Req.id req = None ∧
     ∃ e, deleteSavingsGoal req db' = (db', JsonError 404 e)).
Proof.
  split; [intros E; unfold deleteIncome in *; deleted_row E|].
  split; [intros E; unfold deleteExpense in *; deleted_row E|].
  split; [intros E; unfold deleteInvestment in *; deleted_row E|].
  split; [intros E; unfold budgetController.deleteBudget in *; deleted_row E|].
  split; [intros E; unfold deleteCard in *; deleted_row E|].
  intros E; unfold deleteSavingsGoal in *; deleted_row E.
Qed.

Lemma deleted_rows_are_gone_witness :
  incomes (set_incomes ∅ (set_accounts {["u1" := Account.zero]} emptyDB)) !! "i1" = None ∧
  ∃ e, deleteIncome (request "u1" "i1" [] [])
         (set_incomes ∅ (set_accounts {["u1" := Account.zero]} emptyDB))
       = (set_incomes ∅ (set_accounts {["u1" := Account.zero]} emptyDB), JsonError 404 e).
Proof.
  apply (proj1 (deleted_rows_are_gone (H := digitsOnly) (request "u1" "i1" [] []) salaryDB
                  _ "Income deleted")).
  vm_compute. reflexivity.
Defined.

(** ** Requests without a token, and the two routes of a budget *)

Lemma authMiddleware_rejects (next : Handler) (req : Req.t) (db : DB) :
  Req.userId req = None → authMiddleware next req db = (db, 401).
Proof. intros Hu. unfold authMiddleware. by rewrite Hu. Qed.

Lemma dashboardRoutes_guarded `{JsBuiltins} (now : Z) (newId : string) (m : method)
    (path : list string) (h : Handler) :
  dashboardRoutes now newId m path = Some h → ∃ next, h = authMiddleware next.
Proof.
  intros Hr. unfold dashboardRoutes in Hr.
  repeat case_match; simplify_eq; eauto.
Qed.

(** The routers for a request without a token. *)
Lemma routers_without_token `{JsBuiltins} (now : Z) (newId : string) (m : method)
    (path : list string) (h : Handler) (req : Req.t) (db : DB) :
  routers now newId m path = Some h → Req.userId req = None →
  h req db = (db, 401) ∨ h req db = (db, 404)
  ∨ (m = GET ∧ path = ["health"] ∧ h req db = (db, 200)).
Proof.
  intros Happ Hu. unfold routers, guarded in Happ.
  destruct path as [|p0 rest]; [by injection Happ as <-; auto|].
  destruct (decide (p0 = "api")) as [->|Hapi].
  - destruct (dashboardRoutes now newId m rest) as [h'|] eqn:Hd.
    + injection Happ as <-. apply dashboardRoutes_guarded in Hd as [next ->].
      rewrite authMiddleware_rejects by done. auto.
    + repeat case_match; simplify_eq.
      all: rewrite ?authMiddleware_rejects by done; cbn; auto.
  - repeat case_match; simplify_eq; cbn; auto 10.
Qed.

Lemma normalised_health (path : list string) :
  normalised path = ["health"] → lower <$> path = ["health"].
Proof. unfold normalised. by repeat case_match. Qed.



(** [HEAD /Health]: the route of [GET /health]. *)
Example health_whatever_the_case :
  ∃ h, index (H := digitsOnly) 0 "new" None HEAD ["Health"] = Some h ∧
       h (Req.mk None "" ∅ ∅) emptyDB = (emptyDB, 200).
Proof. eexists. split; reflexivity. Qed.



(** ** Savings goals and cards *)

Section twoAmounts.
Context `{JsBuiltins}.
Context (req1 req2 req12 : Req.t) (db : DB) (u id : string) (g : SavingsGoal.t) (a b : Z).
Hypothesis caller_named : u ≠ "".
Hypothesis caller1 : Req.userId req1 = Some u.
Hypothesis caller2 : Req.userId req2 = Some u.
Hypothesis caller12 : Req.userId req12 = Some u.
Hypothesis goal1 : Req.id req1 = id.
Hypothesis goal2 : Req.id req2 = id.
Hypothesis goal12 : Req.id req12 = id.
Hypothesis sent1 : nullish (field "amount" req1) = false.
Hypothesis sent2 : nullish (field "amount" req2) = false.
Hypothesis sent12 : nullish (field "amount" req12) = false.
Hypothesis amount1 : Number (field "amount" req1) = Some a.
Hypothesis amount2 : Number (field "amount" req2) = Some b.
Hypothesis amount12 : Number (field "amount" req12) = Some (a + b).
Hypothesis positive1 : 0 < a.
Hypothesis positive2 : 0 < b.
Hypothesis row : savingsGoals db !! id = Some g.
Hypothesis owner : SavingsGoal.userId g = u.

(** X17: for amounts of at most two decimals: two withdrawals from a goal,
    one after the other, leave the store as one withdrawal of their sum
    does, the floor at zero included. *)
Lemma withdrawals_add_up :
  statusOf (withdrawSavingsGoal req1 db).2 = 200 ∧
  statusOf (withdrawSavingsGoal req2 (withdrawSavingsGoal req1 db).1).2 = 200 ∧
  (withdrawSavingsGoal req2 (withdrawSavingsGoal req1 db).1).1
    = (withdrawSavingsGoal req12 db).1.
Proof.
  assert (Hg1 : savingsGoals db !! Req.id req1 = Some g) by (by rewrite goal1).
  pose proof (withdrawSavingsGoal_run req1 db u g a caller1 caller_named sent1 amount1
                positive1 Hg1 owner) as Hrun1.
  cbv zeta in Hrun1. rewrite Hrun1. cbn [fst snd statusOf].
  split; [reflexivity|].
  match type of Hrun1 with
  | _ = (?d, Json 200 (_, ?r)) => set (db1 := d) in *; set (g1 := r) in *
  end.
  assert (Hg2 : savingsGoals db1 !! Req.id req2 = Some g1).
  { rewrite goal2, <- goal1. apply lookup_insert_eq. }
  pose proof (withdrawSavingsGoal_run req2 db1 u g1 b caller2 caller_named sent2 amount2
                positive2 Hg2 owner) as Hrun2.
  cbv zeta in Hrun2. rewrite Hrun2. cbn [fst snd statusOf].
  split; [reflexivity|].
  assert (Hg12 : savingsGoals db !! Req.id req12 = Some g) by (by rewrite goal12).
  pose proof (withdrawSavingsGoal_run req12 db u g (a + b) caller12 caller_named sent12
                amount12 ltac:(lia) Hg12 owner) as Hrun12.
  cbv zeta in Hrun12. rewrite Hrun12. cbn [fst snd].
  subst db1 g1. cbn [savingsGoals set_savingsGoals SavingsGoal.userId SavingsGoal.title
    SavingsGoal.description SavingsGoal.targetAmount SavingsGoal.currentAmount
    SavingsGoal.deadline SavingsGoal.priority SavingsGoal.status SavingsGoal.category
    SavingsGoal.icon SavingsGoal.createdAt].
  rewrite goal1, goal2, goal12, insert_insert_eq.
  replace (Z.max 0 (Z.max 0 (SavingsGoal.currentAmount g - a) - b))
    with (Z.max 0 (SavingsGoal.currentAmount g - (a + b))) by lia.
  reflexivity.
Qed.
End twoAmounts.

Lemma withdrawals_add_up_witness :
  statusOf (withdrawSavingsGoal (H := digitsOnly) (amount 10) goalDB).2 = 200 ∧
  statusOf (withdrawSavingsGoal (H := digitsOnly) (amount 5)
              (withdrawSavingsGoal (H := digitsOnly) (amount 10) goalDB).1).2 = 200 ∧
  (withdrawSavingsGoal (H := digitsOnly) (amount 5)
     (withdrawSavingsGoal (H := digitsOnly) (amount 10) goalDB).1).1
  = (withdrawSavingsGoal (H := digitsOnly) (amount 15) goalDB).1.
Proof.
  apply (withdrawals_add_up (H := digitsOnly) (amount 10) (amount 5) (amount 15) goalDB "u1"
           "g1" goal80 (units 10) (units 5)); try reflexivity; discriminate.
Defined.

Section substring.
Local Open Scope nat_scope.

Lemma substring_all (m : nat) (s : string) :
  String.length s ≤ m → String.substring 0 m s = s.
Proof.
  revert m. induction s as [|c s IH]; intros m Hlen.
  - by destruct m.
  - destruct m as [|m]; cbn in *; [lia|]. rewrite IH by lia. reflexivity.
Qed.

Lemma length_substring (n m : nat) (s : string) :
  String.length (String.substring n m s) ≤ m.
Proof.
  revert n m. induction s as [|c s IH]; intros n m.
  - destruct n, m; cbn; lia.
  - destruct n as [|n].
    + destruct m as [|m]; cbn; [lia|]. specialize (IH 0 m). lia.
    + cbn. apply IH.
Qed.

Lemma substring_suffix (n m : nat) (s : string) :
  String.length s ≤ n + m → ∃ p, s = (p ++ String.substring n m s)%string.
Proof.
  revert s. induction n as [|n IH]; intros s Hlen.
  - exists "". by rewrite substring_all.
  - destruct s as [|c s].
    + exists "". by destruct m.
    + cbn in Hlen. destruct (IH s ltac:(lia)) as [p Hp].
      exists (String c p).
      change (String c s = String c (p +:+ String.substring n m s)). by f_equal.
Qed.

Lemma sliceLast4_suffix (s : string) :
  String.length (sliceLast4 s) ≤ 4 ∧ ∃ p, s = (p ++ sliceLast4 s)%string.
Proof.
  unfold sliceLast4. split; [apply length_substring|].
  apply substring_suffix. lia.
Qed.
End substring.

(** X18: when no card of the store holds more than four characters of its
    number, none does after a call of any handler of the routers. *)
Theorem card_numbers_stay_masked `{JsBuiltins} (now : Z) (newId : string) (h : Handler)
    (req : Req.t) (db : DB) :
  h ∈ handlers now newId → cardNumbersMasked db → cardNumbersMasked (h req db).1.
Proof.
  intros Hin Hinv. destruct (h req db) as [db' s] eqn:E. cbn [fst snd].
  unfold handlers, checkedHandlers, reads, ledgerWrites, amountUpdates, otherWrites in Hin.
  cbn [Datatypes.app] in Hin.
  each_handler Hin E; try exact Hinv.
  all: unfold cardNumbersMasked in *; projections; try exact Hinv.
  all: intros id c Hc; fmap_rows; data_columns.
  all: repeat match goal with
         | Hc : <[_ := _]> _ !! _ = Some _ |- _ =>
             apply lookup_insert_Some in Hc as [[<- <-] | [_ Hc]]
         | Hc : delete _ _ !! _ = Some _ |- _ =>
             apply lookup_delete_Some in Hc as [_ Hc]
         end.
  all: fmap_rows; cbn [Card.last4]; repeat case_match; cbn [Card.last4 unsetDefault].
  all: try (by eapply Hinv).
  all: apply (proj1 (sliceLast4_suffix _)).
Qed.

Lemma card_numbers_stay_masked_witness :
  cardNumbersMasked cardsDB ∧
  cardNumbersMasked (served (createCard (H := digitsOnly) 0 "c3") wholeNumber cardsDB).1.
Proof.
  assert (Hm : cardNumbersMasked cardsDB).
  { intros id c Hc. cbn [cards cardsDB set_cards] in Hc.
    apply lookup_insert_Some in Hc as [[_ <-] | [_ Hc]]; [by apply Nat.leb_le|].
    apply lookup_singleton_Some in Hc as [_ <-]. by apply Nat.leb_le. }
  split; [exact Hm|].
  apply (card_numbers_stay_masked (H := digitsOnly) 0 "c3"); [listed_handler|exact Hm].
Defined.

(** X19: when no goal has a negative amount saved, none has after a call
    of any handler of the routers, provided [updateSavingsGoal] is not sent
    a negative [currentAmount]. *)
Theorem saved_amounts_stay_non_negative `{JsBuiltins} (now : Z) (newId : string)
    (h : Handler) (req : Req.t) (db : DB) :
  h ∈ handlers now newId →
  (h = served updateSavingsGoal → lt0 (Number (field "currentAmount" req)) = false) →
  savedAmountsNonNegative db → savedAmountsNonNegative (h req db).1.
Proof.
  intros Hin Hupdate Hinv. destruct (h req db) as [db' s] eqn:E. cbn [fst snd].
  unfold handlers, checkedHandlers, reads, ledgerWrites, amountUpdates, otherWrites in Hin.
  cbn [Datatypes.app] in Hin.
  each_handler Hin E; try exact Hinv.
  all: unfold savedAmountsNonNegative in *; projections; try exact Hinv.
  all: intros id g Hg; unfold setAmount in *; data_columns.
  all: repeat match goal with
         | Hg : <[_ := _]> _ !! _ = Some _ |- _ =>
             apply lookup_insert_Some in Hg as [[<- <-] | [_ Hg]]
         | Hg : delete _ _ !! _ = Some _ |- _ =>
             apply lookup_delete_Some in Hg as [_ Hg]
         end.
  all: try (by eapply Hinv).
  all: cbn [SavingsGoal.currentAmount].
  all: try specialize (Hupdate eq_refl).
  all: repeat match goal with
         | Hf : _ <$> _ = Some _ |- _ => apply fmap_Some in Hf as (? & ? & ->)
         end.
  all: repeat match goal with
         | Hrow : savingsGoals _ !! _ = Some _ |- _ => apply Hinv in Hrow
         end.
  all: unfold lt0, le0 in *; repeat case_match; simplify_eq; tests; lia.
Qed.

Lemma saved_amounts_stay_non_negative_witness :
  savedAmountsNonNegative goalDB ∧
  savedAmountsNonNegative (served (updateSavingsGoal (H := digitsOnly)) saved50 goalDB).1.
Proof.
  assert (Hs : savedAmountsNonNegative goalDB).
  { intros id g Hg. cbn [savingsGoals goalDB set_savingsGoals] in Hg.
    apply lookup_singleton_Some in Hg as [_ <-]. cbn. unfold units. lia. }
  split; [exact Hs|].
  apply (saved_amounts_stay_non_negative (H := digitsOnly) 0 "new");
    [listed_handler|intros _; reflexivity|exact Hs].
Defined.

(** The update of a goal writes the amount it is sent as it is. *)
Example update_sets_negative_amount :
  SavingsGoal.currentAmount
    <$> savingsGoals
          (updateSavingsGoal (H := digitsOnly)
             (request "u1" "g1" [] [("currentAmount", JNum (units (-5)))]) goalDB).1
        !! "g1"
  = Some (units (-5)).
Proof. vm_compute. reflexivity. Qed.

Section cardCreation.
Context `{JsBuiltins}.

(** X20: the card of a creation is stored as it is returned, and holds of
    the number that was sent its last four characters at most. *)
Theorem created_card_keeps_last_four (now : Z) (newId : string) (req : Req.t) (db db' : DB)
    (id : string) (c : Card.t) :
  createCard now newId req db = (db', Json 201 (id, c)) →
  cards db' !! id = Some c ∧
  (String.length (Card.last4 c) ≤ 4)%nat ∧
  ∃ rest, toString (field "last4" req) = rest +:+ Card.last4 c.
Proof.
  intros E. unfold createCard in E. munfold_in E.
  run_in E; injection E as <- <- <-; data_columns; cbn [Card.last4 cards set_cards].
  all: split; [apply lookup_insert_eq|apply sliceLast4_suffix].
Qed.

(** X21: a creation of a card whose [isDefault] is truthy and not a
    boolean fails with 500 after the default cards of the caller were unset:
    the write stays. *)
Theorem failed_card_creation_unsets_default (now : Z) (newId : string) (req : Req.t)
    (db : DB) (u type : string) :
  Req.userId req = Some u → u ≠ "" →
  field "type" req = JStr type → type ≠ "" →
  truthy (field "last4" req) = true →
  truthy (field "cardholderName" req) = true →
  truthy (field "limit" req) = false →
  truthy (field "isDefault" req) = true →
  asBool (field "isDefault" req) = None →
  createCard now newId req db
    = (set_cards (unsetDefaults u (cards db)) db, JsonError 500 "Failed to create card").
Proof.
  intros Hu Hne Htype Htyped Hlast Hname Hlimit Hdef Hbool.
  apply String.eqb_neq in Hne. apply String.eqb_neq in Htyped.
  unfold createCard. munfold. rewrite Hu, Hne, Htype. cbn [truthy toString].
  rewrite Htyped. cbn [negb toString]. rewrite Htyped.
  destruct (finalExpiry _ _ _) as [m y]. msimpl.
  rewrite Hlast, Hname, Hlimit, Hdef. msimpl.
  assert (Hnn : nullish (field "isDefault" req) = false).
  { destruct (field "isDefault" req); done. }
  rewrite Hnn, Hbool.
  repeat match goal with
    | |- context [mbind ?f ?o] =>
        lazymatch o with
        | None => fail
        | _ => destruct o; cbn [mbind option_bind]
        end
    end;
  reflexivity.
Qed.
End cardCreation.

Lemma created_card_keeps_last_four_witness :
  cards (createCard (H := digitsOnly) 0 "c3" wholeNumber cardsDB).1 !! "c3" = Some card5678 ∧
  (String.length (Card.last4 card5678) ≤ 4)%nat ∧
  ∃ rest, toString (field "last4" wholeNumber) = rest +:+ Card.last4 card5678.
Proof.
  apply (created_card_keeps_last_four (H := digitsOnly) 0 "c3" wholeNumber cardsDB).
  vm_compute. reflexivity.
Defined.

Lemma failed_card_creation_unsets_default_witness :
  createCard (H := digitsOnly) 0 "c3" defaultYes cardsDB
  = (set_cards (unsetDefaults "u1" (cards cardsDB)) cardsDB,
     JsonError 500 "Failed to create card").
Proof.
  apply (failed_card_creation_unsets_default (H := digitsOnly) 0 "c3" defaultYes cardsDB "u1"
           "visa"); try reflexivity; discriminate.
Defined.

(** * Properties of the token check and of the users *)

(** ** The token of a request *)

(** The parts of a string that holds no separator, and of two strings put
    together with a separator between them. *)
Lemma splitOn_nonempty (sep : Ascii.ascii) (s : string) : splitOn sep s ≠ [].
Proof. induction s as [|c s IH]; cbn; [done|]. by repeat case_match. Qed.


Lemma splitOn_one (sep : Ascii.ascii) (s p : string) :
  splitOn sep s = [p] ↔ p = s ∧ holds sep s = false.
Proof.
  revert p. induction s as [|c s IH]; intros p; cbn.
  - split; [by intros [= <-]|by intros [-> _]].
  - destruct (Ascii.eqb c sep) eqn:Hc; cbn.
    + split; [|by intros [_ ?]]. intros Hs. injection Hs as _ Hs.
      by apply splitOn_nonempty in Hs.
    + destruct (splitOn sep s) as [|q qs] eqn:Hs.
      { by apply splitOn_nonempty in Hs. }
      split.
      * intros [= <- ->]. by destruct (proj1 (IH q) eq_refl) as [-> ?].
      * intros [-> Hno]. by pose proof (proj2 (IH s) (conj eq_refl Hno)) as [= -> ->].
Qed.

Lemma splitOn_two (sep : Ascii.ascii) (s p0 p1 : string) :
  splitOn sep s = [p0; p1] ↔
  s = p0 +:+ String sep p1 ∧ holds sep p0 = false ∧ holds sep p1 = false.
Proof.
  revert p0. induction s as [|c s IH]; intros p0; cbn.
  - split; [done|]. intros [Hs _]. by destruct p0.
  - destruct (Ascii.eqb_spec c sep) as [->|Hc].
    + split.
      * intros [= <- Hs]. apply splitOn_one in Hs as [-> Hs]. done.
      * intros (Hs & H0 & H1). destruct p0 as [|c0 p0].
        -- injection Hs as ->. by rewrite (proj2 (splitOn_one sep p1 p1) (conj eq_refl H1)).
        -- injection Hs as <- ->. cbn in H0. by rewrite Ascii.eqb_refl in H0.
    + destruct (splitOn sep s) as [|q qs] eqn:Hs.
      { by apply splitOn_nonempty in Hs. }
      apply Ascii.eqb_neq in Hc. split.
      * intros [= <- ->]. destruct (proj1 (IH q) eq_refl) as (-> & H0 & H1).
        cbn. rewrite Hc. done.
      * intros (Hs' & H0 & H1). destruct p0 as [|c0 p0].
        { injection Hs' as -> _. by rewrite Ascii.eqb_refl in Hc. }
        injection Hs' as <- ->. cbn in H0. apply orb_false_iff in H0 as [_ H0].
        by pose proof (proj2 (IH p0) (conj eq_refl (conj H0 H1))) as [= -> ->].
Qed.

Lemma extractTokenFromHeader_Some (authHeader : option string) (token : string) :
  extractTokenFromHeader authHeader = Some token ↔
  authHeader = Some ("Bearer " +:+ token) ∧ holds space token = false.
Proof.
  unfold extractTokenFromHeader. split.
  - destruct authHeader as [h|]; [|done].
    destruct (String.eqb h ""); [done|].
    destruct (splitOn space h) as [|p0 [|p1 [|p2 ps]]] eqn:Hs; try done.
    destruct (String.eqb_spec p0 "Bearer") as [->|]; [|done]. intros [= ->].
    apply splitOn_two in Hs as (-> & _ & Htoken). done.
  - intros [-> Htoken].
    assert (Hs : splitOn space ("Bearer " +:+ token) = ["Bearer"; token]).
    { apply (splitOn_two space _ "Bearer" token). done. }
    rewrite Hs. reflexivity.
Qed.

(** X22: the token of a header is found exactly when the header is
    [Bearer], one space and the token, and the token holds no space. *)
Theorem bearer_token_extracted (authHeader : option string) (token : string) :
  extractTokenFromHeader authHeader = Some token ↔
  authHeader = Some ("Bearer " +:+ token) ∧ holds space token = false.
Proof. apply extractTokenFromHeader_Some. Qed.

(** ** The middleware *)

Section mw.
Context `{AuthLib} {S R : Type}.

(** X23: the token check answers 401 and does not call the handler, or
    the header is [Bearer] and a token that is not empty and verifies, and
    the handler is called with the [userId] of its payload; the optional
    check calls the handler in both cases. *)
Theorem middleware_asks_for_verified_token (now : Z) (authorization : option string)
    (next : Req.t → S → S * Response R) (req : Req.t) (db : S) :
  ((∃ error, middleware.authMiddleware now authorization next req db
             = (db, JsonError 401 error)) ∧
   middleware.optionalAuthMiddleware now authorization next req db = next req db)
  ∨ (∃ token userId,
       authorization = Some ("Bearer " +:+ token) ∧ token ≠ "" ∧
       verifyToken now token = Some userId ∧
       middleware.authMiddleware now authorization next req db
         = next (withUserId userId req) db ∧
       middleware.optionalAuthMiddleware now authorization next req db
         = next (withUserId userId req) db).
Proof.
  unfold middleware.authMiddleware, middleware.optionalAuthMiddleware.
  destruct (extractTokenFromHeader authorization) as [token|] eqn:Htoken; [|left; eauto].
  destruct (String.eqb_spec token "") as [->|Hne]; [left; eauto|].
  destruct (verifyToken now token) as [userId|] eqn:Hv; [|left; eauto].
  apply extractTokenFromHeader_Some in Htoken as [-> _].
  right. exists token, userId. done.
Qed.
End mw.

(** ** Users *)


Lemma findByEmail_None (email : string) (users : gmap string User.t) :
  findByEmail email users = None ↔ ∀ id u, users !! id = Some u → User.email u ≠ email.
Proof.
  unfold findByEmail. rewrite head_None. split.
  - intros Hnone id u Hu He.
    assert (Hin : (id, u) ∈ filter (λ x, User.email x.2 = email) (map_to_list users)).
    { apply list_elem_of_filter. split; [done|]. by apply elem_of_map_to_list. }
    rewrite Hnone in Hin. by apply elem_of_nil in Hin.
  - intros Hall.
    destruct (filter _ _) as [|[id u] l] eqn:Hf; [done|].
    assert (Hin : (id, u) ∈ filter (λ x, User.email x.2 = email) (map_to_list users))
      by (rewrite Hf; left).
    apply list_elem_of_filter in Hin as [He Hin]. apply elem_of_map_to_list in Hin.
    by apply Hall in Hin.
Qed.

Lemma findByEmail_Some (email : string) (users : gmap string User.t) (id : string)
    (u : User.t) :
  findByEmail email users = Some (id, u) → users !! id = Some u ∧ User.email u = email.
Proof.
  unfold findByEmail. intros Hhead. apply head_Some_elem_of in Hhead.
  apply list_elem_of_filter in Hhead as [He Hin]. by apply elem_of_map_to_list in Hin.
Qed.

Lemma head_filter_insert {A : Type} (P : string * A → Prop) `{!∀ x, Decision (P x)}
    (m : gmap string A) (id : string) (r : A) :
  filter P (map_to_list m) = [] → m !! id = None → P (id, r) →
  head (filter P (map_to_list (<[id := r]> m))) = Some (id, r).
Proof.
  intros Hnone Hnew Hr.
  assert (Hp : filter P (map_to_list (<[id := r]> m)) ≡ₚ [(id, r)]).
  { etrans; [apply filter_Permutation, map_to_list_insert; done|].
    rewrite filter_cons_True by done. by rewrite Hnone. }
  apply Permutation_singleton_r in Hp. by rewrite Hp.
Qed.

Lemma findByEmail_insert (email : string) (users : gmap string User.t) (id : string)
    (u : User.t) :
  findByEmail email users = None → users !! id = None → User.email u = email →
  findByEmail email (<[id := u]> users) = Some (id, u).
Proof.
  unfold findByEmail. intros Hnone Hnew He. apply head_None in Hnone.
  by apply head_filter_insert.
Qed.

Section users.
Context `{AuthLib}.

Ltac lookups :=
  repeat match goal with
  | Hl : <[_ := _]> _ !! _ = _ |- _ =>
      first [rewrite lookup_insert_eq in Hl | rewrite lookup_insert_ne in Hl by congruence]
  | Hl : is_Some (<[_ := _]> _ !! _) |- _ =>
      first [rewrite lookup_insert_eq in Hl | rewrite lookup_insert_ne in Hl by congruence]
  | |- context [<[_ := _]> _ !! _] =>
      first [rewrite lookup_insert_eq | rewrite lookup_insert_ne by congruence]
  end.

Ltac auth_run E :=
  unfold authController.register, authController.login, authController.getProfile,
    authController.updateProfile in E;
  repeat (case_match; simplify_eq/=).

Lemma register_created (now : Z) (newId salt : string) (req : Req.t)
    (users users' : gmap string User.t) (db db' : DB) (status : Z) (s : Session.t) :
  authController.register now newId salt req users db = (users', db', Json status s) →
  ∃ email password name,
    field "email" req = JStr email ∧ field "password" req = JStr password ∧
    email ≠ "" ∧ password ≠ "" ∧
    findByEmail email users = None ∧ users !! newId = None ∧ accounts db !! newId = None ∧
    users' = <[newId := User.mk email (hashPassword salt password) (Some name) None]> users ∧
    db' = set_accounts (<[newId := Account.zero]> (accounts db)) db ∧
    status = 201 ∧
    s = Session.mk "User registered successfully" (generateToken now newId) newId email
          (Some name).
Proof.
  intros E. unfold authController.register in E.
  destruct (field "email" req) as [| |?|?|email] eqn:He; cbn in E;
    try (repeat case_match; simplify_eq/=; fail).
  destruct (field "password" req) as [| |?|?|password] eqn:Hp; cbn in E;
    try (repeat case_match; simplify_eq/=; fail).
  repeat (case_match; simplify_eq/=).
  all: eexists email, password, _; repeat split; try done.
  all: intros ->; by rewrite ?orb_true_r in *.
Qed.

(** X24: when no two users share an email, none do after a registration
    or an update of a profile. *)
Theorem emails_stay_unique (now : Z) (newId salt : string) (req req' : Req.t)
    (users : gmap string User.t) (db : DB) :
  uniqueEmails users →
  uniqueEmails (authController.register now newId salt req users db).1.1 ∧
  uniqueEmails (authController.updateProfile req' users db).1.1.
Proof.
  intros Huniq. split.
  - destruct (authController.register now newId salt req users db) as [[users' db'] r] eqn:E.
    cbn. auth_run E; try done.
    all: match goal with Hf : findByEmail _ _ = None |- _ =>
           pose proof (proj1 (findByEmail_None _ _) Hf) as Hfree end.
    all: intros id1 id2 u1 u2 Hid1 Hid2 Heq.
    all: destruct (decide (id1 = newId)) as [->|Hn1];
           destruct (decide (id2 = newId)) as [->|Hn2]; [done|..].
    all: lookups; simplify_eq/=.
    all: try (by eapply Huniq).
    all: try (exfalso; eapply Hfree; eauto; fail).
  - destruct (authController.updateProfile req' users db) as [[users' db'] r] eqn:E.
    cbn. auth_run E; try done.
    all: intros id1 id2 u1 u2 Hid1 Hid2 Heq.
    all: match goal with Hu : _ !! ?k = Some _ |- _ =>
           destruct (decide (id1 = k)) as [->|Hn1];
           destruct (decide (id2 = k)) as [->|Hn2]; [done|..] end.
    all: lookups; simplify_eq/=.
    all: by eapply Huniq.
Qed.

(** X25: after a registration, a registration with the same email is
    answered with 409 and writes nothing. *)
Theorem register_twice_conflicts (now now' : Z) (newId salt newId' salt' : string)
    (req req' : Req.t) (users users' : gmap string User.t) (db db' : DB) (status : Z)
    (s : Session.t) :
  authController.register now newId salt req users db = (users', db', Json status s) →
  field "email" req' = field "email" req →
  truthy (field "password" req') = true →
  authController.register now' newId' salt' req' users' db'
  = (users', db', JsonError 409 "User already exists with this email").
Proof.
  intros E He Hp. apply register_created in E
    as (email & password & name & Hemail & _ & Hne & _ & Hfree & Hnew & _ & -> & -> & _).
  unfold authController.register. rewrite He, Hemail, Hp. cbn.
  destruct (String.eqb_spec email "") as [->|_]; [done|]. cbn.
  by rewrite (findByEmail_insert email users newId (User.mk email _ _ _)).
Qed.

(** X26: after a registration, a login with the same email and password
    succeeds with a token for the user that was registered, when the
    library accepts a password for its own hash. *)
Theorem register_then_login (now now' : Z) (newId salt : string) (req req' : Req.t)
    (users users' : gmap string User.t) (db db' : DB) (status : Z) (s : Session.t) :
  authController.register now newId salt req users db = (users', db', Json status s) →
  (∀ password, comparePassword password (hashPassword salt password) = true) →
  field "email" req' = field "email" req →
  field "password" req' = field "password" req →
  authController.login now' req' users' db'
  = (users', db',
     Json 200 (Session.mk "Login successful" (generateToken now' newId) newId
                 (Session.email s) (Session.name s))).
Proof.
  intros E Hlib He Hp. apply register_created in E
    as (email & password & name & Hemail & Hpassword & Hne & Hnp & Hfree & Hnew & _
        & -> & -> & _ & ->).
  unfold authController.login. rewrite He, Hp, Hemail, Hpassword. cbn.
  destruct (String.eqb_spec email "") as [->|_]; [done|].
  destruct (String.eqb_spec password "") as [->|_]; [done|]. cbn.
  rewrite (findByEmail_insert email users newId (User.mk email _ _ _)) by done. cbn.
  by rewrite Hlib.
Qed.

(** X27: a login writes nothing, and it succeeds only for the user of the
    email and a password that the library accepts for the stored hash. *)
Theorem login_needs_matching_password (now : Z) (req : Req.t) (users : gmap string User.t)
    (db : DB) :
  (authController.login now req users db).1 = (users, db) ∧
  ∀ status s,
    (authController.login now req users db).2 = Json status s →
    ∃ email password user,
      field "email" req = JStr email ∧ field "password" req = JStr password ∧
      users !! Session.id s = Some user ∧ User.email user = email ∧
      comparePassword password (User.password user) = true ∧
      status = 200 ∧ Session.token s = generateToken now (Session.id s) ∧
      Session.email s = email ∧ Session.name s = User.name user.
Proof.
  destruct (authController.login now req users db) as [[users' db'] r] eqn:E. cbn.
  unfold authController.login in E.
  repeat (case_match; simplify_eq/=); (split; [done|]); intros status s' [= <- <-].
  match goal with Hf : findByEmail _ _ = Some _ |- _ =>
    apply findByEmail_Some in Hf as [Hu Hmail] end.
  match goal with Hc : negb _ = false |- _ => apply negb_false_iff in Hc end.
  destruct (field "email" req) as [| |?|?|email]; simplify_eq/=.
  destruct (field "password" req) as [| |?|?|password]; simplify_eq/=.
  eexists _, _, _. cbn. done.
Qed.

(** X28: when every user has a ledger row, every user has one after a
    registration, whatever it is answered with, and after an update of a
    profile. *)
Theorem registered_users_keep_ledger (now : Z) (newId salt : string) (req req' : Req.t)
    (users : gmap string User.t) (db : DB) :
  usersHaveLedger users db →
  (let '(users', db', _) := authController.register now newId salt req users db in
   usersHaveLedger users' db') ∧
  (let '(users', db', _) := authController.updateProfile req' users db in
   usersHaveLedger users' db').
Proof.
  intros Hall. split.
  - destruct (authController.register now newId salt req users db) as [[users' db'] r] eqn:E.
    auth_run E; try done.
    all: intros id Hid; destruct (decide (id = newId)) as [->|Hne].
    all: cbn [accounts set_accounts]; lookups; eauto.
  - destruct (authController.updateProfile req' users db) as [[users' db'] r] eqn:E.
    auth_run E; try done.
    all: intros id Hid.
    all: match goal with Hu : _ !! ?k = Some _ |- _ =>
           destruct (decide (id = k)) as [->|Hne] end.
    all: lookups; eauto.
Qed.

(** X29: the token of a registration, sent as a [Bearer] header, opens
    the profile of the new user: the email and the name of the registration
    and a ledger row that is all zero. The library is taken to verify the
    token it signed, and the token to be a word. *)
Theorem registered_token_opens_profile (now now' : Z) (newId salt : string)
    (req req' : Req.t) (users users' : gmap string User.t) (db db' : DB) (status : Z)
    (s : Session.t) :
  authController.register now newId salt req users db = (users', db', Json status s) →
  verifyToken now' (generateToken now newId) = Some (Some newId) →
  holds space (generateToken now newId) = false →
  generateToken now newId ≠ "" →
  newId ≠ "" →
  middleware.authMiddleware now' (Some ("Bearer " +:+ Session.token s))
    (λ req '(users, db), authController.getProfile req users db) req' (users', db')
  = (users', db',
     Json 200 (Profile.mk newId (Session.email s) (Session.name s) None
                 (Some Account.zero))).
Proof.
  intros E Hverify Hspace Htoken Hid. apply register_created in E
    as (email & password & name & _ & _ & _ & _ & _ & _ & _ & -> & -> & _ & ->).
  cbn [Session.token Session.email Session.name].
  unfold middleware.authMiddleware.
  rewrite (proj2 (extractTokenFromHeader_Some _ _) (conj eq_refl Hspace)).
  destruct (String.eqb_spec (generateToken now newId) "") as [?|_]; [done|].
  rewrite Hverify. unfold authController.getProfile. cbn.
  destruct (String.eqb_spec newId "") as [?|_]; [done|].
  by rewrite !lookup_insert_eq.
Qed.
End users.

Lemma emails_stay_unique_witness :
  uniqueEmails (authController.register (H := plainAuth) 0 "u2" "salt" beaRegisters
                  {["u1" := ann]} registeredDB).1.1 ∧
  uniqueEmails (authController.updateProfile annRenames {["u1" := ann]} registeredDB).1.1.
Proof.
  apply (emails_stay_unique (H := plainAuth)).
  intros id1 id2 u1 u2 H1 H2 _.
  apply lookup_singleton_Some in H1 as [<- _]. by apply lookup_singleton_Some in H2 as [<- _].
Defined.

Lemma register_twice_conflicts_witness :
  authController.register (H := plainAuth) 5 "u2" "pepper" annRegisters {["u1" := ann]}
    registeredDB
  = ({["u1" := ann]}, registeredDB, JsonError 409 "User already exists with this email").
Proof.
  apply (register_twice_conflicts (H := plainAuth) 0 5 "u1" "salt" "u2" "pepper" annRegisters
           annRegisters ∅ {["u1" := ann]} emptyDB registeredDB 201 annSession);
    [vm_compute; reflexivity|reflexivity|reflexivity].
Defined.

Lemma register_then_login_witness :
  authController.login (H := plainAuth) 5 annRegisters {["u1" := ann]} registeredDB
  = ({["u1" := ann]}, registeredDB,
     Json 200 annLogin).
Proof.
  apply (register_then_login (H := plainAuth) 0 5 "u1" "salt" annRegisters annRegisters ∅
           {["u1" := ann]} emptyDB registeredDB 201 annSession);
    [vm_compute; reflexivity| |reflexivity|reflexivity].
  intros password. apply String.eqb_refl.
Defined.

Lemma login_needs_matching_password_witness :
  ∃ email password user,
    field "email" annRegisters = JStr email ∧ field "password" annRegisters = JStr password ∧
    ({["u1" := ann]} : gmap string User.t) !! Session.id annLogin = Some user ∧
    User.email user = email ∧
    comparePassword (H := plainAuth) password (User.password user) = true ∧
    200 = 200 ∧
    Session.token annLogin = generateToken (H := plainAuth) 5 (Session.id annLogin) ∧
    Session.email annLogin = email ∧ Session.name annLogin = User.name user.
Proof.
  apply (proj2 (login_needs_matching_password (H := plainAuth) 5 annRegisters
                  {["u1" := ann]} registeredDB) 200 annLogin).
  vm_compute. reflexivity.
Defined.

Lemma registered_users_keep_ledger_witness :
  (let '(users', db', _) :=
     authController.register (H := plainAuth) 0 "u1" "salt" annRegisters ∅ emptyDB in
   usersHaveLedger users' db') ∧
  (let '(users', db', _) :=
     authController.updateProfile annRenames ∅ emptyDB in
   usersHaveLedger users' db').
Proof.
  apply (registered_users_keep_ledger (H := plainAuth)).
  intros id [u Hu]. by rewrite lookup_empty in Hu.
Defined.

Lemma registered_token_opens_profile_witness :
  middleware.authMiddleware (H := plainAuth) 5 (Some "Bearer jwt.u1")
    (λ req '(users, db), authController.getProfile req users db) (Req.mk None "" ∅ ∅)
    ({["u1" := ann]}, registeredDB)
  = ({["u1" := ann]}, registeredDB,
     Json 200 (Profile.mk "u1" "ann@mail.org" (Some "ann") None (Some Account.zero))).
Proof.
  apply (registered_token_opens_profile (H := plainAuth) 0 5 "u1" "salt" annRegisters
           (Req.mk None "" ∅ ∅) ∅ {["u1" := ann]} emptyDB registeredDB 201 annSession);
    [vm_compute; reflexivity|reflexivity|reflexivity|discriminate|discriminate].
Defined.

(** * Properties of the expiry of a card *)

Lemma splitSlash_splitOn (s : string) : splitSlash s = splitOn slash s.
Proof. induction s as [|c s IH]; [done|]. cbn. by rewrite IH. Qed.

(** X30: a card that is created with an expiry date of two parts that read
    as the numbers [m] and [y] is stored with the month [m] and the year
    [y], a year below 100 moved to this century, whatever [expiryMonth] and
    [expiryYear] were sent; [m] is not 0 and the year is not 0. *)
Theorem card_expiry_from_date `{JsBuiltins} (now : Z) (newId : string) (req : Req.t)
    (db db' : DB) (id : string) (c : Card.t) (mm yy : string) (m y : Z) :
  createCard now newId req db = (db', Json 201 (id, c)) →
  field "expiryDate" req = JStr (mm +:+ String slash yy) →
  holds slash mm = false → holds slash yy = false →
  parseIntStr10 (trim mm) = Some m → parseIntStr10 (trim yy) = Some y →
  m ≠ 0 → y ≠ -2000 →
  Card.expiryMonth c = Some m ∧ Card.expiryYear c = Some (fullYear y).
Proof.
  intros E Hdate Hmm Hyy Hm Hy Hm0 Hy0.
  assert (Hparts : splitSlash (mm +:+ String slash yy) = [mm; yy]).
  { rewrite splitSlash_splitOn. by apply splitOn_two. }
  assert (Hfull : fullYear y ≠ 0) by (unfold fullYear; case_match; tests; lia).
  apply Z.eqb_neq in Hm0. apply Z.eqb_neq in Hfull.
  unfold createCard in E. munfold_in E. rewrite Hdate in E. unfold finalExpiry in E.
  assert (Hne : truthy (JStr (mm +:+ String slash yy)) = true) by (by destruct mm).
  rewrite Hne, Hparts in E. cbn [fmap list_fmap] in E. rewrite Hm, Hy in E.
  cbn [fmap option_fmap option_map from_option] in E. fold (fullYear y) in E.
  cbn [truthy asOptInt] in E. rewrite Hm0, Hfull in E. cbn [negb] in E.
  run_in E; injection E as <- <- <-; data_columns; by simplify_eq/=.
Qed.

Lemma card_expiry_from_date_witness :
  Card.expiryMonth cardDec25 = Some 12 ∧ Card.expiryYear cardDec25 = Some (fullYear 25).
Proof.
  apply (card_expiry_from_date (H := digitsOnly) 0 "c3" expiresDec25 cardsDB
           (createCard (H := digitsOnly) 0 "c3" expiresDec25 cardsDB).1 "c3" cardDec25
           "12" "25" 12 25); try (vm_compute; reflexivity); discriminate.
Defined.
